(** * scriptureLensai2.0: the Bible text splitter and JSON exporter

    A shallow embedding of [scripts/split_bible_kjv.py] and
    [scripts/export_bible_json.py], and the properties of their parsing
    core.

    Modelling conventions.
    - A Python [str] is a [string]; the model is exact on ASCII text
      (characters above 127 are caseless, not blank and not digits).
    - A Python [int] obtained from a capture of digits is an [N]; an HTTP
      status code is a [Z].
    - A [dict] keyed by book names is a [gmap string _]; the alias table,
      whose iteration order matters, is an association list.
    - A reference to a verse or chapter object that lives inside the
      structure being built is the path of that object in the structure.
    - [IndexError] and an exception raised by the HTTP call are values of
      an error type; printed lines are collected in a log. *)

From Stdlib Require Import Ascii String NArith ZArith Lia Bool List.
From Stdlib Require Import DecimalString DecimalN DecimalZ.
From stdpp Require Import base option list strings gmap fin_maps.

Local Open Scope N_scope.

(** ** Characters *)

(** [str.isspace] on ASCII: TAB, LF, VT, FF, CR, FS, GS, RS, US and space.
    The same set is [\s] of a [str] pattern and what [str.strip()] removes. *)
Definition is_space (c : ascii) : bool :=
  let n := N_of_ascii c in
  ((9 <=? n) && (n <=? 13)) || ((28 <=? n) && (n <=? 32)).

(** [\d] on ASCII. *)
Definition is_digit (c : ascii) : bool :=
  let n := N_of_ascii c in (48 <=? n) && (n <=? 57).

Definition is_newline (c : ascii) : bool := N_of_ascii c =? 10.

(** [.] without DOTALL: any character but the line feed. *)
Definition is_dot (c : ascii) : bool := negb (is_newline c).

Definition char_upper (c : ascii) : ascii :=
  let n := N_of_ascii c in
  if (97 <=? n) && (n <=? 122) then ascii_of_N (n - 32) else c.

Definition char_lower (c : ascii) : ascii :=
  let n := N_of_ascii c in
  if (65 <=? n) && (n <=? 90) then ascii_of_N (n + 32) else c.

(** The punctuation class of [is_heading]: hyphen, colon, comma, full
    stop, semicolon, apostrophe, double quote and the two parentheses. *)
Definition is_punct (c : ascii) : bool :=
  let n := N_of_ascii c in
  existsb (N.eqb n) [45; 58; 44; 46; 59; 39; 34; 40; 41].

(** ** Strings *)

Definition str_nonempty (s : string) : bool :=
  match s with EmptyString => false | String _ _ => true end.

Fixpoint str_map (f : ascii -> ascii) (s : string) : string :=
  match s with
  | EmptyString => EmptyString
  | String c s' => String (f c) (str_map f s')
  end.

(** Every character of [s] satisfies [p]. *)
Fixpoint str_all (p : ascii -> bool) (s : string) : bool :=
  match s with
  | EmptyString => true
  | String c s' => p c && str_all p s'
  end.

(** [s.upper()] and [s.lower()]. *)
Definition upper : string -> string := str_map char_upper.
Definition lower : string -> string := str_map char_lower.

(** [s.lstrip(chars)] for the set of characters satisfying [p]. *)
Fixpoint lstrip_by (p : ascii -> bool) (s : string) : string :=
  match s with
  | EmptyString => EmptyString
  | String c s' => if p c then lstrip_by p s' else s
  end.

(** [s.rstrip(chars)] for the set of characters satisfying [p]. *)
Fixpoint rstrip_by (p : ascii -> bool) (s : string) : string :=
  match s with
  | EmptyString => EmptyString
  | String c s' =>
      match rstrip_by p s' with
      | EmptyString => if p c then EmptyString else String c EmptyString
      | r => String c r
      end
  end.

(** [s.strip()], [s.rstrip()] and [s.rstrip("\n")]. *)
Definition rstrip : string -> string := rstrip_by is_space.
Definition strip (s : string) : string := rstrip_by is_space (lstrip_by is_space s).
Definition rstrip_nl : string -> string := rstrip_by is_newline.

(** [s.startswith(p)]. *)
Fixpoint startswith (p s : string) : bool :=
  match p, s with
  | EmptyString, _ => true
  | String a p', String b s' => if Ascii.eqb a b then startswith p' s' else false
  | String _ _, EmptyString => false
  end.

(** [a in s]: [a] occurs as a substring of [s]. *)
Fixpoint contains (a s : string) : bool :=
  startswith a s ||
  match s with
  | EmptyString => false
  | String _ s' => contains a s'
  end.

(** [re.sub(cls+, " ", s)]: every maximal run of characters of the class
    becomes one space; [in_run] tells that the previous character was in
    the class. *)
Fixpoint sub_runs_from (p : ascii -> bool) (in_run : bool) (s : string) : string :=
  match s with
  | EmptyString => EmptyString
  | String c s' =>
      if p c then
        if in_run then sub_runs_from p true s'
        else String " "%char (sub_runs_from p true s')
      else String c (sub_runs_from p false s')
  end.

Definition sub_runs (p : ascii -> bool) (s : string) : string :=
  sub_runs_from p false s.

(** ** Integers and their decimal text *)

(** [int(s)] on a capture of digits; such a capture is a non-empty run of
    ASCII digits, on which [int] cannot raise. *)
Definition int (s : string) : N :=
  match NilEmpty.uint_of_string s with
  | Some d => N.of_uint d
  | None => 0
  end.

(** The text of [n] in an f-string. *)
Definition str_of_N (n : N) : string := NilZero.string_of_uint (N.to_uint n).

Definition str_of_Z (z : Z) : string := NilZero.string_of_int (Z.to_int z).

(** [s.lstrip('0') or '0']. *)
Definition lstrip0_or0 (s : string) : string :=
  match lstrip_by (Ascii.eqb "0"%char) s with
  | EmptyString => "0"
  | r => r
  end.

(** ** Regular expressions

    The patterns of the two scripts use literals, repetitions of a
    character class, capturing groups, one alternation and the end anchor.
    [run] is a backtracking matcher with the semantics of Python's [re]:
    repetitions are greedy and give characters back one at a time, the
    first alternative that leads to a match wins. The continuation
    receives the text matched, the rest of the input and the captures of
    the groups in order of their opening parenthesis. *)

Inductive regex : Type :=
| Eps
| Lit (ignorecase : bool) (s : string)
| Cls (p : ascii -> bool) (lo : nat) (hi : option nat)
| Cat (r1 r2 : regex)
| Alt (r1 r2 : regex)
| Grp (r : regex)
| Eos.

Definition char_eq (ignorecase : bool) (a b : ascii) : bool :=
  if ignorecase then Ascii.eqb (char_lower a) (char_lower b) else Ascii.eqb a b.

(** The text matched and the rest of [s] after the literal [l], if [s]
    starts with it. *)
Fixpoint lit_rest (ic : bool) (l s : string) : option (string * string) :=
  match l, s with
  | EmptyString, _ => Some (EmptyString, s)
  | String a l', String b s' =>
      if char_eq ic a b then
        match lit_rest ic l' s' with
        | Some (m, r) => Some (String b m, r)
        | None => None
        end
      else None
  | String _ _, EmptyString => None
  end.

Definition may_take (hi : option nat) : bool :=
  match hi with Some O => false | _ => true end.

Definition hi_pred (hi : option nat) : option nat :=
  match hi with Some n => Some (Nat.pred n) | None => None end.

(** Greedy repetition of the class [p], between [lo] and [hi] times:
    take one more character while allowed, and fall back to stopping here
    when the continuation fails further on. *)
Fixpoint rep {R : Type} (p : ascii -> bool) (lo : nat) (hi : option nat)
    (acc s : string) (k : string -> string -> option R) : option R :=
  let stop := match lo with O => k acc s | S _ => None end in
  match s with
  | String c s' =>
      if p c && may_take hi then
        match rep p (Nat.pred lo) (hi_pred hi) (acc +:+ String c EmptyString) s' k with
        | Some r => Some r
        | None => stop
        end
      else stop
  | EmptyString => stop
  end.

(** The end anchor matches at the end of the string and before a final
    line feed. *)
Definition at_eos (s : string) : bool :=
  match s with
  | EmptyString => true
  | String c EmptyString => is_newline c
  | _ => false
  end.

Fixpoint run {R : Type} (r : regex) (s : string)
    (k : string -> string -> list string -> option R) : option R :=
  match r with
  | Eps => k EmptyString s []
  | Lit ic l =>
      match lit_rest ic l s with
      | Some (m, rest) => k m rest []
      | None => None
      end
  | Cls p lo hi => rep p lo hi EmptyString s (fun m rest => k m rest [])
  | Cat r1 r2 =>
      run r1 s (fun m1 rest1 c1 =>
        run r2 rest1 (fun m2 rest2 c2 => k (m1 +:+ m2) rest2 (c1 ++ c2)))
  | Alt r1 r2 =>
      match run r1 s k with
      | Some x => Some x
      | None => run r2 s k
      end
  | Grp r' => run r' s (fun m rest c => k m rest (m :: c))
  | Eos => if at_eos s then k EmptyString s [] else None
  end.

(** [pattern.match(s)]: the captures of the first match at the start of
    [s], or [None]. *)
Definition re_match (r : regex) (s : string) : option (list string) :=
  run r s (fun _ _ caps => Some caps).

Definition matches (r : regex) (s : string) : bool :=
  match re_match r s with Some _ => true | None => false end.

(** [m.group(i)], for [i >= 1]. *)
Definition group (caps : list string) (i : nat) : string :=
  nth (Nat.pred i) caps EmptyString.

Definition seq_re (rs : list regex) : regex := foldr Cat Eps rs.

Definition plus (p : ascii -> bool) : regex := Cls p 1 None.
Definition star (p : ascii -> bool) : regex := Cls p 0 None.
Definition exactly (p : ascii -> bool) (n : nat) : regex := Cls p n (Some n).

(** ** Exceptions and Python indexing *)

Inductive exn : Type :=
| IndexError
| KeyError
| ConnectionError.

Inductive result (A : Type) : Type :=
| Ok (a : A)
| Raise (e : exn).
Arguments Ok {A} a.
Arguments Raise {A} e.

Definition bind {A B : Type} (m : result A) (f : A -> result B) : result B :=
  match m with
  | Ok a => f a
  | Raise e => Raise e
  end.

Notation "x <- m ;; k" := (bind m (fun x => k))
  (at level 100, m at next level, right associativity).

(** [l[i]] for a Python list: a negative index counts from the end, an
    index out of range raises [IndexError]. *)
Definition py_index {A : Type} (l : list A) (i : Z) : result A :=
  let len := Z.of_nat (length l) in
  let j := if (i <? 0)%Z then (len + i)%Z else i in
  if ((0 <=? j) && (j <? len))%Z then
    match l !! Z.to_nat j with
    | Some a => Ok a
    | None => Raise IndexError
    end
  else Raise IndexError.

(** [d[k]] for a Python dict. *)
Definition py_getitem {A : Type} (d : gmap string A) (k : string) : result A :=
  match d !! k with
  | Some a => Ok a
  | None => Raise KeyError
  end.

(** [l[-1] = f(l[-1])] on a non-empty list. *)
Fixpoint update_last {A : Type} (f : A -> A) (l : list A) : list A :=
  match l with
  | [] => []
  | [x] => [f x]
  | x :: l' => x :: update_last f l'
  end.

(** The loop [for x in l: st = body(st, x)], where the body may raise. *)
Fixpoint for_each {S A : Type} (body : S -> A -> result S) (l : list A) (st : S) : result S :=
  match l with
  | [] => Ok st
  | x :: l' => st' <- body st x ;; for_each body l' st'
  end.

(** Inverts a sequence of binds that ended without exception. *)
Ltac bind_inv H :=
  repeat match type of H with
         | bind ?m _ = Ok _ =>
             let E := fresh "E" in
             destruct m eqn:E; cbn [bind] in H; [|discriminate H]
         end.

(** ** Lines of a text *)

(** The line boundaries of [str.splitlines] on ASCII: LF, VT, FF, CR, FS,
    GS and RS. *)
Definition is_linebreak (c : ascii) : bool :=
  let n := N_of_ascii c in
  ((10 <=? n) && (n <=? 13)) || ((28 <=? n) && (n <=? 30)).

(** [s.splitlines()]: the lines of [s] without their boundaries; a CR
    followed by a LF is one boundary, and a text that ends with a
    boundary has no empty last line.  [cur] is the line being read and
    [after_cr] tells that the previous character was a CR. *)
Fixpoint splitlines_from (after_cr : bool) (cur s : string) : list string :=
  match s with
  | EmptyString => if str_nonempty cur then [cur] else []
  | String c s' =>
      if after_cr && is_newline c then splitlines_from false cur s'
      else if is_linebreak c
           then cur :: splitlines_from (Ascii.eqb c "013"%char) EmptyString s'
           else splitlines_from false (cur +:+ String c EmptyString) s'
  end.

Definition splitlines (s : string) : list string := splitlines_from false EmptyString s.

(** The string of one line feed. *)
Definition nl : string := String "010"%char EmptyString.

(** [sep.join(l)]. *)
Fixpoint join (sep : string) (l : list string) : string :=
  match l with
  | [] => EmptyString
  | [x] => x
  | x :: l' => x +:+ sep +:+ join sep l'
  end.

(** * scripts/split_bible_kjv.py *)

Module SplitBibleKjv.

Definition BOOKS : list string := [
  "Genesis";"Exodus";"Leviticus";"Numbers";"Deuteronomy";"Joshua";"Judges";"Ruth";
  "1 Samuel";"2 Samuel";"1 Kings";"2 Kings";"1 Chronicles";"2 Chronicles";"Ezra";"Nehemiah";"Esther";"Job";
  "Psalms";"Proverbs";"Ecclesiastes";"Song of Solomon";"Isaiah";"Jeremiah";"Lamentations";"Ezekiel";"Daniel";
  "Hosea";"Joel";"Amos";"Obadiah";"Jonah";"Micah";"Nahum";"Habakkuk";"Zephaniah";"Haggai";"Zechariah";"Malachi";
  "Matthew";"Mark";"Luke";"John";"Acts";"Romans";"1 Corinthians";"2 Corinthians";"Galatians";"Ephesians";"Philippians";"Colossians";
  "1 Thessalonians";"2 Thessalonians";"1 Timothy";"2 Timothy";"Titus";"Philemon";"Hebrews";"James";"1 Peter";"2 Peter";"1 John";"2 John";"3 John";"Jude";"Revelation"
].

(** The dict literal [ALIASES]; [items()] iterates in this order. *)
Definition ALIASES : list (string * list string) := [
  ("Genesis", ["GENESIS"]);
  ("Exodus", ["EXODUS"]);
  ("Leviticus", ["LEVITICUS"]);
  ("Numbers", ["NUMBERS"]);
  ("Deuteronomy", ["DEUTERONOMY"]);
  ("Joshua", ["JOSHUA"]);
  ("Judges", ["JUDGES"]);
  ("Ruth", ["RUTH"]);
  ("1 Samuel", ["1 SAMUEL"; "FIRST BOOK OF SAMUEL"]);
  ("2 Samuel", ["2 SAMUEL"; "SECOND BOOK OF SAMUEL"]);
  ("1 Kings", ["1 KINGS"; "FIRST BOOK OF KINGS"]);
  ("2 Kings", ["2 KINGS"; "SECOND BOOK OF KINGS"]);
  ("1 Chronicles", ["1 CHRONICLES"; "FIRST BOOK OF CHRONICLES"]);
  ("2 Chronicles", ["2 CHRONICLES"; "SECOND BOOK OF CHRONICLES"]);
  ("Ezra", ["EZRA"]);
  ("Nehemiah", ["NEHEMIAH"]);
  ("Esther", ["ESTHER"]);
  ("Job", ["JOB"]);
  ("Psalms", ["PSALM"; "PSALMS"]);
  ("Proverbs", ["PROVERBS"]);
  ("Ecclesiastes", ["ECCLESIASTES"]);
  ("Song of Solomon", ["SONG OF SOLOMON"; "CANTICLES"]);
  ("Isaiah", ["ISAIAH"]);
  ("Jeremiah", ["JEREMIAH"]);
  ("Lamentations", ["LAMENTATIONS"]);
  ("Ezekiel", ["EZEKIEL"]);
  ("Daniel", ["DANIEL"]);
  ("Hosea", ["HOSEA"]);
  ("Joel", ["JOEL"]);
  ("Amos", ["AMOS"]);
  ("Obadiah", ["OBADIAH"]);
  ("Jonah", ["JONAH"]);
  ("Micah", ["MICAH"]);
  ("Nahum", ["NAHUM"]);
  ("Habakkuk", ["HABAKKUK"]);
  ("Zephaniah", ["ZEPHANIAH"]);
  ("Haggai", ["HAGGAI"]);
  ("Zechariah", ["ZECHARIAH"]);
  ("Malachi", ["MALACHI"]);
  ("Matthew", ["MATTHEW"]);
  ("Mark", ["MARK"]);
  ("Luke", ["LUKE"]);
  ("John", ["JOHN"]);
  ("Acts", ["ACTS"]);
  ("Romans", ["ROMANS"]);
  ("1 Corinthians", ["1 CORINTHIANS"; "FIRST EPISTLE OF PAUL THE APOSTLE TO THE CORINTHIANS"]);
  ("2 Corinthians", ["2 CORINTHIANS"; "SECOND EPISTLE OF PAUL THE APOSTLE TO THE CORINTHIANS"]);
  ("Galatians", ["GALATIANS"]);
  ("Ephesians", ["EPHESIANS"]);
  ("Philippians", ["PHILIPPIANS"]);
  ("Colossians", ["COLOSSIANS"]);
  ("1 Thessalonians", ["1 THESSALONIANS"; "FIRST EPISTLE TO THE THESSALONIANS"]);
  ("2 Thessalonians", ["2 THESSALONIANS"; "SECOND EPISTLE TO THE THESSALONIANS"]);
  ("1 Timothy", ["1 TIMOTHY"; "FIRST EPISTLE TO TIMOTHY"]);
  ("2 Timothy", ["2 TIMOTHY"; "SECOND EPISTLE TO TIMOTHY"]);
  ("Titus", ["TITUS"]);
  ("Philemon", ["PHILEMON"]);
  ("Hebrews", ["HEBREWS"]);
  ("James", ["JAMES"]);
  ("1 Peter", ["1 PETER"; "FIRST EPISTLE GENERAL OF PETER"]);
  ("2 Peter", ["2 PETER"; "SECOND EPISTLE GENERAL OF PETER"]);
  ("1 John", ["1 JOHN"; "FIRST EPISTLE GENERAL OF JOHN"]);
  ("2 John", ["2 JOHN"; "SECOND EPISTLE OF JOHN"]);
  ("3 John", ["3 JOHN"; "THIRD EPISTLE OF JOHN"]);
  ("Jude", ["JUDE"]);
  ("Revelation", ["REVELATION"; "REVELATION OF ST. JOHN"; "REVELATION OF ST. JOHN THE DIVINE"])
].

(** The word BOOK in any case, blanks, one or two digits (group 1),
    blanks, one or more characters of the line (group 2), end. *)
Definition BOOK_HEADING_RE : regex :=
  seq_re [Lit true "BOOK"; plus is_space; Grp (Cls is_digit 1 (Some 2%nat));
          plus is_space; Grp (plus is_dot); Eos].

(** Two digits (group 1), a colon, three digits (group 2), a colon, three
    digits (group 3), blanks, the rest of the line (group 4), end. *)
Definition NUM_VERSE_RE : regex :=
  seq_re [Grp (exactly is_digit 2); Lit false ":"; Grp (exactly is_digit 3);
          Lit false ":"; Grp (exactly is_digit 3); plus is_space;
          Grp (star is_dot); Eos].

(** The word CHAPTER or PSALM in any case, blanks, digits (group 1), end. *)
Definition CHAPTER_HEADING_RE : regex :=
  seq_re [Alt (Lit true "CHAPTER") (Lit true "PSALM"); plus is_space;
          Grp (plus is_digit); Eos].

(** Digits (group 1), a colon, digits (group 2), blanks, the rest of the
    line (group 3), end. *)
Definition VERSE_COLON_RE : regex :=
  seq_re [Grp (plus is_digit); Lit false ":"; Grp (plus is_digit);
          plus is_space; Grp (star is_dot); Eos].

(** Digits (group 1), blanks, the rest of the line (group 2), end. *)
Definition VERSE_SIMPLE_RE : regex :=
  seq_re [Grp (plus is_digit); plus is_space; Grp (star is_dot); Eos].

(** The first book of the canon whose name equals [name_part] up to case. *)
Definition book_by_name (name_part : string) : option string :=
  find (fun b => String.eqb (lower b) (lower name_part)) BOOKS.

(** Truth value of a [str | None]. *)
Definition truthy (o : option string) : bool :=
  match o with Some s => str_nonempty s | None => false end.

Definition is_heading (line : string) : option string :=
  let raw := strip line in
  if negb (str_nonempty raw) then None
  else if matches VERSE_COLON_RE raw || matches VERSE_SIMPLE_RE raw then None
  else
    let upper := upper raw in
    let cleaned := sub_runs is_punct upper in
    let cleaned := strip (sub_runs is_space cleaned) in
    let by_name :=
      match re_match BOOK_HEADING_RE raw with
      | Some bh => book_by_name (strip (group bh 2))
      | None => None
      end in
    match by_name with
    | Some b => Some b
    | None =>
        match find (fun '(canon, aliases) =>
                      existsb (fun alias => contains alias upper || contains alias cleaned)
                              aliases) ALIASES with
        | Some (canon, _) => Some canon
        | None => None
        end
    end.

(** [detect_numbered_format]: the loop returns [True] as soon as both
    counters are above their thresholds, [False] when the lines run out. *)
Fixpoint detect_loop (lines : list string) (verse_matches book_matches : N) : bool :=
  match lines with
  | [] => false
  | ln :: rest =>
      let verse_matches :=
        if matches NUM_VERSE_RE ln then verse_matches + 1 else verse_matches in
      let book_matches :=
        if matches BOOK_HEADING_RE ln then book_matches + 1 else book_matches in
      if (200 <? verse_matches) && (30 <? book_matches) then true
      else detect_loop rest verse_matches book_matches
  end.

Definition detect_numbered_format (lines : list string) : bool :=
  detect_loop lines 0 0.

(** *** parse_numbered_format *)

Record nf_state : Type := {
  nf_books_content : gmap string (list string);
  nf_current_book : option string;
  nf_current_chapter : option N;
  nf_last_chapter : option N;
  nf_last_verse_line_index : option (string * nat)
}.

(** [1 <= book_num <= len(BOOKS)]. *)
Definition in_canon (book_num : N) : bool :=
  (1 <=? book_num) && (book_num <=? N.of_nat (length BOOKS)).

(** The book a [BOOK NN Name] heading names: by name, else by number. *)
Definition heading_book (bh : list string) : result (option string) :=
  let book_num := int (group bh 1) in
  let name_part := strip (group bh 2) in
  match book_by_name name_part with
  | Some b => Ok (Some b)
  | None =>
      if in_canon book_num then
        b <- py_index BOOKS (Z.of_N book_num - 1) ;; Ok (Some b)
      else Ok None
  end.

(** [books_content[book].append(item)]. *)
Definition append_line (bc : gmap string (list string)) (book item : string)
    : result (gmap string (list string)) :=
  lst <- py_getitem bc book ;; Ok (<[book := lst ++ [item]]> bc).

Definition nf_reset (st : nf_state) (book : option string) : nf_state :=
  {| nf_books_content := nf_books_content st;
     nf_current_book := book;
     nf_current_chapter := None;
     nf_last_chapter := None;
     nf_last_verse_line_index := None |}.

Definition nf_verse (st : nf_state) (mv : list string) : result nf_state :=
  let book_num := int (group mv 1) in
  let ch_raw := group mv 2 in
  let vs_raw := group mv 3 in
  let text := strip (group mv 4) in
  let chapter := int (lstrip0_or0 ch_raw) in
  let verse := int (lstrip0_or0 vs_raw) in
  misaligned <-
    match nf_current_book st with
    | None => Ok true
    | Some cb =>
        if in_canon book_num then
          b <- py_index BOOKS (Z.of_N book_num - 1) ;; Ok (negb (String.eqb cb b))
        else Ok false
    end ;;
  st <- (if misaligned : bool then
           b <- py_index BOOKS (Z.of_N book_num - 1) ;; Ok (nf_reset st (Some b))
         else Ok st) ;;
  match nf_current_book st with
  | None => Ok st
  | Some cb =>
      st <- (if bool_decide (nf_current_chapter st = Some chapter) then Ok st
             else
               bc <- append_line (nf_books_content st) cb ("Chapter " +:+ str_of_N chapter) ;;
               Ok {| nf_books_content := bc;
                     nf_current_book := nf_current_book st;
                     nf_current_chapter := Some chapter;
                     nf_last_chapter := Some chapter;
                     nf_last_verse_line_index := nf_last_verse_line_index st |}) ;;
      bc <- append_line (nf_books_content st) cb (str_of_N verse +:+ " " +:+ text) ;;
      lst <- py_getitem bc cb ;;
      Ok {| nf_books_content := bc;
            nf_current_book := nf_current_book st;
            nf_current_chapter := nf_current_chapter st;
            nf_last_chapter := nf_last_chapter st;
            nf_last_verse_line_index := Some (cb, (length lst - 1)%nat) |}
  end.

Definition nf_continuation (st : nf_state) (ln_strip : string) : result nf_state :=
  match nf_last_verse_line_index st with
  | Some (bname, idx) =>
      lst <- py_getitem (nf_books_content st) bname ;;
      item <- py_index lst (Z.of_nat idx) ;;
      Ok {| nf_books_content :=
              <[bname := <[idx := item +:+ " " +:+ ln_strip]> lst]> (nf_books_content st);
            nf_current_book := nf_current_book st;
            nf_current_chapter := nf_current_chapter st;
            nf_last_chapter := nf_last_chapter st;
            nf_last_verse_line_index := nf_last_verse_line_index st |}
  | None => Ok st
  end.

(** The body of the loop over the lines. *)
Definition nf_step (st : nf_state) (ln : string) : result nf_state :=
  let ln_strip := strip ln in
  if negb (str_nonempty ln_strip) then Ok st
  else
    match re_match BOOK_HEADING_RE ln_strip with
    | Some bh => b <- heading_book bh ;; Ok (nf_reset st b)
    | None =>
        match re_match NUM_VERSE_RE ln_strip with
        | Some mv => nf_verse st mv
        | None => nf_continuation st ln_strip
        end
    end.

Definition nf_init : nf_state :=
  {| nf_books_content := list_to_map ((fun b => (b, [])) <$> BOOKS);
     nf_current_book := None;
     nf_current_chapter := None;
     nf_last_chapter := None;
     nf_last_verse_line_index := None |}.

(** The final pass keeps the stripped items that are not empty. *)
Definition strip_items (lst : list string) : list string :=
  List.filter str_nonempty (strip <$> lst).

Definition parse_numbered_format (lines : list string) : result (gmap string (list string)) :=
  st <- for_each nf_step lines nf_init ;;
  Ok (strip_items <$> nf_books_content st).

(** *** split_books *)

Record sb_state : Type := {
  sb_books_content : gmap string (list string);
  sb_current : option string;
  sb_heading_buffer : list string
}.

(** [d.setdefault(k, [])]. *)
Definition setdefault_nil (d : gmap string (list string)) (k : string)
    : gmap string (list string) :=
  match d !! k with
  | Some _ => d
  | None => <[k := []]> d
  end.

Definition sb_step (st : sb_state) (line : string) : result sb_state :=
  let book := is_heading line in
  let switch :=
    match book with
    | Some b =>
        str_nonempty b &&
        match sb_current st with
        | None => true
        | Some cur => negb (String.eqb b cur)
        end
    | None => false
    end in
  match book, switch with
  | Some b, true =>
      Ok {| sb_books_content := setdefault_nil (sb_books_content st) b;
            sb_current := Some b;
            sb_heading_buffer := [line] |}
  | _, _ =>
      match sb_current st with
      | None => Ok st
      | Some cur =>
          if match sb_heading_buffer st with [] => false | _ :: _ => true end
             && truthy (is_heading line)
          then Ok {| sb_books_content := sb_books_content st;
                     sb_current := sb_current st;
                     sb_heading_buffer := sb_heading_buffer st ++ [line] |}
          else
            bc <- append_line (sb_books_content st) cur (rstrip_nl line) ;;
            Ok {| sb_books_content := bc;
                  sb_current := sb_current st;
                  sb_heading_buffer := [] |}
      end
  end.

Definition sb_init : sb_state :=
  {| sb_books_content := ∅; sb_current := None; sb_heading_buffer := [] |}.

Definition split_books (lines : list string) : result (gmap string (list string)) :=
  if detect_numbered_format lines then parse_numbered_format lines
  else st <- for_each sb_step lines sb_init ;; Ok (sb_books_content st).

(** *** clean_book_lines *)

Definition blank (s : string) : bool := negb (str_nonempty (strip s)).

(** [while l and not l[0].strip(): l.pop(0)]. *)
Fixpoint pop_leading_blanks (l : list string) : list string :=
  match l with
  | [] => []
  | x :: l' => if blank x then pop_leading_blanks l' else l
  end.

(** [while l and not l[-1].strip(): l.pop()]. *)
Fixpoint pop_trailing_blanks (l : list string) : list string :=
  match l with
  | [] => []
  | x :: l' =>
      match pop_trailing_blanks l' with
      | [] => if blank x then [] else [x]
      | r => x :: r
      end
  end.

Record cl_state : Type := {
  normalized : list string;
  current_chapter : option N;
  last_verse_in_chapter : option N
}.

Definition start_chapter (st : cl_state) (ch_num : N) : cl_state :=
  {| normalized := normalized st ++ ["Chapter " +:+ str_of_N ch_num];
     current_chapter := Some ch_num;
     last_verse_in_chapter := None |}.

Definition append_verse (st : cl_state) (v_num : N) (text : string) : cl_state :=
  {| normalized := normalized st ++ [str_of_N v_num +:+ " " +:+ text];
     current_chapter := current_chapter st;
     last_verse_in_chapter := Some v_num |}.

(** The chapter inferred before a bare verse line. *)
Definition infer_chapter (st : cl_state) (v_num : N) : cl_state :=
  match current_chapter st with
  | None => start_chapter st 1
  | Some cur =>
      match last_verse_in_chapter st with
      | Some last =>
          if (v_num =? 1) && negb (last =? 0) && (1 <? last)
          then start_chapter st ((if cur =? 0 then 0 else cur) + 1)
          else st
      | None => st
      end
  end.

Definition last_is_chapter_line (l : list string) : bool :=
  match last l with
  | Some x => startswith "Chapter " x
  | None => false
  end.

(** The body of the loop over the filtered lines. *)
Definition cl_step (st : cl_state) (ln : string) : cl_state :=
  let raw := strip ln in
  if negb (str_nonempty raw) then st
  else
    match re_match CHAPTER_HEADING_RE raw with
    | Some m_head => start_chapter st (int (group m_head 1))
    | None =>
        match re_match VERSE_COLON_RE raw with
        | Some m_colon =>
            let ch_num := int (group m_colon 1) in
            let v_num := int (group m_colon 2) in
            let text := strip (group m_colon 3) in
            let st := if bool_decide (current_chapter st = Some ch_num) then st
                      else start_chapter st ch_num in
            append_verse st v_num text
        | None =>
            match re_match VERSE_SIMPLE_RE raw with
            | Some m_simple =>
                let v_num := int (group m_simple 1) in
                let text := strip (group m_simple 2) in
                append_verse (infer_chapter st v_num) v_num text
            | None =>
                if match normalized st with [] => false | _ :: _ => true end
                   && negb (last_is_chapter_line (normalized st))
                then {| normalized := update_last (fun x => x +:+ " " +:+ raw) (normalized st);
                        current_chapter := current_chapter st;
                        last_verse_in_chapter := last_verse_in_chapter st |}
                else
                  let st := match current_chapter st with
                            | None => start_chapter st 1
                            | Some _ => st
                            end in
                  {| normalized := normalized st ++ [raw];
                     current_chapter := current_chapter st;
                     last_verse_in_chapter := last_verse_in_chapter st |}
            end
        end
    end.

Definition cl_init : cl_state :=
  {| normalized := []; current_chapter := None; last_verse_in_chapter := None |}.

(** The lines kept by the first loop: headings dropped, the rest
    right-stripped. *)
Definition drop_headings (lines : list string) : list string :=
  rstrip <$> List.filter (fun ln => negb (truthy (is_heading ln))) lines.

Definition clean_book_lines (book : string) (lines : list string) : list string :=
  let filtered := pop_trailing_blanks (pop_leading_blanks (drop_headings lines)) in
  normalized (fold_left cl_step filtered cl_init).

(** The loop of [main] over the canon: [books_content.get(book, [])] goes
    through [clean_book_lines]. *)
Definition normalize_all (books_content : gmap string (list string))
    : list (string * list string) :=
  (fun book => (book, clean_book_lines book (default [] (books_content !! book)))) <$> BOOKS.

(** The heading pipeline: [split_books], then [clean_book_lines] per book. *)
Definition split_and_clean (lines : list string) : result (list (string * list string)) :=
  bc <- split_books lines ;; Ok (normalize_all bc).

(** *** main *)

(** [s.replace(' ', '')]. *)
Fixpoint remove_spaces (s : string) : string :=
  match s with
  | EmptyString => EmptyString
  | String c s' =>
      if Ascii.eqb c " "%char then remove_spaces s' else String c (remove_spaces s')
  end.

(** The text written for a book: the cleaned lines joined by line feeds,
    stripped, and one line feed. *)
Definition output_text (cleaned : list string) : string :=
  strip (join nl cleaned) +:+ nl.

(** What [main] leaves behind: the lines printed and the files written,
    path and text, oldest first. *)
Record output : Type := {
  printed : list string;
  written : list (string * string)
}.

(** The text of a list of names in an f-string; exact for names without
    quote, backslash or control character. *)
Definition repr_list (l : list string) : string :=
  "[" +:+ join ", " ((fun s => "'" +:+ s +:+ "'") <$> l) +:+ "]".

(** The body of the loop of [main] over the canon. *)
Definition write_book (out_dir : string) (books_content : gmap string (list string))
    (o : output) (book : string) : output :=
  let content_lines := default [] (books_content !! book) in
  let cleaned := clean_book_lines book content_lines in
  let output_file := out_dir +:+ "/" +:+ remove_spaces book +:+ ".txt" in
  {| printed := printed o ++
       ["Wrote " +:+ book +:+ ": " +:+ str_of_N (N.of_nat (length cleaned))
        +:+ " lines -> " +:+ output_file];
     written := written o ++ [(output_file, output_text cleaned)] |}.

(** [main], from the text of the input file on: the split, the two
    notices about missing and extra books, one file per book of the
    canon and the last line. *)
Definition main (text out_dir : string) : result output :=
  let lines := splitlines text in
  books_content <- split_books lines ;;
  let found := (map_to_list books_content).*1 in
  let missing := List.filter (fun b => negb (bool_decide (b ∈ found))) BOOKS in
  let extra := List.filter (fun b => negb (bool_decide (b ∈ BOOKS))) found in
  let o := {| printed := []; written := [] |} in
  let o := match missing with
           | [] => o
           | _ :: _ =>
               {| printed := printed o ++
                    ["WARNING: Missing " +:+ str_of_N (N.of_nat (length missing))
                     +:+ " book(s): " +:+ repr_list missing];
                  written := written o |}
           end in
  let o := match extra with
           | [] => o
           | _ :: _ =>
               {| printed := printed o ++
                    ["NOTE: Detected extra book-like sections: " +:+ repr_list extra];
                  written := written o |}
           end in
  let o := fold_left (write_book out_dir books_content) BOOKS o in
  Ok {| printed := printed o ++ ["Done."]; written := written o |}.

End SplitBibleKjv.

(** * scripts/export_bible_json.py *)

Module ExportBibleJson.

Definition BOOKS : list string := [
  "Genesis";"Exodus";"Leviticus";"Numbers";"Deuteronomy";"Joshua";"Judges";"Ruth";
  "1 Samuel";"2 Samuel";"1 Kings";"2 Kings";"1 Chronicles";"2 Chronicles";"Ezra";"Nehemiah";"Esther";"Job";
  "Psalms";"Proverbs";"Ecclesiastes";"Song of Solomon";"Isaiah";"Jeremiah";"Lamentations";"Ezekiel";"Daniel";
  "Hosea";"Joel";"Amos";"Obadiah";"Jonah";"Micah";"Nahum";"Habakkuk";"Zephaniah";"Haggai";"Zechariah";"Malachi";
  "Matthew";"Mark";"Luke";"John";"Acts";"Romans";"1 Corinthians";"2 Corinthians";"Galatians";"Ephesians";"Philippians";"Colossians";
  "1 Thessalonians";"2 Thessalonians";"1 Timothy";"2 Timothy";"Titus";"Philemon";"Hebrews";"James";"1 Peter";"2 Peter";"1 John";"2 John";"3 John";"Jude";"Revelation"
].

(** [{b: i+1 for i, b in enumerate(BOOKS)}]. *)
Definition BOOK_INDEX : gmap string N :=
  list_to_map (imap (fun i b => (b, N.of_nat i + 1)) BOOKS).

(** The word Chapter in any case, blanks, digits (group 1), end. *)
Definition CHAPTER_RE : regex :=
  seq_re [Lit true "Chapter"; plus is_space; Grp (plus is_digit); Eos].

(** Digits (group 1), blanks, the rest of the line (group 2), end. *)
Definition VERSE_RE : regex :=
  seq_re [Grp (plus is_digit); plus is_space; Grp (star is_dot); Eos].

(** The word BOOK in any case, blanks, one or two digits (group 1),
    blanks, one or more characters of the line (group 2), end. *)
Definition BOOK_HEADING_RE : regex :=
  seq_re [Lit true "BOOK"; plus is_space; Grp (Cls is_digit 1 (Some 2%nat));
          plus is_space; Grp (plus is_dot); Eos].

(** Two digits (group 1), a colon, three digits (group 2), a colon, three
    digits (group 3), blanks, the rest of the line (group 4), end. *)
Definition NUM_VERSE_RE : regex :=
  seq_re [Grp (exactly is_digit 2); Lit false ":"; Grp (exactly is_digit 3);
          Lit false ":"; Grp (exactly is_digit 3); plus is_space;
          Grp (star is_dot); Eos].

Record Verse : Type := { v_number : N; v_text : string }.
Record Chapter : Type := { c_number : N; c_verses : list Verse }.
Record BookJSON : Type := { book : string; order : N; chapters : list Chapter }.

(** [s.replace(' ', '')]. *)
Fixpoint remove_spaces (s : string) : string :=
  match s with
  | EmptyString => EmptyString
  | String c s' =>
      if Ascii.eqb c " "%char then remove_spaces s' else String c (remove_spaces s')
  end.

(** [ch['verses'].append(verse)] on the chapter object at index [ci]. *)
Definition append_verse_at (ci : nat) (verse : Verse) (chs : list Chapter) : list Chapter :=
  alter (fun ch => {| c_number := c_number ch; c_verses := c_verses ch ++ [verse] |}) ci chs.

(** [verse['text'] = verse['text'] + ' ' + ln] on the verse object at
    index [vi] of the chapter object at index [ci]. *)
Definition extend_verse_at (ci vi : nat) (ln : string) (chs : list Chapter) : list Chapter :=
  alter (fun ch =>
           {| c_number := c_number ch;
              c_verses := alter (fun v => {| v_number := v_number v;
                                             v_text := v_text v +:+ " " +:+ ln |})
                                vi (c_verses ch) |}) ci chs.

(** *** parse_book_txt *)

(** [current_chapter] and [last_verse] refer to objects inside [chapters]:
    the chapter at an index, the verse at a pair of indices. *)
Record pb_state : Type := {
  pb_chapters : list Chapter;
  pb_current_chapter : option nat;
  pb_last_verse : option (nat * nat)
}.

Definition pb_step (st : pb_state) (ln : string) : pb_state :=
  let ln := strip ln in
  if negb (str_nonempty ln) then st
  else
    match re_match CHAPTER_RE ln with
    | Some m_ch =>
        let num := int (group m_ch 1) in
        {| pb_chapters := pb_chapters st ++ [{| c_number := num; c_verses := [] |}];
           pb_current_chapter := Some (length (pb_chapters st));
           pb_last_verse := None |}
    | None =>
        match re_match VERSE_RE ln, pb_current_chapter st with
        | Some m_vs, Some ci =>
            let vnum := int (group m_vs 1) in
            let vtext := strip (group m_vs 2) in
            let verse := {| v_number := vnum; v_text := vtext |} in
            let vi := match pb_chapters st !! ci with
                      | Some ch => length (c_verses ch)
                      | None => O
                      end in
            {| pb_chapters := append_verse_at ci verse (pb_chapters st);
               pb_current_chapter := pb_current_chapter st;
               pb_last_verse := Some (ci, vi) |}
        | _, _ =>
            match pb_last_verse st with
            | Some (ci, vi) =>
                {| pb_chapters := extend_verse_at ci vi ln (pb_chapters st);
                   pb_current_chapter := pb_current_chapter st;
                   pb_last_verse := pb_last_verse st |}
            | None => st
            end
        end
    end.

Definition pb_init : pb_state :=
  {| pb_chapters := []; pb_current_chapter := None; pb_last_verse := None |}.

(** [parse_book_txt(path)], given [path.stem] and the lines of the file. *)
Definition parse_book_txt (stem : string) (lines : list string) : BookJSON :=
  let book_name :=
    match find (fun b => String.eqb (remove_spaces b) stem) BOOKS with
    | Some b => b
    | None => stem
    end in
  let st := fold_left pb_step lines pb_init in
  {| book := book_name;
     order := default 0 (BOOK_INDEX !! book_name);
     chapters := pb_chapters st |}.

(** [parse_book_txt(path)], given [path.stem] and the text of the file:
    the lines are those of [splitlines]. *)
Definition parse_book_file (stem text : string) : BookJSON :=
  parse_book_txt stem (splitlines text).

(** *** detect_numbered_format *)

(** [sum(1 for ln in lines if pattern.match(ln))]. *)
Definition count_matching (r : regex) (lines : list string) : N :=
  fold_left (fun acc ln => if matches r ln then acc + 1 else acc) lines 0.

Definition detect_numbered_format (lines : list string) : bool :=
  let verses := count_matching NUM_VERSE_RE lines in
  let books := count_matching BOOK_HEADING_RE lines in
  (200 <? verses) && (30 <? books).

(** *** parse_master_numbered *)

(** [last_verse] refers to a verse object inside [books]: the book, the
    index of the chapter and the index of the verse. *)
Record pm_state : Type := {
  pm_books : gmap string BookJSON;
  pm_current_book : option string;
  pm_current_chapter_num : option N;
  pm_last_verse : option (string * nat * nat)
}.

Definition with_chapters (bj : BookJSON) (chs : list Chapter) : BookJSON :=
  {| book := book bj; order := order bj; chapters := chs |}.

Definition book_by_name (name_part : string) : option string :=
  find (fun b => String.eqb (lower b) (lower name_part)) BOOKS.

Definition in_canon (num : N) : bool :=
  (1 <=? num) && (num <=? N.of_nat (length BOOKS)).

Definition heading_book (bh : list string) : result (option string) :=
  let num := int (group bh 1) in
  let name_part := strip (group bh 2) in
  match book_by_name name_part with
  | Some b => Ok (Some b)
  | None =>
      if in_canon num then b <- py_index BOOKS (Z.of_N num - 1) ;; Ok (Some b)
      else Ok None
  end.

Definition pm_reset (st : pm_state) (b : option string) : pm_state :=
  {| pm_books := pm_books st;
     pm_current_book := b;
     pm_current_chapter_num := None;
     pm_last_verse := None |}.

(** The block that makes the book of the verse line the current one:
    [if current_book is None or current_book != BOOKS[book_num-1]]. *)
Definition pm_align (st : pm_state) (book_num : N) : result pm_state :=
  switch <-
    match pm_current_book st with
    | None => Ok true
    | Some cb => b <- py_index BOOKS (Z.of_N book_num - 1) ;; Ok (negb (String.eqb cb b))
    end ;;
  if switch : bool then
    b <- py_index BOOKS (Z.of_N book_num - 1) ;; Ok (pm_reset st (Some b))
  else Ok st.

(** The rest of the verse branch: the chapter is opened if its number is
    not the current one, and the verse is appended to the last chapter of
    the current book. *)
Definition pm_append (st : pm_state) (chapter verse : N) (text : string) : result pm_state :=
  match pm_current_book st with
  | None => Raise KeyError
  | Some cb =>
      bstruct <- py_getitem (pm_books st) cb ;;
      let '(chs, cur, last) :=
        if bool_decide (pm_current_chapter_num st = Some chapter)
        then (chapters bstruct, pm_current_chapter_num st, pm_last_verse st)
        else (chapters bstruct ++ [{| c_number := chapter; c_verses := [] |}],
              Some chapter, None) in
      ch_struct <- py_index chs (-1) ;;
      let ci := (length chs - 1)%nat in
      let verse_obj := {| v_number := verse; v_text := text |} in
      Ok {| pm_books := <[cb := with_chapters bstruct (append_verse_at ci verse_obj chs)]> (pm_books st);
            pm_current_book := pm_current_book st;
            pm_current_chapter_num := cur;
            pm_last_verse := Some (cb, ci, length (c_verses ch_struct)) |}
  end.

Definition pm_verse (st : pm_state) (mv : list string) : result pm_state :=
  let book_num := int (group mv 1) in
  let ch_raw := group mv 2 in
  let vs_raw := group mv 3 in
  let text := strip (group mv 4) in
  let chapter := int (lstrip0_or0 ch_raw) in
  let verse := int (lstrip0_or0 vs_raw) in
  st <- pm_align st book_num ;;
  pm_append st chapter verse text.

Definition pm_continuation (st : pm_state) (ln : string) : pm_state :=
  match pm_last_verse st with
  | Some (b, ci, vi) =>
      {| pm_books := alter (fun bj => with_chapters bj (extend_verse_at ci vi (strip ln) (chapters bj)))
                           b (pm_books st);
         pm_current_book := pm_current_book st;
         pm_current_chapter_num := pm_current_chapter_num st;
         pm_last_verse := pm_last_verse st |}
  | None => st
  end.

Definition pm_step (st : pm_state) (ln : string) : result pm_state :=
  let ln := rstrip ln in
  if negb (str_nonempty (strip ln)) then Ok st
  else
    match re_match BOOK_HEADING_RE (strip ln) with
    | Some bh => b <- heading_book bh ;; Ok (pm_reset st b)
    | None =>
        match re_match NUM_VERSE_RE ln with
        | Some mv => pm_verse st mv
        | None => Ok (pm_continuation st ln)
        end
    end.

Definition pm_init : pm_state :=
  {| pm_books :=
       list_to_map (imap (fun i b => (b, {| book := b; order := N.of_nat i + 1; chapters := [] |}))
                         BOOKS);
     pm_current_book := None;
     pm_current_chapter_num := None;
     pm_last_verse := None |}.

(** The comprehension that keeps the chapters with at least one verse. *)
Definition nonempty_chapters (chs : list Chapter) : list Chapter :=
  List.filter (fun c => match c_verses c with [] => false | _ :: _ => true end) chs.

(** The last loop: [books[b]['chapters']] is filtered for every [b] of the
    canon. *)
Definition trim_books (books : gmap string BookJSON) : result (gmap string BookJSON) :=
  for_each (fun bs b =>
              bj <- py_getitem bs b ;;
              Ok (<[b := with_chapters bj (nonempty_chapters (chapters bj))]> bs))
           BOOKS books.

Definition parse_master_numbered (lines : list string) : result (gmap string BookJSON) :=
  st <- for_each pm_step lines pm_init ;;
  trim_books (pm_books st).

(** *** The sink: write_json, upload_book and the last loop of main *)

(** The body of the POST request, as the structure that [json.dumps]
    serialises. *)
Record payload : Type := {
  p_tradition : string;
  p_source : string;
  p_work : string;
  p_title : string;
  p_chapters : list Chapter
}.

Record request : Type := {
  rq_url : string;
  rq_headers : list (string * string);
  rq_data : payload
}.

(** What [requests.post] does: it returns a response with a status code
    and a text, or it raises. *)
Inductive outcome : Type :=
| Response (status_code : Z) (text : string)
| Raises (e : exn).

(** What the run leaves behind: the lines printed, the files written and
    the requests sent, oldest first. *)
Record world : Type := {
  stdout : list string;
  files : list (string * BookJSON);
  sent : list request
}.

Definition print (line : string) (w : world) : world :=
  {| stdout := stdout w ++ [line]; files := files w; sent := sent w |}.

Definition write_json (bk : BookJSON) (out_dir : string) (w : world) : world :=
  let out_path := out_dir +:+ "/" +:+ remove_spaces (book bk) +:+ ".json" in
  let w := {| stdout := stdout w; files := files w ++ [(out_path, bk)]; sent := sent w |} in
  print ("Wrote JSON " +:+ book bk +:+ " -> " +:+ out_path) w.

Section Sink.

(** The network and the server, seen from the script. *)
Variable requests_post : request -> outcome.

Variables (api_url password tradition source work : string).

(** The request that [upload_book] builds for a book. *)
Definition upload_request (bk : BookJSON) : request :=
  let payload :=
    {| p_tradition := tradition; p_source := source; p_work := work;
       p_title := book bk;
       p_chapters :=
         (fun ch => {| c_number := c_number ch;
                       c_verses := (fun v => {| v_number := v_number v; v_text := v_text v |})
                                   <$> c_verses ch |}) <$> chapters bk |} in
  let headers := [("Content-Type", "application/json"); ("x-upload-password", password)] in
  {| rq_url := api_url; rq_headers := headers; rq_data := payload |}.

Definition upload_book (bk : BookJSON) (w : world) : world * result unit :=
  let rq := upload_request bk in
  let w := {| stdout := stdout w; files := files w; sent := sent w ++ [rq] |} in
  match requests_post rq with
  | Raises e => (w, Raise e)
  | Response status_code text =>
      if (300 <=? status_code)%Z
      then (print ("Upload failed " +:+ book bk +:+ ": " +:+ str_of_Z status_code +:+ " " +:+ text) w,
            Ok tt)
      else (print ("Uploaded " +:+ book bk +:+ ": " +:+ str_of_Z status_code) w, Ok tt)
  end.

Variable books : gmap string BookJSON.
Variable out_dir : option string.
Variable upload : bool.

(** The loop over the canon at the end of [main]. *)
Fixpoint sink_loop (bs : list string) (w : world) : world * result unit :=
  match bs with
  | [] => (w, Ok tt)
  | b :: rest =>
      match books !! b with
      | None => sink_loop rest w
      | Some book_json =>
          let w := match out_dir with
                   | Some d => write_json book_json d w
                   | None => w
                   end in
          if upload then
            match upload_book book_json w with
            | (w, Ok _) => sink_loop rest w
            | (w, Raise e) => (w, Raise e)
            end
          else sink_loop rest w
      end
  end.

Definition sink (w : world) : world * result unit :=
  match sink_loop BOOKS w with
  | (w, Ok _) => (print "Done." w, Ok tt)
  | (w, Raise e) => (w, Raise e)
  end.

End Sink.

Definition empty_world : world := {| stdout := []; files := []; sent := [] |}.

(** The loop of [main] that reads the book files of a directory: [fs]
    holds the text of the files that exist, by path; the stem of the path
    of a book is its name without spaces. *)
Definition load_book (fs : gmap string string) (books_dir : string)
    (st : gmap string BookJSON * world) (b : string) : gmap string BookJSON * world :=
  let '(books, w) := st in
  let txt_path := books_dir +:+ "/" +:+ remove_spaces b +:+ ".txt" in
  match fs !! txt_path with
  | None => (books, print ("WARNING: Missing book txt " +:+ txt_path) w)
  | Some text => (<[b := parse_book_file (remove_spaces b) text]> books, w)
  end.

Definition load_books_dir (fs : gmap string string) (books_dir : string) (w : world)
    : gmap string BookJSON * world :=
  fold_left (load_book fs books_dir) BOOKS (∅, w).

End ExportBibleJson.

(** * Vocabulary of the properties *)

(** The number of lines of the input that match a pattern. *)
Definition matching_lines (r : regex) (lines : list string) : nat :=
  length (List.filter (matches r) lines).

(** A blob with 5 numbered-verse lines and 2 BOOK headings. *)
Definition small_numbered_blob : list string :=
  ["BOOK 01 Genesis"; "01:001:001 In the beginning"; "01:001:002 And the earth";
   "01:001:003 And God said"; "BOOK 02 Exodus"; "02:001:001 Now these";
   "02:001:002 Reuben, Simeon"].

(** The verse object a reference [(book, chapter index, verse index)]
    points to in the books under construction. *)
Definition verse_at (books : gmap string ExportBibleJson.BookJSON)
    (ref : string * nat * nat) : option ExportBibleJson.Verse :=
  let '(b, ci, vi) := ref in
  bj ← books !! b;
  ch ← ExportBibleJson.chapters bj !! ci;
  ExportBibleJson.c_verses ch !! vi.

(** The book number of a numbered verse line, as [parse_master_numbered]
    reads it: the first group of the verse pattern matched against the
    right-stripped line. *)
Definition verse_book_number (ln : string) : option N :=
  match re_match ExportBibleJson.NUM_VERSE_RE (rstrip ln) with
  | Some mv => Some (int (group mv 1))
  | None => None
  end.

(** No verse line of the input carries a book number above the canon. *)
Definition book_numbers_in_canon (lines : list string) : bool :=
  forallb (fun ln => match verse_book_number ln with
                     | Some n => n <=? 66
                     | None => true
                     end) lines.

(** The book [b] is absent from the input: no verse line carries its
    number, the 1-based position that [BOOK_INDEX] gives it. *)
Definition absent_from (b : string) (lines : list string) : bool :=
  forallb (fun ln => match verse_book_number ln with
                     | Some n => negb (bool_decide (ExportBibleJson.BOOK_INDEX !! b = Some n))
                     | None => true
                     end) lines.

(** No verse line of the input carries the book number 00. *)
Definition book_numbers_positive (lines : list string) : bool :=
  forallb (fun ln => match verse_book_number ln with
                     | Some n => 1 <=? n
                     | None => true
                     end) lines.

(** The state of the loop of [parse_master_numbered] after the lines
    [seen]: the books are those of the canon with their names and orders,
    the current book is one of them, an open chapter number means the
    current book has a chapter, and a book has chapters only if a line
    seen placed a verse in it. *)
Record pm_inv (seen : list string) (st : ExportBibleJson.pm_state) : Prop := {
  inv_keys : forall b, is_Some (ExportBibleJson.pm_books st !! b) -> b ∈ ExportBibleJson.BOOKS;
  inv_books : forall i b, ExportBibleJson.BOOKS !! i = Some b ->
      exists bj, ExportBibleJson.pm_books st !! b = Some bj /\
                 ExportBibleJson.book bj = b /\
                 ExportBibleJson.order bj = (N.of_nat i + 1)%N;
  inv_current : forall cb, ExportBibleJson.pm_current_book st = Some cb ->
      cb ∈ ExportBibleJson.BOOKS;
  inv_chapter : forall c, ExportBibleJson.pm_current_chapter_num st = Some c ->
      exists cb bj, ExportBibleJson.pm_current_book st = Some cb /\
                    ExportBibleJson.pm_books st !! cb = Some bj /\
                    ExportBibleJson.chapters bj <> [];
  inv_placed : forall b bj, ExportBibleJson.pm_books st !! b = Some bj ->
      ExportBibleJson.chapters bj <> [] ->
      exists ln n, ln ∈ seen /\ verse_book_number ln = Some n /\
                   py_index ExportBibleJson.BOOKS (Z.of_N n - 1) = Ok b
}.

(** The books the sink handles, in the order of the canon. *)
Definition present_books (books : gmap string ExportBibleJson.BookJSON)
    (names : list string) : list ExportBibleJson.BookJSON :=
  omap (fun b => books !! b) names.

(** The line [write_json] prints for a book, if an output directory is
    given. *)
Definition wrote_lines (out_dir : option string) (bk : ExportBibleJson.BookJSON) : list string :=
  match out_dir with
  | Some d =>
      ["Wrote JSON " +:+ ExportBibleJson.book bk +:+ " -> " +:+
       (d +:+ "/" +:+ ExportBibleJson.remove_spaces (ExportBibleJson.book bk) +:+ ".json")]
  | None => []
  end.

(** The line that reports the upload of a book: a failure for a status of
    300 or more, a success below; nothing when the call raises. *)
Definition upload_lines (o : ExportBibleJson.outcome) (bk : ExportBibleJson.BookJSON)
    : list string :=
  match o with
  | ExportBibleJson.Response status_code text =>
      if (300 <=? status_code)%Z
      then ["Upload failed " +:+ ExportBibleJson.book bk +:+ ": " +:+ str_of_Z status_code
            +:+ " " +:+ text]
      else ["Uploaded " +:+ ExportBibleJson.book bk +:+ ": " +:+ str_of_Z status_code]
  | ExportBibleJson.Raises _ => []
  end.

Definition responds (o : ExportBibleJson.outcome) : bool :=
  match o with
  | ExportBibleJson.Response _ _ => true
  | ExportBibleJson.Raises _ => false
  end.

(** A server that is unreachable for the first book: the call raises for
    Genesis and answers 200 for the other books. *)
Definition post_genesis_down (rq : ExportBibleJson.request) : ExportBibleJson.outcome :=
  if String.eqb (ExportBibleJson.p_title (ExportBibleJson.rq_data rq)) "Genesis"
  then ExportBibleJson.Raises ConnectionError
  else ExportBibleJson.Response 200 "ok".

(** A server that refuses the first book with status 500 and accepts the
    others. *)
Definition post_genesis_refused (rq : ExportBibleJson.request) : ExportBibleJson.outcome :=
  if String.eqb (ExportBibleJson.p_title (ExportBibleJson.rq_data rq)) "Genesis"
  then ExportBibleJson.Response 500 "no"
  else ExportBibleJson.Response 200 "ok".

(** Two books ready for the sink. *)
Definition two_books : gmap string ExportBibleJson.BookJSON :=
  <["Genesis" := {| ExportBibleJson.book := "Genesis"; ExportBibleJson.order := 1;
                    ExportBibleJson.chapters := [] |}]>
  (<["Exodus" := {| ExportBibleJson.book := "Exodus"; ExportBibleJson.order := 2;
                    ExportBibleJson.chapters := [] |}]> ∅).

(** A chapter marker and a verse entry as [clean_book_lines] writes them. *)
Definition chapter_line (n : N) : string := "Chapter " +:+ str_of_N n.

Definition verse_line (v : N) (t : string) : string := str_of_N v +:+ " " +:+ t.

(** The string does not start with a character of the class [p]. *)
Definition starts_clear (p : ascii -> bool) (s : string) : bool :=
  match s with
  | EmptyString => true
  | String c _ => negb (p c)
  end.

(** A verse text as the normalizer writes it: not empty, blank neither at
    its start nor at its end, and without line feed. *)
Definition clean_text (t : string) : bool :=
  str_nonempty t && starts_clear is_space t && String.eqb (rstrip t) t && str_all is_dot t.

(** The lines of a normalized book: chapter markers and verse entries. *)
Inductive out_line : string -> Prop :=
| out_chapter (n : N) : out_line (chapter_line n)
| out_verse (v : N) (t : string) : clean_text t = true -> out_line (verse_line v t).

(** A verse numbered [v] read in the state [st] does not open a chapter by
    the reset rule. *)
Definition no_reset (st : SplitBibleKjv.cl_state) (v : N) : bool :=
  negb ((v =? 1) &&
        match SplitBibleKjv.last_verse_in_chapter st with
        | Some last => 1 <? last
        | None => false
        end).

(** [clash a q]: the string [a] cannot be read at the start of [q]
    followed by digits; [clash_all a q]: nor further on in it. *)
Fixpoint clash (a q : string) : bool :=
  match a, q with
  | EmptyString, _ => false
  | String x a', String y q' => if Ascii.eqb x y then clash a' q' else true
  | String _ _, EmptyString => negb (str_all is_digit a)
  end.

Fixpoint clash_all (a q : string) : bool :=
  clash a q &&
  match q with
  | EmptyString => true
  | String _ q' => clash_all a q'
  end.

(** * Vocabulary of the further properties *)

(** An input of [nv] numbered verse lines followed by [nb] BOOK headings. *)
Definition numbered_blob (nv nb : nat) : list string :=
  replicate nv "01:001:001 In the beginning" ++ replicate nb "BOOK 01 Genesis".

(** A line that the main loop of [clean_book_lines] reads: neither a
    heading nor blank. *)
Definition content_line (ln : string) : bool :=
  negb (SplitBibleKjv.truthy (SplitBibleKjv.is_heading ln)) && negb (SplitBibleKjv.blank ln).

(** A line that is not empty and has no blank at either end. *)
Definition tidy (x : string) : bool := str_nonempty x && String.eqb (strip x) x.

(** Between two lines the loop of [split_books] keeps: the current book
    has an entry, the entries are books of the canon, and the lines of an
    entry are lines seen, in their order. *)
Record sb_inv (seen : list string) (st : SplitBibleKjv.sb_state) : Prop := {
  sb_inv_current : forall cur, SplitBibleKjv.sb_current st = Some cur ->
      is_Some (SplitBibleKjv.sb_books_content st !! cur);
  sb_inv_keys : forall b content, SplitBibleKjv.sb_books_content st !! b = Some content ->
      b ∈ SplitBibleKjv.BOOKS /\ content `sublist_of` (rstrip_nl <$> seen)
}.

(** The output of [clean_book_lines] so far is empty, no chapter being
    open, or it starts with a chapter marker. *)
Definition opens_with_chapter (st : SplitBibleKjv.cl_state) : Prop :=
  match SplitBibleKjv.normalized st with
  | [] => SplitBibleKjv.current_chapter st = None
  | x :: _ => exists n, x = chapter_line n
  end.

(** The number a line of a book file carries as a chapter marker, and as
    a verse line. *)
Definition marker_number (ln : string) : option N :=
  m ← re_match ExportBibleJson.CHAPTER_RE (strip ln); Some (int (group m 1)).

Definition verse_number (ln : string) : option N :=
  m ← re_match ExportBibleJson.VERSE_RE (strip ln); Some (int (group m 1)).

(** The lines that follow the first chapter marker. *)
Fixpoint after_first_marker (lines : list string) : list string :=
  match lines with
  | [] => []
  | ln :: rest =>
      match marker_number ln with
      | Some _ => rest
      | None => after_first_marker rest
      end
  end.

(** The verses of a book, chapter after chapter. *)
Definition all_verses (chs : list ExportBibleJson.Chapter) : list ExportBibleJson.Verse :=
  concat (ExportBibleJson.c_verses <$> chs).

(** The lines of a book file that hold a chapter: its marker, then one
    line per verse; and those of a whole book. *)
Definition render_chapter (ch : ExportBibleJson.Chapter) : list string :=
  chapter_line (ExportBibleJson.c_number ch) ::
  ((fun v => verse_line (ExportBibleJson.v_number v) (ExportBibleJson.v_text v))
     <$> ExportBibleJson.c_verses ch).

Definition render_book (chs : list ExportBibleJson.Chapter) : list string :=
  concat (render_chapter <$> chs).

(** Every verse text of the chapters is one the normalizer can write. *)
Definition clean_chapters (chs : list ExportBibleJson.Chapter) : bool :=
  forallb (fun ch => forallb (fun v => clean_text (ExportBibleJson.v_text v))
                             (ExportBibleJson.c_verses ch)) chs.

(** Between two lines the loop of [parse_book_txt] keeps: the current
    chapter is the last one of the list. *)
Definition pb_current_is_last (st : ExportBibleJson.pb_state) : Prop :=
  ExportBibleJson.pb_current_chapter st =
  match ExportBibleJson.pb_chapters st with
  | [] => None
  | _ :: _ => Some (length (ExportBibleJson.pb_chapters st) - 1)%nat
  end.

(** The files [write_json] writes for the books given, if an output
    directory is given: the path and the book serialised. *)
Definition written_files (out_dir : option string) (bks : list ExportBibleJson.BookJSON)
    : list (string * ExportBibleJson.BookJSON) :=
  match out_dir with
  | Some d =>
      (fun bk => (d +:+ "/" +:+ ExportBibleJson.remove_spaces (ExportBibleJson.book bk)
                    +:+ ".json", bk)) <$> bks
  | None => []
  end.

(** What [parse_master_numbered] reads in a numbered verse line: the
    numbers of the book, of the chapter and of the verse. *)
Definition numbered_verse (ln : string) : option (N * N * N) :=
  match re_match ExportBibleJson.NUM_VERSE_RE (rstrip ln) with
  | Some mv =>
      Some (int (group mv 1), int (lstrip0_or0 (group mv 2)), int (lstrip0_or0 (group mv 3)))
  | None => None
  end.

(** The chapter and verse numbers of the verse lines whose book number
    resolves to the book [b], in the order of the input. *)
Definition placed_in (b : string) (lines : list string) : list (N * N) :=
  omap (fun ln =>
          match numbered_verse ln with
          | Some (bn, c, v) =>
              match py_index ExportBibleJson.BOOKS (Z.of_N bn - 1) with
              | Ok b' => if String.eqb b b' then Some (c, v) else None
              | Raise _ => None
              end
          | None => None
          end) lines.

(** The chapter and verse numbers of the verses of a book, in order. *)
Definition chapter_verse_numbers (chs : list ExportBibleJson.Chapter) : list (N * N) :=
  concat ((fun ch => (fun v => (ExportBibleJson.c_number ch, ExportBibleJson.v_number v))
                       <$> ExportBibleJson.c_verses ch) <$> chs).

(** Between two lines the loop of [parse_master_numbered] keeps: an open
    chapter number is the number of the last chapter of the current
    book; [last_verse] is the last verse of the last chapter of its book;
    every chapter has a verse and every verse text is tidy; the verses of
    a book are those the lines seen placed in it, in their order. *)
Record pm_shape (seen : list string) (st : ExportBibleJson.pm_state) : Prop := {
  shape_open : forall c, ExportBibleJson.pm_current_chapter_num st = Some c ->
      exists cb bj front vs,
        ExportBibleJson.pm_current_book st = Some cb /\
        ExportBibleJson.pm_books st !! cb = Some bj /\
        ExportBibleJson.chapters bj =
          front ++ [{| ExportBibleJson.c_number := c; ExportBibleJson.c_verses := vs |}];
  shape_last : forall b ci vi, ExportBibleJson.pm_last_verse st = Some (b, ci, vi) ->
      exists bj front n vs v,
        ExportBibleJson.pm_books st !! b = Some bj /\
        ExportBibleJson.chapters bj =
          front ++ [{| ExportBibleJson.c_number := n; ExportBibleJson.c_verses := vs ++ [v] |}] /\
        ci = length front /\ vi = length vs;
  shape_full : forall b bj ch, ExportBibleJson.pm_books st !! b = Some bj ->
      ch ∈ ExportBibleJson.chapters bj -> ExportBibleJson.c_verses ch <> [];
  shape_tidy : forall b bj ch v, ExportBibleJson.pm_books st !! b = Some bj ->
      ch ∈ ExportBibleJson.chapters bj -> v ∈ ExportBibleJson.c_verses ch ->
      tidy (ExportBibleJson.v_text v) = true;
  shape_order : forall b bj, ExportBibleJson.pm_books st !! b = Some bj ->
      chapter_verse_numbers (ExportBibleJson.chapters bj) = placed_in b seen
}.

(** A numbered verse line with blanks in front: the splitter reads it as
    a verse, the exporter does not. *)
Definition indented_verse (ln : string) : bool :=
  matches SplitBibleKjv.NUM_VERSE_RE (strip ln) && negb (starts_clear is_space ln).

(** No verse line of the input is indented, and the book numbers of the
    verse lines go from 1 to 66. *)
Definition plain_numbered (lines : list string) : bool :=
  forallb (fun ln =>
             negb (indented_verse ln) &&
             match numbered_verse ln with
             | Some (bn, _, _) => ExportBibleJson.in_canon bn
             | None => true
             end) lines.

(** The states of the two numbered parsers after the same lines: the
    lines the splitter holds for a book render the chapters the exporter
    holds for it, the current book and chapter are the same, and the
    splitter points to the last line of a book where the exporter points
    to its last verse. *)
Record nf_pm_sim (nf : SplitBibleKjv.nf_state) (pm : ExportBibleJson.pm_state) : Prop := {
  sim_books : forall b,
      SplitBibleKjv.nf_books_content nf !! b =
      (fun bj => render_book (ExportBibleJson.chapters bj)) <$> ExportBibleJson.pm_books pm !! b;
  sim_book : SplitBibleKjv.nf_current_book nf = ExportBibleJson.pm_current_book pm;
  sim_chapter : SplitBibleKjv.nf_current_chapter nf = ExportBibleJson.pm_current_chapter_num pm;
  sim_last :
      SplitBibleKjv.nf_last_verse_line_index nf =
      (fun '(b, _, _) =>
         (b, (length (default [] (SplitBibleKjv.nf_books_content nf !! b)) - 1)%nat))
        <$> ExportBibleJson.pm_last_verse pm
}.

(** A string without line boundary: one line for [str.splitlines]. *)
Definition one_line (x : string) : bool := str_all (fun c => negb (is_linebreak c)) x.

(** From one state of the numbered splitter to a later one the entries
    keep their keys, and their lines satisfy [P] if they did. *)
Definition nf_entries (P : string -> Prop) (bc bc' : gmap string (list string)) : Prop :=
  (forall b, is_Some (bc' !! b) <-> is_Some (bc !! b)) /\
  ((forall b l, bc !! b = Some l -> Forall P l) ->
   forall b l, bc' !! b = Some l -> Forall P l).

(** The file [main] of the splitter writes for a book, path and text, and
    the line it prints for it. *)
Definition book_file (out_dir : string) (books_content : gmap string (list string))
    (book : string) : string * string :=
  (out_dir +:+ "/" +:+ SplitBibleKjv.remove_spaces book +:+ ".txt",
   SplitBibleKjv.output_text
     (SplitBibleKjv.clean_book_lines book (default [] (books_content !! book)))).

Definition wrote_line (out_dir : string) (books_content : gmap string (list string))
    (book : string) : string :=
  "Wrote " +:+ book +:+ ": " +:+
  str_of_N (N.of_nat (length (SplitBibleKjv.clean_book_lines book
                                (default [] (books_content !! book)))))
  +:+ " lines -> " +:+ (out_dir +:+ "/" +:+ SplitBibleKjv.remove_spaces book +:+ ".txt").

(** The books of the canon without entry, and the notice about them. *)
Definition missing_books (books_content : gmap string (list string)) : list string :=
  List.filter (fun b => negb (bool_decide (is_Some (books_content !! b)))) SplitBibleKjv.BOOKS.

Definition missing_notice (books_content : gmap string (list string)) : list string :=
  match missing_books books_content with
  | [] => []
  | _ :: _ =>
      ["WARNING: Missing " +:+ str_of_N (N.of_nat (length (missing_books books_content)))
       +:+ " book(s): " +:+ SplitBibleKjv.repr_list (missing_books books_content)]
  end.

(** The verse numbers of a chapter never restart: no verse numbered 1
    comes right after a verse numbered above 1; [last] is the number of
    the verse before. *)
Fixpoint steady_from (last : option N) (vs : list N) : bool :=
  match vs with
  | [] => true
  | v :: rest =>
      negb ((v =? 1) && match last with Some l => 1 <? l | None => false end)
      && steady_from (Some v) rest
  end.

Definition steady (chs : list ExportBibleJson.Chapter) : bool :=
  forallb (fun ch => steady_from None (ExportBibleJson.v_number <$> ExportBibleJson.c_verses ch))
          chs.

(** *** The fixed points of the normalizer *)

(** [stable_from before l]: read back by [clean_book_lines], every line
    of [l] is written again as it is. [before] is what was read back so
    far: nothing, or the line before and the number of the last verse
    entry of the open chapter. A line is written again as it is when it is
    tidy, is no heading, and is
    - a chapter marker in the form [start_chapter] writes, or
    - a verse entry in the form [append_verse] writes, not the first line,
      that does not restart at 1 after an entry above 1 (the reset rule
      would open a chapter before it), or
    - a line that matches no pattern, right after a line that starts with
      [Chapter ] (it is kept as preface; after any other line it is
      joined to that line).
    A line that reads as a colon verse is never written again as it is. *)
Fixpoint stable_from (before : option (string * option N)) (l : list string) : bool :=
  match l with
  | [] => true
  | x :: rest =>
      tidy x && negb (SplitBibleKjv.truthy (SplitBibleKjv.is_heading x)) &&
      match re_match SplitBibleKjv.CHAPTER_HEADING_RE x with
      | Some m =>
          String.eqb (chapter_line (int (group m 1))) x &&
          stable_from (Some (x, None)) rest
      | None =>
          match re_match SplitBibleKjv.VERSE_COLON_RE x with
          | Some _ => false
          | None =>
              match re_match SplitBibleKjv.VERSE_SIMPLE_RE x, before with
              | Some m, Some (_, last) =>
                  let v := int (group m 1) in
                  String.eqb (verse_line v (strip (group m 2))) x &&
                  negb ((v =? 1) && match last with Some l => 1 <? l | None => false end) &&
                  stable_from (Some (x, Some v)) rest
              | None, Some (prev, last) =>
                  startswith "Chapter " prev && stable_from (Some (x, last)) rest
              | _, None => false
              end
          end
      end
  end.

(** The lines of a book that [clean_book_lines] writes again as they are. *)
Definition stable_lines (l : list string) : bool := stable_from None l.

(** What has been read back agrees with a state of the normalizer:
    nothing was read, or the last line written, an open chapter and the
    number of the last verse entry. *)
Definition read_back (before : option (string * option N)) (st : SplitBibleKjv.cl_state)
    : Prop :=
  match before with
  | None => SplitBibleKjv.normalized st = [] /\ SplitBibleKjv.current_chapter st = None
  | Some (prev, lv) =>
      last (SplitBibleKjv.normalized st) = Some prev /\
      is_Some (SplitBibleKjv.current_chapter st) /\
      SplitBibleKjv.last_verse_in_chapter st = lv
  end.

(** [open(path, 'w')] and [write]: the files after the writes of a run,
    oldest first; a path written again holds the last text. *)
Definition write_files (fs : gmap string string) (files : list (string * string))
    : gmap string string :=
  fold_left (fun fs f => <[f.1 := f.2]> fs) files fs.

(** A run of the split script over the files [fs]: the files after it. *)
Definition run_main (fs : gmap string string) (text out_dir : string)
    : result (gmap string string) :=
  o <- SplitBibleKjv.main text out_dir ;;
  Ok (write_files fs (SplitBibleKjv.written o)).
(** * Properties *)

(** ** The format detector *)

Section Detector.

Import SplitBibleKjv.

Lemma count_matching_from (r : regex) (lines : list string) (acc : N) :
  fold_left (fun acc ln => if matches r ln then acc + 1 else acc) lines acc
  = acc + N.of_nat (matching_lines r lines).
Proof.
  unfold matching_lines. revert acc.
  induction lines as [|ln lines IH]; intros acc; simpl.
  - lia.
  - rewrite IH. destruct (matches r ln); simpl; lia.
Qed.

Lemma count_matching_spec (r : regex) (lines : list string) :
  ExportBibleJson.count_matching r lines = N.of_nat (matching_lines r lines).
Proof. unfold ExportBibleJson.count_matching. rewrite count_matching_from. lia. Qed.

(** The loop with an early exit computes the test on the final counts:
    the counters never decrease, so thresholds exceeded in the middle of
    the scan are still exceeded at its end. *)
Lemma detect_loop_counts (lines : list string) (v b : N) :
  lines <> [] ->
  detect_loop lines v b =
  (200 <? v + N.of_nat (matching_lines NUM_VERSE_RE lines)) &&
  (30 <? b + N.of_nat (matching_lines BOOK_HEADING_RE lines)).
Proof.
  revert v b. induction lines as [|ln rest IH]; intros v b Hne; [done|].
  cbn [detect_loop]. unfold matching_lines in *. cbn [List.filter].
  set (v' := if matches NUM_VERSE_RE ln then v + 1 else v).
  set (b' := if matches BOOK_HEADING_RE ln then b + 1 else b).
  assert (Hv : v + N.of_nat (length (if matches NUM_VERSE_RE ln
                then ln :: List.filter (matches NUM_VERSE_RE) rest
                else List.filter (matches NUM_VERSE_RE) rest))
               = v' + N.of_nat (length (List.filter (matches NUM_VERSE_RE) rest))).
  { subst v'. destruct (matches NUM_VERSE_RE ln); simpl length; lia. }
  assert (Hb : b + N.of_nat (length (if matches BOOK_HEADING_RE ln
                then ln :: List.filter (matches BOOK_HEADING_RE) rest
                else List.filter (matches BOOK_HEADING_RE) rest))
               = b' + N.of_nat (length (List.filter (matches BOOK_HEADING_RE) rest))).
  { subst b'. destruct (matches BOOK_HEADING_RE ln); simpl length; lia. }
  rewrite Hv, Hb. clearbody v' b'. clear Hv Hb.
  destruct ((200 <? v') && (30 <? b')) eqn:Hnow.
  - apply andb_true_iff in Hnow as [H1 H2].
    apply N.ltb_lt in H1, H2. symmetry. apply andb_true_iff.
    split; apply N.ltb_lt; lia.
  - destruct rest as [|ln' rest'].
    + simpl. rewrite !N.add_0_r. symmetry. exact Hnow.
    + apply IH. discriminate.
Qed.

Lemma split_detect_counts (lines : list string) :
  detect_numbered_format lines =
  (200 <? N.of_nat (matching_lines NUM_VERSE_RE lines)) &&
  (30 <? N.of_nat (matching_lines BOOK_HEADING_RE lines)).
Proof.
  unfold detect_numbered_format. destruct lines as [|ln rest].
  - reflexivity.
  - rewrite detect_loop_counts by discriminate. rewrite !N.add_0_l. reflexivity.
Qed.

Lemma export_detect_counts (lines : list string) :
  ExportBibleJson.detect_numbered_format lines =
  (200 <? N.of_nat (matching_lines ExportBibleJson.NUM_VERSE_RE lines)) &&
  (30 <? N.of_nat (matching_lines ExportBibleJson.BOOK_HEADING_RE lines)).
Proof.
  unfold ExportBibleJson.detect_numbered_format. rewrite !count_matching_spec. reflexivity.
Qed.

Lemma thresholds_iff (nv nb : nat) :
  (200 <? N.of_nat nv) && (30 <? N.of_nat nb) = true <-> (200 < nv /\ 30 < nb)%nat.
Proof.
  rewrite andb_true_iff, !N.ltb_lt. lia.
Qed.

End Detector.

(** C4. For every sequence of input lines, each of the two detectors
    selects the numbered pipeline exactly when more than 200 lines match the
    numbered-verse pattern and more than 30 lines match the BOOK-heading
    pattern; an input with 5 numbered-verse lines and 2 BOOK headings
    selects the heading-based pipeline. *)
Theorem detect_numbered_format_thresholds (lines : list string) :
  (ExportBibleJson.detect_numbered_format lines = true <->
   (200 < matching_lines ExportBibleJson.NUM_VERSE_RE lines /\
    30 < matching_lines ExportBibleJson.BOOK_HEADING_RE lines)%nat) /\
  (SplitBibleKjv.detect_numbered_format lines = true <->
   (200 < matching_lines SplitBibleKjv.NUM_VERSE_RE lines /\
    30 < matching_lines SplitBibleKjv.BOOK_HEADING_RE lines)%nat) /\
  (matching_lines ExportBibleJson.NUM_VERSE_RE lines = 5%nat ->
   matching_lines ExportBibleJson.BOOK_HEADING_RE lines = 2%nat ->
   ExportBibleJson.detect_numbered_format lines = false /\
   SplitBibleKjv.detect_numbered_format lines = false).
Proof.
  split; [|split].
  - rewrite export_detect_counts. apply thresholds_iff.
  - rewrite split_detect_counts. apply thresholds_iff.
  - intros Hv Hb. rewrite export_detect_counts, split_detect_counts.
    change SplitBibleKjv.NUM_VERSE_RE with ExportBibleJson.NUM_VERSE_RE.
    change SplitBibleKjv.BOOK_HEADING_RE with ExportBibleJson.BOOK_HEADING_RE.
    rewrite Hv, Hb. split; reflexivity.
Qed.

Lemma detect_numbered_format_thresholds_witness :
  ExportBibleJson.detect_numbered_format small_numbered_blob = false /\
  SplitBibleKjv.detect_numbered_format small_numbered_blob = false.
Proof.
  apply (detect_numbered_format_thresholds small_numbered_blob); vm_compute; reflexivity.
Defined.

(** C9. For every sequence of input lines, the detector of the split
    script, which stops as soon as both thresholds are exceeded, returns the
    same boolean as the detector of the export script, which counts all the
    lines first. *)
Theorem detect_numbered_format_equiv (lines : list string) :
  SplitBibleKjv.detect_numbered_format lines = ExportBibleJson.detect_numbered_format lines.
Proof.
  rewrite split_detect_counts, export_detect_counts. reflexivity.
Qed.

(** ** The heading detector *)

(** C1. On the heading of the book of Revelation the heading detector
    answers John: the alias JOHN occurs in the line and John comes before
    Revelation in the order of the alias table. *)
Theorem is_heading_revelation_heading :
  SplitBibleKjv.is_heading "THE REVELATION OF ST. JOHN THE DIVINE" = Some "John" /\
  SplitBibleKjv.is_heading "REVELATION OF ST. JOHN" = Some "John" /\
  SplitBibleKjv.is_heading "REVELATION" = Some "Revelation".
Proof. vm_compute. repeat split. Qed.

(** ** Book numbers outside the canon in the numbered format *)

(** C2. A verse line whose book number is outside 1..66 is not dropped:
    number 00 lands in the last book of the canon, a number above 66 raises
    [IndexError], and in the split script a verse read while a book is
    current stays in that book. *)
Theorem numbered_verse_out_of_canon :
  (bs <- ExportBibleJson.parse_master_numbered ["00:001:001 x"] ;;
   Ok (ExportBibleJson.chapters <$> bs !! "Revelation"))
  = Ok (Some [{| ExportBibleJson.c_number := 1;
                 ExportBibleJson.c_verses :=
                   [{| ExportBibleJson.v_number := 1; ExportBibleJson.v_text := "x" |}] |}]) /\
  ExportBibleJson.parse_master_numbered ["67:001:001 x"] = Raise IndexError /\
  ExportBibleJson.parse_master_numbered ["BOOK 01 Genesis"; "01:001:001 a"; "67:001:002 x"]
  = Raise IndexError /\
  (bc <- SplitBibleKjv.parse_numbered_format ["00:001:001 x"] ;; Ok (bc !! "Revelation"))
  = Ok (Some ["Chapter 1"; "1 x"]) /\
  SplitBibleKjv.parse_numbered_format ["67:001:001 x"] = Raise IndexError /\
  (bc <- SplitBibleKjv.parse_numbered_format ["BOOK 01 Genesis"; "01:001:001 a"; "67:001:002 x"] ;;
   Ok (bc !! "Genesis"))
  = Ok (Some ["Chapter 1"; "1 a"; "2 x"]).
Proof. vm_compute. repeat split. Qed.

(** ** Strings and the matcher *)

Local Arguments String.append !s1 s2 : simpl nomatch.

Lemma str_app_nil_r (s : string) : s +:+ "" = s.
Proof. induction s as [|c s IH]; simpl; [reflexivity | rewrite IH; reflexivity]. Qed.

Lemma str_app_assoc (s1 s2 s3 : string) : (s1 +:+ s2) +:+ s3 = s1 +:+ (s2 +:+ s3).
Proof. induction s1 as [|c s1 IH]; simpl; [reflexivity | rewrite IH; reflexivity]. Qed.

Lemma str_all_app (p : ascii -> bool) (s1 s2 : string) :
  str_all p (s1 +:+ s2) = str_all p s1 && str_all p s2.
Proof.
  induction s1 as [|c s1 IH]; simpl; [reflexivity|].
  rewrite IH, andb_assoc. reflexivity.
Qed.

(** What a successful repetition has consumed: a run of the class, long
    enough, after which the continuation succeeded. *)
Lemma rep_sound {R : Type} (p : ascii -> bool) (s : string) :
  forall (lo : nat) (hi : option nat) (acc : string)
         (k : string -> string -> option R) (r : R),
    rep p lo hi acc s k = Some r ->
    exists m rest,
      s = m +:+ rest /\ str_all p m = true /\ (lo <= String.length m)%nat /\
      k (acc +:+ m) rest = Some r.
Proof.
  induction s as [|c s IH]; intros lo hi acc k r H.
  - simpl in H. destruct lo; [|discriminate].
    exists "", "". rewrite !str_app_nil_r. repeat split; simpl; auto.
  - cbn [rep] in H.
    assert (Hstop : match lo with O => k acc (String c s) | S _ => None end = Some r ->
                    exists m rest, String c s = m +:+ rest /\ str_all p m = true /\
                      (lo <= String.length m)%nat /\ k (acc +:+ m) rest = Some r).
    { intros Hs. destruct lo; [|discriminate].
      exists "", (String c s). rewrite !str_app_nil_r. repeat split; simpl; auto. }
    destruct (p c && may_take hi) eqn:Hpc; [|auto].
    destruct (rep p (Nat.pred lo) (hi_pred hi) (acc +:+ String c "") s k) as [r'|] eqn:Hrec; [|auto].
    injection H as ->.
    apply IH in Hrec as (m & rest & -> & Hall & Hlo & Hk).
    apply andb_true_iff in Hpc as [Hp _].
    exists (String c m), rest. simpl. rewrite Hp, Hall.
    rewrite str_app_assoc in Hk. simpl in Hk.
    repeat split; auto. lia.
Qed.

(** A greedy repetition without upper bound takes the whole run when the
    rest does not start in the class and the continuation succeeds there. *)
Lemma rep_greedy {R : Type} (p : ascii -> bool) (m : string) :
  forall (rest : string) (lo : nat) (acc : string)
         (k : string -> string -> option R) (r : R),
    str_all p m = true ->
    match rest with EmptyString => true | String c _ => negb (p c) end = true ->
    (lo <= String.length m)%nat ->
    k (acc +:+ m) rest = Some r ->
    rep p lo None acc (m +:+ rest) k = Some r.
Proof.
  induction m as [|c m IH]; intros rest lo acc k r Hall Hrest Hlo Hk.
  - simpl in *. assert (lo = O) as -> by lia. rewrite str_app_nil_r in Hk.
    destruct rest as [|c rest]; cbn [rep]; [exact Hk|].
    apply negb_true_iff in Hrest. rewrite Hrest. simpl. exact Hk.
  - simpl in Hall. apply andb_true_iff in Hall as [Hc Hall].
    simpl String.append. cbn [rep]. rewrite Hc. simpl.
    rewrite (IH rest (Nat.pred lo) (acc +:+ String c "") k r); auto.
    + simpl in Hlo. lia.
    + rewrite str_app_assoc. simpl. exact Hk.
Qed.

(** ** The chapter and verse normalizer *)

Lemma space_not_digit (c : ascii) : is_space c = true -> is_digit c = false.
Proof.
  destruct c as [[] [] [] [] [] [] [] []]; vm_compute; intros H; congruence.
Qed.

(** In a string, the run of digits before the first other character is
    determined. *)
Lemma digit_run_unique (d : string) :
  forall (d' : string) (c c' : ascii) (x y : string),
    str_all is_digit d = true -> str_all is_digit d' = true ->
    is_digit c = false -> is_digit c' = false ->
    d +:+ String c x = d' +:+ String c' y ->
    d = d' /\ c = c' /\ x = y.
Proof.
  induction d as [|a d IH]; intros d' c c' x y Hd Hd' Hc Hc' E.
  - destruct d' as [|a' d']; simpl in E.
    + injection E as -> ->. auto.
    + injection E as -> _. simpl in Hd'. rewrite Hc in Hd'. discriminate.
  - destruct d' as [|a' d']; simpl in E.
    + injection E as -> _. simpl in Hd. rewrite Hc' in Hd. discriminate.
    + injection E as -> E. simpl in Hd, Hd'.
      apply andb_true_iff in Hd as [_ Hd]. apply andb_true_iff in Hd' as [_ Hd'].
      destruct (IH d' c c' x y Hd Hd' Hc Hc' E) as (-> & -> & ->). auto.
Qed.

Section CleanBookLines.

Import SplitBibleKjv.

(** The text a bare verse line is made of. *)
Lemma verse_simple_shape (s : string) (m : list string) :
  re_match VERSE_SIMPLE_RE s = Some m ->
  exists d c w t e,
    s = d +:+ String c (w +:+ t +:+ e) /\
    str_all is_digit d = true /\ (1 <= String.length d)%nat /\
    is_space c = true /\ str_all is_space w = true /\
    str_all is_dot t = true /\ at_eos e = true /\ m = [d; t].
Proof.
  unfold re_match, VERSE_SIMPLE_RE, seq_re, plus, star. simpl. intros H.
  apply rep_sound in H as (d & r1 & -> & Hd & Hdl & H).
  apply rep_sound in H as (w & r2 & -> & Hw & Hwl & H).
  apply rep_sound in H as (t & e & -> & Ht & _ & H).
  destruct (at_eos e) eqn:He; [|discriminate].
  injection H as <-.
  destruct w as [|c w]; [simpl in Hwl; lia|].
  simpl in Hw. apply andb_true_iff in Hw as [Hc Hw].
  exists d, c, w, t, e. simpl. repeat split; auto.
Qed.

Lemma verse_colon_shape (s : string) (m : list string) :
  re_match VERSE_COLON_RE s = Some m ->
  exists d x, s = d +:+ String ":" x /\ str_all is_digit d = true.
Proof.
  unfold re_match, VERSE_COLON_RE, seq_re, plus, star. cbn [foldr run]. intros H.
  apply rep_sound in H as (d & r1 & -> & Hd & Hdl & H).
  destruct r1 as [|c r1]; [simpl in H; discriminate|].
  cbn [lit_rest char_eq] in H. destruct (Ascii.eqb ":" c) eqn:Hc; [|discriminate].
  apply Ascii.eqb_eq in Hc as <-.
  exists d, r1. auto.
Qed.

Lemma chapter_heading_not_digit (c : ascii) (s : string) :
  is_digit c = true -> re_match CHAPTER_HEADING_RE (String c s) = None.
Proof.
  destruct c as [[] [] [] [] [] [] [] []]; vm_compute; intros H; congruence.
Qed.

(** A line that matches the bare verse pattern is not empty and matches
    neither the chapter heading pattern nor the colon verse pattern. *)
Lemma verse_simple_exclusive (s : string) (m : list string) :
  re_match VERSE_SIMPLE_RE s = Some m ->
  str_nonempty s = true /\
  re_match CHAPTER_HEADING_RE s = None /\
  re_match VERSE_COLON_RE s = None.
Proof.
  intros H. apply verse_simple_shape in H as (d & c & w & t & e & -> & Hd & Hdl & Hc & _).
  destruct d as [|a d]; [simpl in Hdl; lia|].
  simpl in Hd. apply andb_true_iff in Hd as [Ha Hd].
  split; [reflexivity|]. split.
  - simpl. apply chapter_heading_not_digit. exact Ha.
  - destruct (re_match VERSE_COLON_RE (String a d +:+ String c (w +:+ t +:+ e))) as [m'|] eqn:E;
      [|reflexivity].
    exfalso. apply verse_colon_shape in E as (d' & x & E & Hd').
    apply digit_run_unique in E as (_ & -> & _); auto.
    + discriminate Hc.
    + simpl. rewrite Ha. exact Hd.
    + apply space_not_digit. exact Hc.
Qed.

End CleanBookLines.

(** C5. A bare verse line [v text] read by [clean_book_lines]: with no
    chapter open, chapter 1 is opened; with a chapter open whose previous
    verse number is above 1, and [v] equal to 1, the next chapter is opened;
    otherwise no chapter is opened; then the verse is appended. The bare
    lines [1 A], [2 B], [1 C] normalize to chapter 1 with verses 1 and 2 and
    chapter 2 with verse 1. *)
Theorem clean_book_lines_bare_verse
    (st : SplitBibleKjv.cl_state) (ln : string) (m : list string) :
  re_match SplitBibleKjv.VERSE_SIMPLE_RE (strip ln) = Some m ->
  let v := int (group m 1) in
  let verse_line := str_of_N v +:+ " " +:+ strip (group m 2) in
  let st' := SplitBibleKjv.cl_step st ln in
  SplitBibleKjv.last_verse_in_chapter st' = Some v /\
  (SplitBibleKjv.current_chapter st = None ->
   SplitBibleKjv.normalized st' = SplitBibleKjv.normalized st ++ ["Chapter 1"; verse_line] /\
   SplitBibleKjv.current_chapter st' = Some 1) /\
  (forall cur last,
     SplitBibleKjv.current_chapter st = Some cur ->
     SplitBibleKjv.last_verse_in_chapter st = Some last ->
     1 < last -> v = 1 ->
     SplitBibleKjv.normalized st' =
       SplitBibleKjv.normalized st ++ ["Chapter " +:+ str_of_N (cur + 1); verse_line] /\
     SplitBibleKjv.current_chapter st' = Some (cur + 1)) /\
  (forall cur,
     SplitBibleKjv.current_chapter st = Some cur ->
     (v <> 1 \/ forall last, SplitBibleKjv.last_verse_in_chapter st = Some last -> last <= 1) ->
     SplitBibleKjv.normalized st' = SplitBibleKjv.normalized st ++ [verse_line] /\
     SplitBibleKjv.current_chapter st' = Some cur) /\
  SplitBibleKjv.clean_book_lines "Genesis" ["1 A"; "2 B"; "1 C"] =
    ["Chapter 1"; "1 A"; "2 B"; "Chapter 2"; "1 C"].
Proof.
  intros Hm v verse_line st'.
  destruct (verse_simple_exclusive _ _ Hm) as (Hne & Hhead & Hcolon).
  assert (Hst' : st' = SplitBibleKjv.append_verse (SplitBibleKjv.infer_chapter st v) v
                         (strip (group m 2))).
  { subst st'. unfold SplitBibleKjv.cl_step. rewrite Hne, Hhead, Hcolon, Hm. reflexivity. }
  rewrite Hst'. clear Hst' st'. unfold SplitBibleKjv.infer_chapter.
  split; [reflexivity|]. split; [|split; [|split]].
  - intros ->. simpl. rewrite <- app_assoc. auto.
  - intros cur last -> -> Hlast Hv. subst verse_line. rewrite !Hv.
    assert ((last =? 0) = false) as -> by (apply N.eqb_neq; lia).
    assert ((1 <? last) = true) as -> by (apply N.ltb_lt; lia).
    assert ((if cur =? 0 then 0 else cur) = cur) as Hcur.
    { destruct (cur =? 0) eqn:Hcur; [apply N.eqb_eq in Hcur|]; congruence. }
    cbn [N.eqb Pos.eqb andb negb SplitBibleKjv.append_verse SplitBibleKjv.start_chapter
         SplitBibleKjv.normalized SplitBibleKjv.current_chapter].
    rewrite Hcur, <- app_assoc. split; reflexivity.
  - intros cur Hcur Hno. rewrite Hcur.
    assert (Hst : match SplitBibleKjv.last_verse_in_chapter st with
                  | Some last =>
                      if (v =? 1) && negb (last =? 0) && (1 <? last)
                      then SplitBibleKjv.start_chapter st ((if cur =? 0 then 0 else cur) + 1)
                      else st
                  | None => st
                  end = st).
    { destruct (SplitBibleKjv.last_verse_in_chapter st) as [last|] eqn:Hlast; [|reflexivity].
      destruct ((v =? 1) && negb (last =? 0) && (1 <? last)) eqn:Hc; [|reflexivity].
      exfalso. apply andb_true_iff in Hc as [Hc H3]. apply andb_true_iff in Hc as [H1 _].
      apply N.eqb_eq in H1. apply N.ltb_lt in H3.
      destruct Hno as [Hno|Hno]; [congruence|].
      specialize (Hno last eq_refl). lia. }
    rewrite Hst. split; [reflexivity | exact Hcur].
  - vm_compute. reflexivity.
Qed.

Lemma clean_book_lines_bare_verse_witness :
  SplitBibleKjv.normalized
    (SplitBibleKjv.cl_step
       {| SplitBibleKjv.normalized := ["Chapter 1"; "1 A"; "2 B"];
          SplitBibleKjv.current_chapter := Some 1;
          SplitBibleKjv.last_verse_in_chapter := Some 2 |} "1 C")
  = ["Chapter 1"; "1 A"; "2 B"] ++ ["Chapter " +:+ str_of_N (1 + 1); str_of_N 1 +:+ " " +:+ "C"].
Proof.
  pose proof (clean_book_lines_bare_verse
    {| SplitBibleKjv.normalized := ["Chapter 1"; "1 A"; "2 B"];
       SplitBibleKjv.current_chapter := Some 1;
       SplitBibleKjv.last_verse_in_chapter := Some 2 |} "1 C" ["1"; "C"] eq_refl) as H.
  apply (proj1 (proj2 (proj2 H)) 1 2 eq_refl eq_refl); reflexivity.
Defined.

(** ** The per-book file parser *)

Section ParseBookTxt.

Import ExportBibleJson.

Lemma chapter_re_not_digit (c : ascii) (s : string) :
  is_digit c = true -> re_match CHAPTER_RE (String c s) = None.
Proof.
  destruct c as [[] [] [] [] [] [] [] []]; vm_compute; intros H; congruence.
Qed.

Lemma book_heading_not_digit (c : ascii) (s : string) :
  is_digit c = true -> re_match BOOK_HEADING_RE (String c s) = None.
Proof.
  destruct c as [[] [] [] [] [] [] [] []]; vm_compute; intros H; congruence.
Qed.

(** A line that matches the verse pattern is not empty and is no chapter
    marker. *)
Lemma verse_re_exclusive (s : string) (m : list string) :
  re_match VERSE_RE s = Some m ->
  str_nonempty s = true /\ re_match CHAPTER_RE s = None.
Proof.
  intros H. apply verse_simple_shape in H as (d & c & w & t & e & -> & Hd & Hdl & _).
  destruct d as [|a d]; [simpl in Hdl; lia|].
  simpl in Hd. apply andb_true_iff in Hd as [Ha _].
  split; [reflexivity|]. apply chapter_re_not_digit. exact Ha.
Qed.

(** Before the first chapter marker nothing is recorded. *)
Lemma pb_step_before_chapter (st : pb_state) (ln : string) :
  pb_current_chapter st = None -> pb_last_verse st = None ->
  re_match CHAPTER_RE (strip ln) = None ->
  pb_step st ln = st.
Proof.
  intros Hcur Hlast Hch. unfold pb_step.
  destruct (negb (str_nonempty (strip ln))); [reflexivity|].
  rewrite Hch, Hcur, Hlast.
  destruct (re_match VERSE_RE (strip ln)); reflexivity.
Qed.

Lemma pb_fold_before_chapter (pre : list string) (st : pb_state) :
  pb_current_chapter st = None -> pb_last_verse st = None ->
  Forall (fun ln => re_match CHAPTER_RE (strip ln) = None) pre ->
  fold_left pb_step pre st = st.
Proof.
  intros Hcur Hlast Hpre. induction Hpre as [|ln pre Hln _ IH]; [reflexivity|].
  simpl. rewrite pb_step_before_chapter; auto.
Qed.

(** A verse line read in an open chapter, then a continuation line. *)
Lemma pb_verse_then_continuation (st : pb_state) (ci : nat) (ch : Chapter)
    (l1 l2 : string) (m : list string) :
  pb_current_chapter st = Some ci ->
  pb_chapters st !! ci = Some ch ->
  re_match VERSE_RE (strip l1) = Some m ->
  str_nonempty (strip l2) = true ->
  re_match CHAPTER_RE (strip l2) = None ->
  re_match VERSE_RE (strip l2) = None ->
  pb_chapters (pb_step (pb_step st l1) l2) =
  <[ci := {| c_number := c_number ch;
             c_verses := c_verses ch ++
               [{| v_number := int (group m 1);
                   v_text := strip (group m 2) +:+ " " +:+ strip l2 |}] |}]> (pb_chapters st).
Proof.
  intros Hcur Hch Hm Hne2 Hch2 Hv2.
  destruct (verse_re_exclusive _ _ Hm) as [Hne1 Hch1].
  assert (H1 : pb_step st l1 =
               {| pb_chapters := append_verse_at ci {| v_number := int (group m 1);
                                                        v_text := strip (group m 2) |}
                                                 (pb_chapters st);
                  pb_current_chapter := Some ci;
                  pb_last_verse := Some (ci, length (c_verses ch)) |}).
  { unfold pb_step. rewrite Hne1, Hch1, Hm, Hcur, Hch. reflexivity. }
  rewrite H1. unfold pb_step. rewrite Hne2, Hch2, Hv2. simpl.
  unfold extend_verse_at, append_verse_at.
  apply list_eq. intros j. destruct (decide (j = ci)) as [->|Hj].
  - rewrite list_lookup_insert_eq by (eapply lookup_lt_Some; eauto).
    rewrite !list_lookup_alter_eq, Hch. simpl. f_equal. f_equal.
    rewrite alter_app_r_alt by lia. rewrite Nat.sub_diag. reflexivity.
  - rewrite list_lookup_insert_ne by congruence.
    rewrite !list_lookup_alter_ne by congruence. reflexivity.
Qed.

End ParseBookTxt.

(** C10. In [parse_book_txt], a line read while no chapter marker has been
    seen, the verse-pattern lines included, goes to the continuation
    branch: it extends the last verse if there is one and is discarded
    otherwise. Lines before the first chapter marker leave no trace in the
    result, and a file without chapter markers parses to a book with no
    chapters. *)
Theorem parse_book_txt_verse_before_chapter (stem : string) (pre rest : list string) :
  Forall (fun ln => re_match ExportBibleJson.CHAPTER_RE (strip ln) = None) pre ->
  (forall st ln,
     In ln pre -> ExportBibleJson.pb_current_chapter st = None ->
     ExportBibleJson.pb_step st ln =
     match ExportBibleJson.pb_last_verse st with
     | Some (ci, vi) =>
         if str_nonempty (strip ln)
         then {| ExportBibleJson.pb_chapters :=
                   ExportBibleJson.extend_verse_at ci vi (strip ln) (ExportBibleJson.pb_chapters st);
                 ExportBibleJson.pb_current_chapter := None;
                 ExportBibleJson.pb_last_verse := Some (ci, vi) |}
         else st
     | None => st
     end) /\
  ExportBibleJson.parse_book_txt stem (pre ++ rest) = ExportBibleJson.parse_book_txt stem rest /\
  ExportBibleJson.chapters (ExportBibleJson.parse_book_txt stem pre) = [].
Proof.
  intros Hpre. split; [|split].
  - intros st ln Hin Hcur. rewrite Forall_forall in Hpre.
    assert (Hch : re_match ExportBibleJson.CHAPTER_RE (strip ln) = None).
    { apply Hpre. apply list_elem_of_In. exact Hin. }
    unfold ExportBibleJson.pb_step. rewrite Hch, Hcur.
    destruct (str_nonempty (strip ln)); simpl.
    + destruct (re_match ExportBibleJson.VERSE_RE (strip ln));
        destruct (ExportBibleJson.pb_last_verse st) as [[ci vi]|] eqn:Hl; try reflexivity;
        destruct st; simpl in *; congruence.
    + destruct (ExportBibleJson.pb_last_verse st) as [[ci vi]|]; reflexivity.
  - unfold ExportBibleJson.parse_book_txt. rewrite fold_left_app.
    rewrite (pb_fold_before_chapter pre ExportBibleJson.pb_init); auto.
  - unfold ExportBibleJson.parse_book_txt. simpl.
    rewrite (pb_fold_before_chapter pre ExportBibleJson.pb_init); auto.
Qed.

Lemma parse_book_txt_verse_before_chapter_witness :
  ExportBibleJson.chapters
    (ExportBibleJson.parse_book_txt "Genesis" ["1 In the beginning"; "2 And the earth"]) = [].
Proof.
  apply (parse_book_txt_verse_before_chapter "Genesis"
           ["1 In the beginning"; "2 And the earth"] []).
  repeat constructor.
Defined.

(** ** The numbered-format parser: verses and continuation lines *)

Lemma py_index_last {A : Type} (l : list A) (x : A) :
  py_index l (-1) = Ok x -> l !! (length l - 1)%nat = Some x.
Proof.
  unfold py_index. change (-1 <? 0)%Z with true. cbv iota.
  destruct ((0 <=? Z.of_nat (length l) + -1) && (Z.of_nat (length l) + -1 <? Z.of_nat (length l)))%Z
    eqn:Hr; [|discriminate].
  apply andb_true_iff in Hr as [H0 _]. apply Z.leb_le in H0.
  replace (Z.to_nat (Z.of_nat (length l) + -1)) with (length l - 1)%nat by lia.
  destruct (l !! (length l - 1)%nat); [|discriminate]. congruence.
Qed.

Lemma py_index_last_nonempty {A : Type} (l : list A) :
  l <> [] -> exists x, py_index l (-1) = Ok x.
Proof.
  intros Hl. unfold py_index. change (-1 <? 0)%Z with true. cbv iota.
  assert (0 < length l)%nat by (destruct l; [congruence | simpl; lia]).
  assert (((0 <=? Z.of_nat (length l) + -1) &&
           (Z.of_nat (length l) + -1 <? Z.of_nat (length l)))%Z = true) as ->.
  { apply andb_true_iff. split; [apply Z.leb_le | apply Z.ltb_lt]; lia. }
  replace (Z.to_nat (Z.of_nat (length l) + -1)) with (length l - 1)%nat by lia.
  destruct (lookup_lt_is_Some_2 l (length l - 1)%nat) as [x ->]; [lia|]. eauto.
Qed.

Lemma strip_keeps_head (c : ascii) (s : string) :
  is_space c = false -> exists s', strip (String c s) = String c s'.
Proof.
  intros Hc. unfold strip. cbn [lstrip_by]. rewrite Hc. cbn [rstrip_by].
  destruct (rstrip_by is_space s); [rewrite Hc|]; eauto.
Qed.

Lemma digit_not_space (c : ascii) : is_digit c = true -> is_space c = false.
Proof.
  destruct (is_space c) eqn:E; [|reflexivity].
  apply space_not_digit in E. congruence.
Qed.

Section ParseMasterNumbered.

Import ExportBibleJson.

(** A numbered verse line starts with a digit. *)
Lemma num_verse_starts_with_digit (s : string) (m : list string) :
  re_match NUM_VERSE_RE s = Some m ->
  exists c s', s = String c s' /\ is_digit c = true.
Proof.
  unfold re_match, NUM_VERSE_RE, seq_re, exactly. cbn [foldr run]. intros H.
  apply rep_sound in H as (d & r1 & -> & Hd & Hdl & _).
  destruct d as [|c d]; [simpl in Hdl; lia|].
  simpl in Hd. apply andb_true_iff in Hd as [Hc _].
  exists c, (d +:+ r1). auto.
Qed.

(** A numbered verse line is not blank and is no BOOK heading. *)
Lemma num_verse_exclusive (s : string) (m : list string) :
  re_match NUM_VERSE_RE s = Some m ->
  str_nonempty (strip s) = true /\ re_match BOOK_HEADING_RE (strip s) = None.
Proof.
  intros H. apply num_verse_starts_with_digit in H as (c & s' & -> & Hc).
  destruct (strip_keeps_head c s' (digit_not_space c Hc)) as [s'' ->].
  split; [reflexivity|]. apply book_heading_not_digit. exact Hc.
Qed.

(** After a verse line has been read, [last_verse] points to the verse
    just appended. *)
Lemma pm_verse_last (st st1 : pm_state) (mv : list string) :
  pm_verse st mv = Ok st1 ->
  exists ref,
    pm_last_verse st1 = Some ref /\
    verse_at (pm_books st1) ref =
      Some {| v_number := int (lstrip0_or0 (group mv 3)); v_text := strip (group mv 4) |}.
Proof.
  unfold pm_verse. intros H. bind_inv H. rename a into st0.
  unfold pm_append in H.
  destruct (pm_current_book st0) as [cb|]; [|discriminate].
  bind_inv H. rename a into bstruct.
  destruct (if bool_decide (pm_current_chapter_num st0 = Some (int (lstrip0_or0 (group mv 2))))
            then _ else _) as [[chs cur] last] eqn:Hchs.
  destruct (py_index chs (-1)) as [ch_struct|] eqn:Hlast; cbn [bind] in H; [|discriminate].
  injection H as <-. cbn [pm_last_verse pm_books].
  eexists. split; [reflexivity|].
  unfold verse_at. rewrite lookup_insert_eq. cbn [mbind option_bind with_chapters chapters].
  unfold append_verse_at. rewrite list_lookup_alter_eq.
  apply py_index_last in Hlast. rewrite Hlast.
  cbn [fmap option_fmap option_map mbind option_bind c_verses].
  rewrite lookup_app_r by lia. rewrite Nat.sub_diag. reflexivity.
Qed.

(** A continuation line extends the text of the verse [last_verse] points
    to, with one space in between. *)
Lemma pm_continuation_extends (st : pm_state) (ln : string)
    (ref : string * nat * nat) (v : Verse) :
  pm_last_verse st = Some ref ->
  verse_at (pm_books st) ref = Some v ->
  verse_at (pm_books (pm_continuation st ln)) ref =
    Some {| v_number := v_number v; v_text := v_text v +:+ " " +:+ strip ln |}.
Proof.
  intros Hlast Hv. unfold pm_continuation. rewrite Hlast.
  destruct ref as [[b ci] vi]. cbn [pm_books]. unfold verse_at in *.
  rewrite lookup_alter_eq.
  destruct (pm_books st !! b) as [bj|]; [|discriminate]. cbn in Hv |- *.
  unfold extend_verse_at. rewrite list_lookup_alter_eq.
  destruct (chapters bj !! ci) as [ch|]; [|discriminate]. cbn in Hv |- *.
  rewrite list_lookup_alter_eq, Hv. reflexivity.
Qed.

Lemma pm_verse_then_continuation (st st1 : pm_state) (l1 l2 : string) (mv : list string) :
  re_match NUM_VERSE_RE (rstrip l1) = Some mv ->
  pm_step st l1 = Ok st1 ->
  str_nonempty (strip (rstrip l2)) = true ->
  re_match BOOK_HEADING_RE (strip (rstrip l2)) = None ->
  re_match NUM_VERSE_RE (rstrip l2) = None ->
  exists ref st2,
    pm_step st1 l2 = Ok st2 /\
    pm_last_verse st1 = Some ref /\
    verse_at (pm_books st1) ref =
      Some {| v_number := int (lstrip0_or0 (group mv 3)); v_text := strip (group mv 4) |} /\
    verse_at (pm_books st2) ref =
      Some {| v_number := int (lstrip0_or0 (group mv 3));
              v_text := strip (group mv 4) +:+ " " +:+ strip (rstrip l2) |}.
Proof.
  intros Hmv H1 Hne2 Hbh2 Hv2.
  destruct (num_verse_exclusive _ _ Hmv) as [Hne1 Hbh1].
  unfold pm_step in H1. rewrite Hne1, Hbh1, Hmv in H1. cbn [negb] in H1.
  apply pm_verse_last in H1 as (ref & Hlast & Hat).
  exists ref, (pm_continuation st1 (rstrip l2)). split; [|split; [|split]]; auto.
  - unfold pm_step. rewrite Hne2, Hbh2, Hv2. reflexivity.
  - apply (pm_continuation_extends st1 (rstrip l2) ref _ Hlast Hat).
Qed.

End ParseMasterNumbered.

(** C7. A continuation line read after a verse line extends the text of
    that verse with one space in between, in [parse_book_txt] (where a verse
    is appended only in an open chapter) and in [parse_master_numbered]. The
    verse line [1 In the beginning God created] followed by the line
    [the heaven and the earth.] gives the verse text
    [In the beginning God created the heaven and the earth.]. *)
Theorem continuation_line_extends_last_verse :
  (forall st ci ch l1 l2 m,
     ExportBibleJson.pb_current_chapter st = Some ci ->
     ExportBibleJson.pb_chapters st !! ci = Some ch ->
     re_match ExportBibleJson.VERSE_RE (strip l1) = Some m ->
     str_nonempty (strip l2) = true ->
     re_match ExportBibleJson.CHAPTER_RE (strip l2) = None ->
     re_match ExportBibleJson.VERSE_RE (strip l2) = None ->
     ExportBibleJson.pb_chapters (ExportBibleJson.pb_step (ExportBibleJson.pb_step st l1) l2) =
     <[ci := {| ExportBibleJson.c_number := ExportBibleJson.c_number ch;
                ExportBibleJson.c_verses := ExportBibleJson.c_verses ch ++
                  [{| ExportBibleJson.v_number := int (group m 1);
                      ExportBibleJson.v_text := strip (group m 2) +:+ " " +:+ strip l2 |}] |}]>
       (ExportBibleJson.pb_chapters st)) /\
  (forall st st1 l1 l2 mv,
     re_match ExportBibleJson.NUM_VERSE_RE (rstrip l1) = Some mv ->
     ExportBibleJson.pm_step st l1 = Ok st1 ->
     str_nonempty (strip (rstrip l2)) = true ->
     re_match ExportBibleJson.BOOK_HEADING_RE (strip (rstrip l2)) = None ->
     re_match ExportBibleJson.NUM_VERSE_RE (rstrip l2) = None ->
     exists ref st2,
       ExportBibleJson.pm_step st1 l2 = Ok st2 /\
       ExportBibleJson.pm_last_verse st1 = Some ref /\
       verse_at (ExportBibleJson.pm_books st1) ref =
         Some {| ExportBibleJson.v_number := int (lstrip0_or0 (group mv 3));
                 ExportBibleJson.v_text := strip (group mv 4) |} /\
       verse_at (ExportBibleJson.pm_books st2) ref =
         Some {| ExportBibleJson.v_number := int (lstrip0_or0 (group mv 3));
                 ExportBibleJson.v_text := strip (group mv 4) +:+ " " +:+ strip (rstrip l2) |}) /\
  ExportBibleJson.chapters
    (ExportBibleJson.parse_book_txt "Genesis"
       ["Chapter 1"; "1 In the beginning God created"; "the heaven and the earth."]) =
    [{| ExportBibleJson.c_number := 1;
        ExportBibleJson.c_verses :=
          [{| ExportBibleJson.v_number := 1;
              ExportBibleJson.v_text := "In the beginning God created the heaven and the earth." |}] |}] /\
  ExportBibleJson.chapters
    (ExportBibleJson.parse_book_txt "Genesis"
       (SplitBibleKjv.clean_book_lines "Genesis"
          ["1 In the beginning God created"; "the heaven and the earth."])) =
    [{| ExportBibleJson.c_number := 1;
        ExportBibleJson.c_verses :=
          [{| ExportBibleJson.v_number := 1;
              ExportBibleJson.v_text := "In the beginning God created the heaven and the earth." |}] |}] /\
  (bs <- ExportBibleJson.parse_master_numbered
           ["01:001:001 In the beginning God created"; "the heaven and the earth."] ;;
   Ok (ExportBibleJson.chapters <$> bs !! "Genesis")) =
    Ok (Some [{| ExportBibleJson.c_number := 1;
                 ExportBibleJson.c_verses :=
                   [{| ExportBibleJson.v_number := 1;
                       ExportBibleJson.v_text := "In the beginning God created the heaven and the earth." |}] |}]).
Proof.
  split; [|split; [|split; [|split]]].
  - exact pb_verse_then_continuation.
  - exact pm_verse_then_continuation.
  - vm_compute. reflexivity.
  - vm_compute. reflexivity.
  - vm_compute. reflexivity.
Qed.

Lemma continuation_line_extends_last_verse_witness :
  ExportBibleJson.pb_chapters
    (ExportBibleJson.pb_step
       (ExportBibleJson.pb_step
          {| ExportBibleJson.pb_chapters :=
               [{| ExportBibleJson.c_number := 1; ExportBibleJson.c_verses := [] |}];
             ExportBibleJson.pb_current_chapter := Some 0%nat;
             ExportBibleJson.pb_last_verse := None |}
          "1 In the beginning God created")
       "the heaven and the earth.") =
  <[0%nat := {| ExportBibleJson.c_number := 1;
                ExportBibleJson.c_verses :=
                  [] ++ [{| ExportBibleJson.v_number := int (group ["1"; "In the beginning God created"] 1);
                            ExportBibleJson.v_text :=
                              strip (group ["1"; "In the beginning God created"] 2) +:+ " " +:+
                              strip "the heaven and the earth." |}] |}]>
    [{| ExportBibleJson.c_number := 1; ExportBibleJson.c_verses := [] |}].
Proof.
  apply (proj1 continuation_line_extends_last_verse
           {| ExportBibleJson.pb_chapters :=
                [{| ExportBibleJson.c_number := 1; ExportBibleJson.c_verses := [] |}];
              ExportBibleJson.pb_current_chapter := Some 0%nat;
              ExportBibleJson.pb_last_verse := None |}
           0%nat {| ExportBibleJson.c_number := 1; ExportBibleJson.c_verses := [] |}
           "1 In the beginning God created" "the heaven and the earth."
           ["1"; "In the beginning God created"]); reflexivity.
Defined.

(** ** The numbered-format parser: the books of the result *)

Lemma py_index_Ok {A : Type} (l : list A) (i : Z) (x : A) :
  py_index l i = Ok x -> x ∈ l.
Proof.
  unfold py_index. destruct (_ && _)%bool; [|discriminate].
  destruct (l !! _) eqn:E; [|discriminate].
  intros [= <-]. eapply list_elem_of_lookup_2. exact E.
Qed.

Lemma py_index_in_range {A : Type} (l : list A) (i : Z) :
  (- Z.of_nat (length l) <= i < Z.of_nat (length l))%Z -> exists x, py_index l i = Ok x.
Proof.
  intros Hi. unfold py_index.
  set (j := if (i <? 0)%Z then (Z.of_nat (length l) + i)%Z else i).
  assert (Hj : (0 <= j < Z.of_nat (length l))%Z).
  { subst j. destruct (i <? 0)%Z eqn:E; [apply Z.ltb_lt in E | apply Z.ltb_ge in E]; lia. }
  assert (((0 <=? j) && (j <? Z.of_nat (length l)))%Z = true) as ->.
  { apply andb_true_iff. split; [apply Z.leb_le | apply Z.ltb_lt]; lia. }
  destruct (lookup_lt_is_Some_2 l (Z.to_nat j)) as [x ->]; [lia|]. eauto.
Qed.

Section ParseMasterBooks.

Import ExportBibleJson.

Lemma BOOKS_NoDup : NoDup BOOKS.
Proof. apply (bool_decide_unpack _). vm_compute. reflexivity. Qed.

Lemma BOOKS_length : length BOOKS = 66%nat.
Proof. reflexivity. Qed.

Lemma book_by_name_in (name_part b : string) :
  book_by_name name_part = Some b -> b ∈ BOOKS.
Proof.
  unfold book_by_name. intros H. apply find_some in H as [H _].
  apply list_elem_of_In. exact H.
Qed.

Lemma heading_book_ok (bh : list string) :
  exists ob, heading_book bh = Ok ob /\ forall b, ob = Some b -> b ∈ BOOKS.
Proof.
  unfold heading_book.
  destruct (book_by_name (strip (group bh 2))) as [b|] eqn:E.
  - exists (Some b). split; [reflexivity|]. intros b' [= <-]. eapply book_by_name_in; eauto.
  - destruct (in_canon (int (group bh 1))) eqn:Hc.
    + unfold in_canon in Hc. apply andb_true_iff in Hc as [H1 H2].
      apply N.leb_le in H1, H2.
      destruct (py_index_in_range BOOKS (Z.of_N (int (group bh 1)) - 1)) as [b Hb]; [lia|].
      rewrite Hb. exists (Some b). split; [reflexivity|].
      intros b' [= <-]. eapply py_index_Ok; eauto.
    + exists None. split; [reflexivity|]. discriminate.
Qed.

Lemma pm_init_books (i : nat) (b : string) :
  BOOKS !! i = Some b ->
  pm_books pm_init !! b = Some {| book := b; order := N.of_nat i + 1; chapters := [] |}.
Proof.
  intros Hb. unfold pm_init. cbn [pm_books].
  apply elem_of_list_to_map_1.
  - exact BOOKS_NoDup.
  - apply elem_of_lookup_imap. eauto.
Qed.

Lemma pm_init_keys (b : string) (bj : BookJSON) :
  pm_books pm_init !! b = Some bj -> b ∈ BOOKS /\ chapters bj = [].
Proof.
  unfold pm_init. cbn [pm_books]. intros H.
  apply elem_of_list_to_map_2 in H.
  apply elem_of_lookup_imap in H as (i & b' & [= -> ->] & Hb).
  split; [eapply list_elem_of_lookup_2; eauto | reflexivity].
Qed.

Lemma pm_inv_init : pm_inv [] pm_init.
Proof.
  split.
  - intros b [bj Hb]. apply pm_init_keys in Hb as [Hb _]. exact Hb.
  - intros i b Hb. eexists. split; [apply pm_init_books; exact Hb|]. auto.
  - discriminate.
  - discriminate.
  - intros b bj Hb Hne. apply pm_init_keys in Hb as [_ Hb]. congruence.
Qed.

Lemma pm_inv_seen (seen : list string) (ln : string) (st : pm_state) :
  pm_inv seen st -> pm_inv (seen ++ [ln]) st.
Proof.
  intros [H0 H1 H3 H4 H5]. split; auto.
  intros b bj Hb Hne. destruct (H5 b bj Hb Hne) as (l & n & Hl & Hn & Hi).
  exists l, n. split; [apply elem_of_app; auto | auto].
Qed.

Lemma pm_inv_reset (seen : list string) (st : pm_state) (ob : option string) :
  (forall b, ob = Some b -> b ∈ BOOKS) ->
  pm_inv seen st -> pm_inv seen (pm_reset st ob).
Proof.
  intros Hob [H0 H1 H3 H4 H5]. split; cbn [pm_reset pm_books pm_current_book
    pm_current_chapter_num]; auto. discriminate.
Qed.

Lemma extend_verse_at_length (ci vi : nat) (ln : string) (chs : list Chapter) :
  length (extend_verse_at ci vi ln chs) = length chs.
Proof. unfold extend_verse_at. apply length_alter. Qed.

Lemma nonempty_length {A : Type} (l l' : list A) :
  length l = length l' -> l <> [] -> l' <> [].
Proof. destruct l, l'; simpl; congruence. Qed.

Lemma pm_inv_continuation (seen : list string) (st : pm_state) (ln : string) :
  pm_inv seen st -> pm_inv seen (pm_continuation st ln).
Proof.
  intros [H0 H1 H3 H4 H5]. unfold pm_continuation.
  destruct (pm_last_verse st) as [[[b ci] vi]|]; [|split; auto].
  split; cbn [pm_books pm_current_book pm_current_chapter_num]; auto.
  - intros b' Hb'. apply H0. rewrite lookup_alter in Hb'.
    destruct (decide (b = b')) as [->|]; [|exact Hb'].
    apply fmap_is_Some in Hb'. exact Hb'.
  - intros i b' Hb'. destruct (H1 i b' Hb') as (bj & Hbj & Hn & Ho).
    rewrite lookup_alter. destruct (decide (b = b')) as [->|]; [|eauto].
    rewrite Hbj. eexists. split; [reflexivity|]. auto.
  - intros c Hc. destruct (H4 c Hc) as (cb & bj & Hcb & Hbj & Hne).
    exists cb. rewrite lookup_alter. destruct (decide (b = cb)) as [->|]; [|eauto].
    rewrite Hbj. eexists. split; [exact Hcb|]. split; [reflexivity|].
    cbn [with_chapters chapters].
    eapply nonempty_length; [|exact Hne]. symmetry. apply extend_verse_at_length.
  - intros b' bj' Hb' Hne. rewrite lookup_alter in Hb'.
    destruct (decide (b = b')) as [->|]; [|eauto].
    destruct (pm_books st !! b') as [bj|] eqn:Hbj; [|discriminate].
    injection Hb' as <-. apply (H5 b' bj Hbj).
    cbn [with_chapters chapters] in Hne.
    eapply nonempty_length; [|exact Hne]. apply extend_verse_at_length.
Qed.

(** Aligning the current book with the number of the verse line. *)
Lemma pm_align_inv (seen : list string) (st : pm_state) (bn : N) :
  pm_inv seen st ->
  (forall st1, pm_align st bn = Ok st1 ->
     pm_inv seen st1 /\
     exists cb, pm_current_book st1 = Some cb /\ py_index BOOKS (Z.of_N bn - 1) = Ok cb) /\
  (bn <= 66 -> exists st1, pm_align st bn = Ok st1).
Proof.
  intros Hinv. unfold pm_align.
  destruct (py_index BOOKS (Z.of_N bn - 1)) as [b|e] eqn:Hidx.
  - assert (Hb : b ∈ BOOKS) by (eapply py_index_Ok; eauto).
    assert (Hreset : pm_inv seen (pm_reset st (Some b))).
    { apply pm_inv_reset; [|exact Hinv]. intros b' [= <-]. exact Hb. }
    destruct (pm_current_book st) as [cb|] eqn:Hcb; cbn [bind].
    + destruct (String.eqb cb b) eqn:Heq; cbn [negb].
      * apply String.eqb_eq in Heq as ->. split; [|eauto].
        intros st1 [= <-]. split; [exact Hinv|]. eauto.
      * split; [|eauto]. intros st1 [= <-]. split; [exact Hreset|]. eauto.
    + split; [|eauto]. intros st1 [= <-]. split; [exact Hreset|]. eauto.
  - split.
    + destruct (pm_current_book st); cbn [bind]; discriminate.
    + intros Hbn. exfalso.
      destruct (py_index_in_range BOOKS (Z.of_N bn - 1)) as [x Hx].
      { rewrite BOOKS_length. lia. }
      congruence.
Qed.

Lemma append_verse_at_length (ci : nat) (v : Verse) (chs : list Chapter) :
  length (append_verse_at ci v chs) = length chs.
Proof. unfold append_verse_at. apply length_alter. Qed.

(** Appending the verse of the line [ln] to the current book. *)
Lemma pm_append_inv (seen : list string) (ln : string) (st : pm_state)
    (cb : string) (n chapter verse : N) (text : string) :
  pm_inv seen st ->
  pm_current_book st = Some cb ->
  verse_book_number ln = Some n ->
  py_index BOOKS (Z.of_N n - 1) = Ok cb ->
  exists st', pm_append st chapter verse text = Ok st' /\ pm_inv (seen ++ [ln]) st'.
Proof.
  intros Hinv Hcb Hn Hidx. destruct Hinv as [H0 H1 H3 H4 H5].
  assert (Hin : cb ∈ BOOKS) by auto.
  apply list_elem_of_lookup in Hin as [i Hi].
  destruct (H1 i cb Hi) as (bstruct & Hbs & Hname & Hord).
  unfold pm_append. rewrite Hcb. unfold py_getitem. rewrite Hbs. cbn [bind].
  destruct (if bool_decide (pm_current_chapter_num st = Some chapter)
            then (chapters bstruct, pm_current_chapter_num st, pm_last_verse st)
            else (chapters bstruct ++ [{| c_number := chapter; c_verses := [] |}],
                  Some chapter, None)) as [[chs cur] last] eqn:Hchs.
  assert (Hne : chs <> []).
  { destruct (bool_decide (pm_current_chapter_num st = Some chapter)) eqn:Hd.
    - apply bool_decide_eq_true in Hd. injection Hchs as <- _ _.
      destruct (H4 chapter Hd) as (cb' & bj' & Hcb' & Hbj' & Hne').
      rewrite Hcb in Hcb'. injection Hcb' as <-. rewrite Hbs in Hbj'.
      injection Hbj' as <-. exact Hne'.
    - injection Hchs as <- _ _. intros E. apply app_eq_nil in E as [_ E]. discriminate. }
  destruct (py_index_last_nonempty chs Hne) as [ch_struct Hlast].
  rewrite Hlast. cbn [bind]. eexists. split; [reflexivity|].
  split; cbn [pm_books pm_current_book pm_current_chapter_num].
  - intros b Hb. rewrite lookup_insert in Hb.
    destruct (decide (cb = b)) as [<-|]; [|auto].
    eapply list_elem_of_lookup_2; eauto.
  - intros j b Hb. rewrite lookup_insert. destruct (decide (cb = b)) as [<-|]; [|auto].
    eexists. split; [reflexivity|]. cbn [with_chapters book order].
    assert (j = i) as ->.
    { eapply (NoDup_lookup BOOKS); eauto using BOOKS_NoDup. }
    auto.
  - intros cb' [= <-]. eapply list_elem_of_lookup_2; eauto.
  - intros c _. exists cb. eexists. split; [reflexivity|].
    rewrite lookup_insert_eq. split; [reflexivity|].
    cbn [with_chapters chapters].
    eapply nonempty_length; [|exact Hne]. symmetry. apply append_verse_at_length.
  - intros b bj Hb Hbne. rewrite lookup_insert in Hb.
    destruct (decide (cb = b)) as [<-|].
    + exists ln, n. split; [apply elem_of_app; right; apply list_elem_of_singleton; reflexivity|].
      auto.
    + destruct (H5 b bj Hb Hbne) as (l & n' & Hl & Hn' & Hi').
      exists l, n'. split; [apply elem_of_app; auto | auto].
Qed.

(** One line of the loop: the invariant is kept, and the line is read
    without exception when its book number is not above the canon. *)
Lemma pm_step_inv (seen : list string) (st : pm_state) (ln : string) :
  pm_inv seen st ->
  (forall st', pm_step st ln = Ok st' -> pm_inv (seen ++ [ln]) st') /\
  ((forall n, verse_book_number ln = Some n -> n <= 66) -> exists st', pm_step st ln = Ok st').
Proof.
  intros Hinv. unfold pm_step.
  destruct (negb (str_nonempty (strip (rstrip ln)))).
  { split; [|eauto]. intros st' [= <-]. apply pm_inv_seen. exact Hinv. }
  destruct (re_match BOOK_HEADING_RE (strip (rstrip ln))) as [bh|].
  { destruct (heading_book_ok bh) as (ob & -> & Hob). cbn [bind].
    split; [|eauto]. intros st' [= <-]. apply pm_inv_seen. apply pm_inv_reset; auto. }
  destruct (re_match NUM_VERSE_RE (rstrip ln)) as [mv|] eqn:Hmv.
  - assert (Hn : verse_book_number ln = Some (int (group mv 1))).
    { unfold verse_book_number. rewrite Hmv. reflexivity. }
    unfold pm_verse.
    destruct (pm_align_inv seen st (int (group mv 1)) Hinv) as [Hal Hprog].
    split.
    + intros st' H. destruct (pm_align st (int (group mv 1))) as [st1|] eqn:Ha;
        cbn [bind] in H; [|discriminate].
      destruct (Hal st1 eq_refl) as (Hinv1 & cb & Hcb & Hidx).
      destruct (pm_append_inv seen ln st1 cb _ (int (lstrip0_or0 (group mv 2)))
                  (int (lstrip0_or0 (group mv 3))) (strip (group mv 4)) Hinv1 Hcb Hn Hidx)
        as (st'' & Hap & Hinv'').
      rewrite Hap in H. injection H as <-. exact Hinv''.
    + intros Hle. destruct (Hprog (Hle _ Hn)) as [st1 Ha]. rewrite Ha. cbn [bind].
      destruct (Hal st1 Ha) as (Hinv1 & cb & Hcb & Hidx).
      destruct (pm_append_inv seen ln st1 cb _ (int (lstrip0_or0 (group mv 2)))
                  (int (lstrip0_or0 (group mv 3))) (strip (group mv 4)) Hinv1 Hcb Hn Hidx)
        as (st'' & Hap & _).
      eauto.
  - split; [|eauto]. intros st' [= <-]. apply pm_inv_seen. apply pm_inv_continuation. exact Hinv.
Qed.

Lemma pm_loop_inv (lines : list string) :
  forall (seen : list string) (st : pm_state),
    pm_inv seen st ->
    (forall st', for_each pm_step lines st = Ok st' -> pm_inv (seen ++ lines) st') /\
    ((forall ln n, ln ∈ lines -> verse_book_number ln = Some n -> n <= 66) ->
     exists st', for_each pm_step lines st = Ok st').
Proof.
  induction lines as [|ln lines IH]; intros seen st Hinv.
  - cbn [for_each]. rewrite app_nil_r. split; [|eauto]. intros st' [= <-]. exact Hinv.
  - cbn [for_each]. destruct (pm_step_inv seen st ln Hinv) as [Hkeep Hprog].
    replace (seen ++ ln :: lines) with ((seen ++ [ln]) ++ lines)
      by (rewrite <- app_assoc; reflexivity).
    split.
    + intros st' H. destruct (pm_step st ln) as [st1|] eqn:Hs; cbn [bind] in H; [|discriminate].
      apply (IH (seen ++ [ln]) st1 (Hkeep st1 eq_refl)). exact H.
    + intros Hle. destruct Hprog as [st1 Hs].
      { intros n. apply Hle. apply list_elem_of_here. }
      rewrite Hs. cbn [bind].
      apply (IH (seen ++ [ln]) st1 (Hkeep st1 Hs)).
      intros l n Hl. apply Hle. apply list_elem_of_further. exact Hl.
Qed.

Lemma nonempty_chapters_idem (l : list Chapter) :
  nonempty_chapters (nonempty_chapters l) = nonempty_chapters l.
Proof.
  unfold nonempty_chapters. induction l as [|c l IH]; [reflexivity|]. cbn.
  destruct (c_verses c) eqn:Hc; cbn; [exact IH|]. rewrite Hc. f_equal. exact IH.
Qed.

Lemma nonempty_chapters_verses (l : list Chapter) (c : Chapter) :
  In c (nonempty_chapters l) -> c_verses c <> [].
Proof.
  unfold nonempty_chapters. intros H. apply filter_In in H as [_ H].
  destruct (c_verses c); [discriminate | discriminate].
Qed.

(** The last loop filters the chapters of every book of the canon. *)
Lemma trim_loop (bs : list string) :
  forall (books : gmap string BookJSON),
    (forall b, b ∈ bs -> is_Some (books !! b)) ->
    exists books',
      for_each (fun bs b =>
                  bj <- py_getitem bs b ;;
                  Ok (<[b := with_chapters bj (nonempty_chapters (chapters bj))]> bs))
               bs books = Ok books' /\
      forall b, books' !! b =
                if decide (b ∈ bs)
                then (fun bj => with_chapters bj (nonempty_chapters (chapters bj))) <$> books !! b
                else books !! b.
Proof.
  induction bs as [|b0 bs IH]; intros books Hall.
  - exists books. split; [reflexivity|]. intros b.
    destruct (decide (b ∈ [])) as [H|]; [|reflexivity]. inversion H.
  - cbn [for_each]. destruct (Hall b0) as [bj0 Hbj0]; [apply list_elem_of_here|].
    unfold py_getitem at 1. rewrite Hbj0. cbn [bind].
    destruct (IH (<[b0 := with_chapters bj0 (nonempty_chapters (chapters bj0))]> books))
      as (books' & Hloop & Hlook).
    { intros b Hb. rewrite lookup_insert. destruct (decide (b0 = b)); [eauto|].
      apply Hall. apply list_elem_of_further. exact Hb. }
    exists books'. split; [exact Hloop|]. intros b. rewrite Hlook, lookup_insert.
    destruct (decide (b0 = b)) as [<-|Hne].
    + destruct (decide (b0 ∈ b0 :: bs)) as [_|H]; [|exfalso; apply H; apply list_elem_of_here].
      rewrite Hbj0. destruct (decide (b0 ∈ bs)); cbn; [|reflexivity].
      unfold with_chapters. cbn. rewrite nonempty_chapters_idem. reflexivity.
    + destruct (decide (b ∈ bs)) as [Hin|Hnin];
        destruct (decide (b ∈ b0 :: bs)) as [Hin'|Hnin']; try reflexivity.
      * exfalso. apply Hnin'. apply list_elem_of_further. exact Hin.
      * exfalso. apply elem_of_cons in Hin' as [->|H]; congruence.
Qed.

End ParseMasterBooks.

(** ** The sink *)

Section SinkFacts.

Import ExportBibleJson.

Variable requests_post : request -> outcome.
Variables (api_url password tradition source work : string).
Variable books : gmap string BookJSON.
Variable out_dir : option string.

Local Abbreviation rq := (upload_request api_url password tradition source work).
Local Abbreviation loop := (sink_loop requests_post api_url password tradition source work books out_dir true).

Local Abbreviation book_lines bk := (wrote_lines out_dir bk ++ upload_lines (requests_post (rq bk)) bk).

Lemma write_json_effect (bk : BookJSON) (w : world) :
  let w' := match out_dir with Some d => write_json bk d w | None => w end in
  stdout w' = stdout w ++ wrote_lines out_dir bk /\ sent w' = sent w.
Proof.
  unfold wrote_lines. destruct out_dir as [d|]; cbn.
  - auto.
  - rewrite app_nil_r. auto.
Qed.

Lemma upload_book_effect (bk : BookJSON) (w : world) :
  let '(w', r) := upload_book requests_post api_url password tradition source work bk w in
  stdout w' = stdout w ++ upload_lines (requests_post (rq bk)) bk /\
  sent w' = sent w ++ [rq bk] /\
  r = match requests_post (rq bk) with Response _ _ => Ok tt | Raises e => Raise e end.
Proof.
  unfold upload_book, upload_lines.
  destruct (requests_post (rq bk)) as [sc t|e]; cbn.
  - destruct (300 <=? sc)%Z; cbn; auto.
  - rewrite app_nil_r. auto.
Qed.

(** While the call answers, whatever the status, the loop goes on to the
    next book. *)
Lemma sink_loop_responding (bs : list string) :
  forall w,
    (forall bk, bk ∈ present_books books bs -> responds (requests_post (rq bk)) = true) ->
    exists w',
      loop bs w = (w', Ok tt) /\
      sent w' = sent w ++ (rq <$> present_books books bs) /\
      stdout w' = stdout w ++ concat ((fun bk => book_lines bk) <$> present_books books bs).
Proof.
  induction bs as [|b bs IH]; intros w Hresp.
  - exists w. cbn. rewrite !app_nil_r. auto.
  - cbn [sink_loop]. unfold present_books in *. cbn [omap list_omap] in *.
    destruct (books !! b) as [bk|] eqn:Hb; [|apply IH; exact Hresp].
    pose proof (write_json_effect bk w) as Hw. cbv zeta in Hw.
    set (w1 := match out_dir with Some d => write_json bk d w | None => w end) in *.
    destruct Hw as [Hw1 Hw2].
    pose proof (upload_book_effect bk w1) as Hu.
    destruct (upload_book requests_post api_url password tradition source work bk w1) as [w2 r].
    destruct Hu as (Hu1 & Hu2 & ->).
    assert (Hr : responds (requests_post (rq bk)) = true) by (apply Hresp; apply list_elem_of_here).
    destruct (requests_post (rq bk)) as [sc t|e] eqn:Hpost; [|discriminate].
    destruct (IH w2) as (w' & Hloop & Hs & Ho).
    { intros bk' Hbk'. apply Hresp. apply list_elem_of_further. exact Hbk'. }
    exists w'. split; [exact Hloop|]. rewrite Hs, Ho, Hu1, Hu2, Hw1, Hw2. cbn [fmap list_fmap concat].
    rewrite Hpost. rewrite <- !app_assoc. auto.
Qed.

(** When the call raises for a book, the loop ends there: the books after
    it are neither written nor sent. *)
Lemma sink_loop_raising (bs : list string) :
  forall w pre bk rest e,
    present_books books bs = pre ++ bk :: rest ->
    (forall bk', bk' ∈ pre -> responds (requests_post (rq bk')) = true) ->
    requests_post (rq bk) = Raises e ->
    exists w',
      loop bs w = (w', Raise e) /\
      sent w' = sent w ++ (rq <$> pre) ++ [rq bk] /\
      stdout w' = stdout w ++ concat ((fun bk => book_lines bk) <$> pre) ++ wrote_lines out_dir bk.
Proof.
  induction bs as [|b bs IH]; intros w pre bk rest e Hpres Hresp Hraise.
  - destruct pre; discriminate.
  - cbn [sink_loop]. unfold present_books in *. cbn [omap list_omap] in Hpres.
    destruct (books !! b) as [bk0|] eqn:Hb; [|eapply IH; eauto].
    pose proof (write_json_effect bk0 w) as Hw. cbv zeta in Hw.
    set (w1 := match out_dir with Some d => write_json bk0 d w | None => w end) in *.
    destruct Hw as [Hw1 Hw2].
    pose proof (upload_book_effect bk0 w1) as Hu.
    destruct (upload_book requests_post api_url password tradition source work bk0 w1) as [w2 r].
    destruct Hu as (Hu1 & Hu2 & ->).
    destruct pre as [|bk1 pre]; cbn [app] in Hpres; injection Hpres as -> Hpres.
    + rewrite Hraise in *. exists w2. split; [reflexivity|].
      rewrite Hu1, Hu2, Hw1, Hw2. cbn. rewrite !app_nil_r. auto.
    + assert (Hr : responds (requests_post (rq bk1)) = true)
        by (apply Hresp; apply list_elem_of_here).
      destruct (requests_post (rq bk1)) as [sc t|e'] eqn:Hpost; [|discriminate].
      destruct (IH w2 pre bk rest e Hpres) as (w' & Hloop & Hs & Ho); auto.
      { intros bk' Hbk'. apply Hresp. apply list_elem_of_further. exact Hbk'. }
      exists w'. split; [exact Hloop|]. rewrite Hs, Ho, Hu1, Hu2, Hw1, Hw2.
      cbn [fmap list_fmap concat]. rewrite Hpost. rewrite <- !app_assoc. auto.
Qed.

End SinkFacts.

(** C3, as the code has it. When the HTTP call answers for every book,
    with any status codes, the sink reaches its end without exception: every
    book present is sent once, in the order of the canon, and gets one report
    line of its own, a failure line for a status of 300 or more. When the
    call raises for a book, the exception leaves the loop: the books before
    it were handled, the books after it are neither sent nor reported. *)
Theorem sink_upload_failures
    (requests_post : ExportBibleJson.request -> ExportBibleJson.outcome)
    (api_url password tradition source work : string)
    (books : gmap string ExportBibleJson.BookJSON) (out_dir : option string)
    (w : ExportBibleJson.world) :
  let rq := ExportBibleJson.upload_request api_url password tradition source work in
  let run := ExportBibleJson.sink requests_post api_url password tradition source work
               books out_dir true w in
  let present := present_books books ExportBibleJson.BOOKS in
  let book_lines bk := wrote_lines out_dir bk ++ upload_lines (requests_post (rq bk)) bk in
  (forallb (fun bk => responds (requests_post (rq bk))) present = true ->
   exists w',
     run = (w', Ok tt) /\
     ExportBibleJson.sent w' = ExportBibleJson.sent w ++ (rq <$> present) /\
     ExportBibleJson.stdout w' =
       ExportBibleJson.stdout w ++ concat (book_lines <$> present) ++ ["Done."]) /\
  (forall pre bk rest e,
     present = pre ++ bk :: rest ->
     forallb (fun bk' => responds (requests_post (rq bk'))) pre = true ->
     requests_post (rq bk) = ExportBibleJson.Raises e ->
     exists w',
       run = (w', Raise e) /\
       ExportBibleJson.sent w' = ExportBibleJson.sent w ++ (rq <$> pre) ++ [rq bk] /\
       ExportBibleJson.stdout w' =
         ExportBibleJson.stdout w ++ concat (book_lines <$> pre) ++ wrote_lines out_dir bk).
Proof.
  intros rq run present book_lines. subst run. unfold ExportBibleJson.sink. split.
  - intros Hresp. rewrite forallb_forall in Hresp.
    destruct (sink_loop_responding requests_post api_url password tradition source work
                books out_dir ExportBibleJson.BOOKS w) as (w' & Hloop & Hs & Ho).
    { intros bk Hbk. apply Hresp. apply list_elem_of_In. exact Hbk. }
    rewrite Hloop. eexists. split; [reflexivity|].
    cbn [ExportBibleJson.print ExportBibleJson.stdout ExportBibleJson.sent].
    rewrite Ho, Hs, <- app_assoc. auto.
  - intros pre bk rest e Hpres Hresp Hraise. rewrite forallb_forall in Hresp.
    destruct (sink_loop_raising requests_post api_url password tradition source work
                books out_dir ExportBibleJson.BOOKS w pre bk rest e Hpres) as (w' & Hloop & Hs & Ho);
      auto.
    { intros bk' Hbk'. apply Hresp. apply list_elem_of_In. exact Hbk'. }
    rewrite Hloop. eauto.
Qed.

Lemma sink_upload_failures_witness :
  exists w',
    ExportBibleJson.sink post_genesis_refused "url" "pw" "KJV" "KJV Source" "Holy Bible"
      two_books None true ExportBibleJson.empty_world = (w', Ok tt) /\
    ExportBibleJson.sent w' =
      ExportBibleJson.sent ExportBibleJson.empty_world ++
      (ExportBibleJson.upload_request "url" "pw" "KJV" "KJV Source" "Holy Bible"
         <$> present_books two_books ExportBibleJson.BOOKS) /\
    ExportBibleJson.stdout w' =
      ExportBibleJson.stdout ExportBibleJson.empty_world ++
      concat ((fun bk => wrote_lines None bk ++
                 upload_lines (post_genesis_refused
                   (ExportBibleJson.upload_request "url" "pw" "KJV" "KJV Source" "Holy Bible" bk)) bk)
              <$> present_books two_books ExportBibleJson.BOOKS) ++ ["Done."].
Proof.
  apply (sink_upload_failures post_genesis_refused "url" "pw" "KJV" "KJV Source" "Holy Bible"
           two_books None ExportBibleJson.empty_world).
  vm_compute. reflexivity.
Defined.

(** C3 as stated fails: with a server that is unreachable for Genesis, the
    exception ends the run, nothing is reported, and Exodus, which is
    present, is never sent. *)
Lemma sink_network_error_is_fatal :
  let '(w', r) :=
    ExportBibleJson.sink post_genesis_down "url" "pw" "KJV" "KJV Source" "Holy Bible"
      two_books None true ExportBibleJson.empty_world in
  r = Raise ConnectionError /\
  ExportBibleJson.stdout w' = [] /\
  (ExportBibleJson.p_title ∘ ExportBibleJson.rq_data) <$> ExportBibleJson.sent w' = ["Genesis"] /\
  ExportBibleJson.book <$> present_books two_books ExportBibleJson.BOOKS = ["Genesis"; "Exodus"].
Proof. vm_compute. repeat split. Qed.

(** ** Decimal text, stripping, and reading a normalized line back *)

Local Arguments String.append !s1 s2 : simpl nomatch.

Lemma string_of_uint_digits (d : Decimal.uint) :
  str_all is_digit (NilEmpty.string_of_uint d) = true.
Proof. induction d; simpl; auto. Qed.

Lemma str_of_N_nilempty (n : N) :
  str_of_N n = NilEmpty.string_of_uint (N.to_uint n) /\ N.to_uint n <> Decimal.Nil.
Proof.
  unfold str_of_N. destruct n as [|p]; [split; [reflexivity | discriminate]|].
  simpl N.to_uint. pose proof (DecimalPos.Unsigned.to_uint_nonnil p) as Hp.
  split; [|exact Hp]. destruct (Pos.to_uint p); [congruence | reflexivity..].
Qed.

Lemma str_of_N_digits (n : N) : str_all is_digit (str_of_N n) = true.
Proof.
  destruct (str_of_N_nilempty n) as [-> _]. apply string_of_uint_digits.
Qed.

Lemma str_of_N_nonempty (n : N) : exists c s, str_of_N n = String c s /\ is_digit c = true.
Proof.
  pose proof (str_of_N_digits n) as Hd.
  destruct (str_of_N_nilempty n) as [E Hn]. rewrite E in *.
  destruct (N.to_uint n); [congruence | simpl in *; eauto..].
Qed.

(** Reading the decimal text of a number gives the number back. *)
Lemma int_str_of_N (n : N) : int (str_of_N n) = n.
Proof.
  unfold int. destruct (str_of_N_nilempty n) as [-> _].
  rewrite NilEmpty.usu. apply DecimalN.Unsigned.of_to.
Qed.

Section Strip.

Variable p : ascii -> bool.

Lemma lstrip_by_clear (s : string) : starts_clear p s = true -> lstrip_by p s = s.
Proof.
  destruct s as [|c s]; [reflexivity|]. simpl. intros H.
  apply negb_true_iff in H. rewrite H. reflexivity.
Qed.

Lemma lstrip_by_starts (s : string) : starts_clear p (lstrip_by p s) = true.
Proof.
  induction s as [|c s IH]; [reflexivity|]. simpl.
  destruct (p c) eqn:E; [exact IH|]. simpl. rewrite E. reflexivity.
Qed.

Lemma rstrip_by_starts (s : string) :
  starts_clear p s = true -> starts_clear p (rstrip_by p s) = true.
Proof.
  destruct s as [|c s]; [reflexivity|]. simpl. intros H.
  destruct (rstrip_by p s); [|exact H].
  apply negb_true_iff in H. rewrite H. simpl. rewrite H. reflexivity.
Qed.

Lemma rstrip_by_idem (s : string) : rstrip_by p (rstrip_by p s) = rstrip_by p s.
Proof.
  induction s as [|c s IH]; [reflexivity|]. simpl.
  destruct (rstrip_by p s) as [|c' r] eqn:E.
  - destruct (p c) eqn:Hc; [reflexivity|]. simpl. rewrite Hc. reflexivity.
  - change (rstrip_by p (String c (String c' r))) with
      (match rstrip_by p (String c' r) with
       | EmptyString => if p c then EmptyString else String c EmptyString
       | r0 => String c r0
       end).
    rewrite IH. reflexivity.
Qed.

Lemma rstrip_by_app (a b : string) :
  str_nonempty b = true -> rstrip_by p b = b -> rstrip_by p (a +:+ b) = a +:+ b.
Proof.
  intros Hb Hr. induction a as [|c a IH]; [exact Hr|]. simpl. rewrite IH.
  destruct (a +:+ b) eqn:E; [|reflexivity].
  destruct a; simpl in E; [subst b; discriminate | discriminate].
Qed.

(** Stripping characters of [p] on the right leaves nothing exactly when
    the whole string is in [p]. *)
Lemma rstrip_by_nil (s : string) : rstrip_by p s = "" -> str_all p s = true.
Proof.
  induction s as [|c s IH]; [reflexivity|]. simpl.
  destruct (rstrip_by p s); [|discriminate].
  destruct (p c); [|discriminate]. intros _. simpl. apply IH. reflexivity.
Qed.

Lemma rstrip_by_all (a b : string) :
  str_all p b = true -> rstrip_by p (a +:+ b) = rstrip_by p a.
Proof.
  intros Hb. induction a as [|c a IH]; simpl.
  - induction b as [|c b IHb]; [reflexivity|]. simpl in *.
    apply andb_true_iff in Hb as [Hc Hb]. rewrite (IHb Hb), Hc. reflexivity.
  - rewrite IH. reflexivity.
Qed.

Lemma rstrip_by_length (s : string) : (String.length (rstrip_by p s) <= String.length s)%nat.
Proof.
  induction s as [|c s IH]; [reflexivity|]. simpl.
  destruct (rstrip_by p s); [destruct (p c)|]; simpl in *; lia.
Qed.

Lemma str_all_lstrip (q : ascii -> bool) (s : string) :
  str_all q s = true -> str_all q (lstrip_by p s) = true.
Proof.
  induction s as [|c s IH]; [reflexivity|]. simpl. intros H.
  destruct (p c); [|exact H]. apply andb_true_iff in H as [_ H]. auto.
Qed.

Lemma str_all_rstrip (q : ascii -> bool) (s : string) :
  str_all q s = true -> str_all q (rstrip_by p s) = true.
Proof.
  induction s as [|c s IH]; [reflexivity|]. simpl. intros H.
  apply andb_true_iff in H as [Hc H]. specialize (IH H).
  destruct (rstrip_by p s); [destruct (p c); simpl; rewrite ?Hc; reflexivity|].
  simpl in *. rewrite Hc. exact IH.
Qed.

End Strip.

Lemma str_length_app (a b : string) :
  String.length (a +:+ b) = (String.length a + String.length b)%nat.
Proof. induction a as [|c a IH]; simpl; [reflexivity | rewrite IH; reflexivity]. Qed.

(** A stripped string that is not empty does not end with blanks. *)
Lemma stripped_no_blank_tail (s a b : string) :
  strip s = a +:+ b -> str_nonempty b = true -> str_all is_space b = false.
Proof.
  intros E Hb. destruct (str_all is_space b) eqn:Hall; [|reflexivity]. exfalso.
  assert (Hr : rstrip (a +:+ b) = a +:+ b).
  { rewrite <- E. unfold strip, rstrip. apply rstrip_by_idem. }
  unfold rstrip in Hr. rewrite rstrip_by_all in Hr by exact Hall.
  pose proof (rstrip_by_length is_space a) as Hlen. rewrite Hr, str_length_app in Hlen.
  destruct b; [discriminate | simpl in Hlen; lia].
Qed.

Lemma strip_idem (s : string) : strip (strip s) = strip s.
Proof.
  unfold strip at 1. rewrite lstrip_by_clear.
  - unfold strip. apply rstrip_by_idem.
  - unfold strip. apply rstrip_by_starts. apply lstrip_by_starts.
Qed.

(** The strip of a string is empty or a clean text, as far as blanks go. *)
Lemma strip_clean (t : string) :
  str_all is_dot t = true -> str_nonempty (strip t) = true -> clean_text (strip t) = true.
Proof.
  intros Hdot Hne. unfold clean_text. rewrite Hne. simpl.
  assert (starts_clear is_space (strip t) = true) as ->.
  { unfold strip. apply rstrip_by_starts. apply lstrip_by_starts. }
  assert (rstrip (strip t) = strip t) as ->.
  { unfold strip, rstrip. apply rstrip_by_idem. }
  rewrite String.eqb_refl. simpl.
  unfold strip. apply str_all_rstrip. apply str_all_lstrip. exact Hdot.
Qed.

Lemma clean_text_facts (t : string) :
  clean_text t = true ->
  str_nonempty t = true /\ starts_clear is_space t = true /\ rstrip t = t /\
  str_all is_dot t = true /\ strip t = t.
Proof.
  unfold clean_text. intros H.
  apply andb_true_iff in H as [H Hdot]. apply andb_true_iff in H as [H Hr].
  apply andb_true_iff in H as [Hne Hs]. apply String.eqb_eq in Hr.
  repeat split; auto. unfold strip. rewrite lstrip_by_clear by exact Hs. exact Hr.
Qed.

(** ** Reading the output of the normalizer again *)

Lemma rep_greedy_end {R : Type} (p : ascii -> bool) (m : string) (lo : nat) (acc : string)
    (k : string -> string -> option R) (r : R) :
  str_all p m = true -> (lo <= String.length m)%nat ->
  k (acc +:+ m) "" = Some r ->
  rep p lo None acc m k = Some r.
Proof.
  intros Hall Hlo Hk. rewrite <- (str_app_nil_r m).
  apply rep_greedy; auto.
Qed.

Lemma digits_rstrip (d : string) : str_all is_digit d = true -> rstrip d = d.
Proof.
  unfold rstrip. induction d as [|c d IH]; [reflexivity|]. simpl. intros H.
  apply andb_true_iff in H as [Hc H]. rewrite (IH H).
  destruct d; [|reflexivity]. rewrite (digit_not_space c Hc). reflexivity.
Qed.

Section ReadBack.

Import SplitBibleKjv.

Lemma chapter_line_strip (n : N) : strip (chapter_line n) = chapter_line n.
Proof.
  unfold strip, chapter_line. rewrite lstrip_by_clear by reflexivity.
  destruct (str_of_N_nonempty n) as (c & s & E & Hc).
  apply rstrip_by_app.
  - rewrite E. reflexivity.
  - apply digits_rstrip. apply str_of_N_digits.
Qed.

Lemma chapter_line_match (n : N) :
  re_match CHAPTER_HEADING_RE (chapter_line n) = Some [str_of_N n].
Proof.
  unfold chapter_line. pose proof (str_of_N_digits n) as Hd.
  destruct (str_of_N_nonempty n) as (c & s & E & Hc).
  set (d := str_of_N n) in *.
  unfold re_match, CHAPTER_HEADING_RE, seq_re, plus. cbn [foldr run].
  assert (Hlit : lit_rest true "CHAPTER" ("Chapter " +:+ d) = Some ("Chapter", " " +:+ d))
    by reflexivity.
  rewrite Hlit.
  rewrite (rep_greedy is_space " " d 1%nat "" _ [d]); [reflexivity | reflexivity | | simpl; lia |].
  - rewrite E. simpl. rewrite (digit_not_space c Hc). reflexivity.
  - apply rep_greedy_end; [exact Hd | rewrite E; simpl; lia | reflexivity].
Qed.

(** Reading a chapter marker back opens that chapter. *)
Lemma cl_step_chapter_line (s : cl_state) (n : N) :
  cl_step s (chapter_line n) = start_chapter s n.
Proof.
  unfold cl_step. rewrite chapter_line_strip, chapter_line_match.
  assert (str_nonempty (chapter_line n) = true) as -> by reflexivity.
  cbn [negb group nth Nat.pred]. rewrite int_str_of_N. reflexivity.
Qed.

Lemma verse_line_strip (v : N) (t : string) :
  clean_text t = true -> strip (verse_line v t) = verse_line v t.
Proof.
  intros Ht. destruct (clean_text_facts t Ht) as (Hne & Hs & Hr & Hdot & _).
  destruct (str_of_N_nonempty v) as (c & s & E & Hc).
  unfold strip, verse_line. rewrite lstrip_by_clear.
  - rewrite <- str_app_assoc. apply rstrip_by_app; assumption.
  - rewrite E. simpl. rewrite (digit_not_space c Hc). reflexivity.
Qed.

Lemma verse_line_match (v : N) (t : string) :
  clean_text t = true ->
  re_match VERSE_SIMPLE_RE (verse_line v t) = Some [str_of_N v; t].
Proof.
  intros Ht. destruct (clean_text_facts t Ht) as (Hne & Hs & Hr & Hdot & _).
  pose proof (str_of_N_digits v) as Hd.
  destruct (str_of_N_nonempty v) as (c & s & E & Hc).
  unfold verse_line. set (d := str_of_N v) in *.
  unfold re_match, VERSE_SIMPLE_RE, seq_re, plus, star. cbn [foldr run].
  rewrite (rep_greedy is_digit d (" " +:+ t) 1%nat "" _ [d; t]);
    [reflexivity | exact Hd | reflexivity | rewrite E; simpl; lia |].
  rewrite (rep_greedy is_space " " t 1%nat "" _ [d; t]);
    [reflexivity | reflexivity | | simpl; lia |].
  - destruct t; [discriminate | exact Hs].
  - apply rep_greedy_end; [exact Hdot | lia | reflexivity].
Qed.

(** Reading a verse entry back appends the same verse, after the same
    chapter inference. *)
Lemma cl_step_verse_line (s : cl_state) (v : N) (t : string) :
  clean_text t = true ->
  cl_step s (verse_line v t) = append_verse (infer_chapter s v) v t.
Proof.
  intros Ht. pose proof (verse_line_match v t Ht) as Hm.
  destruct (clean_text_facts t Ht) as (_ & _ & _ & _ & Hstrip).
  unfold cl_step. rewrite (verse_line_strip v t Ht).
  destruct (verse_simple_exclusive _ _ Hm) as (-> & -> & ->). rewrite Hm.
  cbn [negb group nth Nat.pred]. rewrite int_str_of_N, Hstrip. reflexivity.
Qed.

Lemma infer_chapter_cases (s : cl_state) (v : N) :
  infer_chapter s v = s \/
  exists k, infer_chapter s v = start_chapter s k.
Proof.
  unfold infer_chapter. destruct (current_chapter s); [|eauto].
  destruct (last_verse_in_chapter s); [|auto].
  destruct (_ && _); eauto.
Qed.

Lemma infer_chapter_fresh (s : cl_state) (k v : N) :
  infer_chapter (start_chapter s k) v = start_chapter s k.
Proof. reflexivity. Qed.

Lemma infer_chapter_no_reset (s : cl_state) (c v : N) :
  current_chapter s = Some c -> no_reset s v = true -> infer_chapter s v = s.
Proof.
  unfold infer_chapter, no_reset. intros -> H.
  destruct (last_verse_in_chapter s) as [last|]; [|reflexivity].
  apply negb_true_iff in H.
  destruct (v =? 1); [|reflexivity]. simpl in *. rewrite H, andb_false_r. reflexivity.
Qed.

Lemma lstrip_by_nil (p : ascii -> bool) (s : string) :
  lstrip_by p s = "" -> str_all p s = true.
Proof.
  induction s as [|c s IH]; [reflexivity|]. simpl.
  destruct (p c); [exact IH | discriminate].
Qed.

Lemma strip_nil (t : string) : strip t = "" -> str_all is_space t = true.
Proof.
  unfold strip. intros H. apply rstrip_by_nil in H.
  pose proof (lstrip_by_starts is_space t) as Hs.
  apply lstrip_by_nil. destruct (lstrip_by is_space t) as [|c u]; [reflexivity|].
  simpl in H, Hs. apply andb_true_iff in H as [H _]. rewrite H in Hs. discriminate.
Qed.

(** The text captured after the blanks of a verse line, once stripped, is
    a clean text: the line itself was stripped, so it ends with a
    character of the text. *)
Lemma stripped_text_clean (ln a : string) (c : ascii) (w t e : string) :
  strip ln = a +:+ String c (w +:+ t +:+ e) ->
  is_space c = true -> str_all is_space w = true ->
  str_all is_dot t = true -> at_eos e = true ->
  e = "" /\ clean_text (strip t) = true.
Proof.
  intros E Hc Hw Ht He.
  assert (He' : e = "").
  { destruct e as [|c' e]; [reflexivity|]. exfalso.
    destruct e; [|discriminate]. simpl in He.
    assert (Hx : strip ln = (a +:+ String c (w +:+ t)) +:+ String c' "").
    { rewrite E. rewrite ?str_app_assoc. simpl. rewrite ?str_app_assoc. reflexivity. }
    apply stripped_no_blank_tail in Hx; [|reflexivity].
    simpl in Hx. unfold is_newline in He. apply N.eqb_eq in He.
    unfold is_space in Hx. rewrite He in Hx. discriminate. }
  split; [exact He'|]. subst e. rewrite str_app_nil_r in E.
  apply strip_clean; [exact Ht|].
  destruct (strip t) eqn:Hst; [|reflexivity]. exfalso.
  apply strip_nil in Hst.
  apply stripped_no_blank_tail in E; [|reflexivity].
  simpl in E. rewrite Hc, str_all_app, Hw, Hst in E. discriminate.
Qed.

Lemma verse_simple_text (ln : string) (m : list string) :
  re_match VERSE_SIMPLE_RE (strip ln) = Some m ->
  clean_text (strip (group m 2)) = true.
Proof.
  intros H. apply verse_simple_shape in H as (d & c & w & t & e & E & _ & _ & Hc & Hw & Ht & He & ->).
  cbn [group nth Nat.pred].
  apply (stripped_text_clean ln d c w t e); auto.
Qed.

Lemma verse_colon_text (ln : string) (m : list string) :
  re_match VERSE_COLON_RE (strip ln) = Some m ->
  clean_text (strip (group m 3)) = true.
Proof.
  unfold re_match, VERSE_COLON_RE, seq_re, plus, star. cbn [foldr run]. intros H.
  apply rep_sound in H as (d1 & r1 & E1 & _ & _ & H).
  destruct (lit_rest false ":" r1) as [[lm r2]|] eqn:Hlit; [|discriminate].
  assert (Hr1 : r1 = String ":" r2).
  { destruct r1 as [|x r1]; [discriminate|]. cbn [lit_rest] in Hlit.
    destruct (char_eq false ":" x) eqn:Hx; [|discriminate].
    apply Ascii.eqb_eq in Hx as <-. injection Hlit as _ <-. reflexivity. }
  apply rep_sound in H as (d2 & r3 & -> & _ & _ & H).
  apply rep_sound in H as (w & r4 & -> & Hw & Hwl & H).
  apply rep_sound in H as (t & e & -> & Ht & _ & H).
  destruct (at_eos e) eqn:He; [|discriminate].
  injection H as <-. cbn [group nth Nat.pred app].
  destruct w as [|c w]; [simpl in Hwl; lia|].
  simpl in Hw. apply andb_true_iff in Hw as [Hc Hw].
  apply (stripped_text_clean ln (d1 +:+ String ":" d2) c w t e); auto.
  rewrite E1, Hr1. rewrite ?str_app_assoc. simpl. rewrite ?str_app_assoc. reflexivity.
Qed.

Lemma update_last_snoc {A : Type} (f : A -> A) (l : list A) (x : A) :
  update_last f (l ++ [x]) = l ++ [f x].
Proof.
  induction l as [|y l IH]; [reflexivity|]. simpl.
  rewrite IH. destruct (l ++ [x]) eqn:E; [|reflexivity].
  destruct l; discriminate.
Qed.

(** *** Normalized lines are no headings *)

Lemma digit_cases (c : ascii) :
  is_digit c = true ->
  In c ["0"; "1"; "2"; "3"; "4"; "5"; "6"; "7"; "8"; "9"]%char.
Proof.
  destruct c as [[] [] [] [] [] [] [] []]; vm_compute; intros H;
    first [discriminate H | tauto].
Qed.

Lemma digit_upper (c : ascii) : is_digit c = true -> char_upper c = c.
Proof.
  intros H. apply digit_cases in H. simpl in H.
  repeat destruct H as [<-|H]; try reflexivity. contradiction.
Qed.

Lemma digit_not_punct (c : ascii) : is_digit c = true -> is_punct c = false.
Proof.
  intros H. apply digit_cases in H. simpl in H.
  repeat destruct H as [<-|H]; try reflexivity. contradiction.
Qed.

Lemma digits_upper (d : string) : str_all is_digit d = true -> upper d = d.
Proof.
  unfold upper. induction d as [|c d IH]; [reflexivity|]. simpl. intros H.
  apply andb_true_iff in H as [Hc H]. rewrite (digit_upper c Hc), (IH H). reflexivity.
Qed.

Lemma str_map_app (f : ascii -> ascii) (a b : string) :
  str_map f (a +:+ b) = str_map f a +:+ str_map f b.
Proof. induction a as [|c a IH]; simpl; [reflexivity | rewrite IH; reflexivity]. Qed.

(** A string without characters of the class is left alone by the
    substitution of its runs. *)
Lemma sub_runs_from_clear (p : ascii -> bool) (s : string) :
  forall b, str_all (fun c => negb (p c)) s = true -> sub_runs_from p b s = s.
Proof.
  induction s as [|c s IH]; intros b H; [reflexivity|]. simpl in *.
  apply andb_true_iff in H as [Hc H]. apply negb_true_iff in Hc.
  rewrite Hc, (IH false H). reflexivity.
Qed.

Lemma str_all_impl (p q : ascii -> bool) (s : string) :
  (forall c, p c = true -> q c = true) -> str_all p s = true -> str_all q s = true.
Proof.
  intros Hpq. induction s as [|c s IH]; [reflexivity|]. simpl. intros H.
  apply andb_true_iff in H as [Hc H]. rewrite (Hpq c Hc), (IH H). reflexivity.
Qed.

Lemma nondigit_startswith (a : string) :
  forall d, str_all is_digit a = false -> str_all is_digit d = true -> startswith a d = false.
Proof.
  induction a as [|x a IH]; intros d Ha Hd; [discriminate|].
  destruct d as [|y d]; [reflexivity|]. simpl in *.
  destruct (Ascii.eqb x y) eqn:E; [|reflexivity].
  apply Ascii.eqb_eq in E as ->. apply andb_true_iff in Hd as [Hy Hd].
  rewrite Hy in Ha. simpl in Ha. apply IH; assumption.
Qed.

Lemma nondigit_contains (a d : string) :
  str_all is_digit a = false -> str_all is_digit d = true -> contains a d = false.
Proof.
  intros Ha. induction d as [|y d IH]; intros Hd.
  - simpl. rewrite (nondigit_startswith a "" Ha eq_refl). reflexivity.
  - cbn [contains]. rewrite (nondigit_startswith a (String y d) Ha Hd).
    simpl in Hd. apply andb_true_iff in Hd as [_ Hd]. apply IH. exact Hd.
Qed.

Lemma clash_sound (a : string) :
  forall q d, clash a q = true -> str_all is_digit d = true -> startswith a (q +:+ d) = false.
Proof.
  induction a as [|x a IH]; intros q d Hc Hd; [discriminate|].
  destruct q as [|y q].
  - simpl in Hc. apply negb_true_iff in Hc. apply nondigit_startswith; assumption.
  - simpl in *. destruct (Ascii.eqb x y); [apply IH; assumption | reflexivity].
Qed.

Lemma clash_all_sound (a q d : string) :
  clash_all a q = true -> str_all is_digit d = true -> contains a (q +:+ d) = false.
Proof.
  intros Hc Hd. induction q as [|y q IH].
  - simpl in Hc. rewrite andb_true_r in Hc. destruct a as [|x a]; [discriminate|].
    simpl in Hc. apply negb_true_iff in Hc. apply nondigit_contains; assumption.
  - cbn [clash_all] in Hc. apply andb_true_iff in Hc as [H1 H2].
    pose proof (clash_sound a (String y q) d H1 Hd) as Hs.
    change (String y q +:+ d) with (String y (q +:+ d)) in Hs |- *. cbn [contains].
    rewrite Hs. apply IH. exact H2.
Qed.

Lemma find_none_forall {A : Type} (f : A -> bool) (l : list A) :
  (forall x, In x l -> f x = false) -> find f l = None.
Proof.
  induction l as [|y l IH]; intros H; [reflexivity|]. simpl.
  rewrite (H y) by (left; reflexivity). apply IH. intros x Hx. apply H. right. exact Hx.
Qed.

Lemma existsb_false_forall {A : Type} (f : A -> bool) (l : list A) :
  (forall x, In x l -> f x = false) -> existsb f l = false.
Proof.
  induction l as [|y l IH]; intros H; [reflexivity|]. simpl.
  rewrite (H y) by (left; reflexivity). apply IH. intros x Hx. apply H. right. exact Hx.
Qed.

(** No alias of the table can be read in the uppercase form of a chapter
    marker. *)
Lemma aliases_clash :
  forallb (fun '(_, aliases) => forallb (fun a => clash_all a "CHAPTER ") aliases) ALIASES = true.
Proof. vm_compute. reflexivity. Qed.

Lemma chapter_line_no_alias (d : string) :
  str_all is_digit d = true ->
  find (fun '(canon, aliases) =>
          existsb (fun alias => contains alias ("CHAPTER " +:+ d)
                                || contains alias ("CHAPTER " +:+ d)) aliases) ALIASES = None.
Proof.
  intros Hd. apply find_none_forall. intros [canon aliases] Hin.
  apply existsb_false_forall. intros a Ha.
  pose proof aliases_clash as H. rewrite forallb_forall in H.
  specialize (H _ Hin). cbn in H. rewrite forallb_forall in H. specialize (H a Ha).
  rewrite (clash_all_sound a "CHAPTER " d H Hd). reflexivity.
Qed.

Lemma chapter_line_is_heading (n : N) : is_heading (chapter_line n) = None.
Proof.
  unfold is_heading. rewrite chapter_line_strip.
  pose proof (str_of_N_digits n) as Hd.
  destruct (str_of_N_nonempty n) as (c & s & E & Hc).
  unfold chapter_line. set (d := str_of_N n) in *.
  assert (str_nonempty ("Chapter " +:+ d) = true) as -> by reflexivity.
  assert (matches VERSE_COLON_RE ("Chapter " +:+ d) = false) as -> by reflexivity.
  assert (matches VERSE_SIMPLE_RE ("Chapter " +:+ d) = false) as -> by reflexivity.
  assert (re_match BOOK_HEADING_RE ("Chapter " +:+ d) = None) as -> by reflexivity.
  cbn [negb orb].
  assert (Hup : upper ("Chapter " +:+ d) = "CHAPTER " +:+ d).
  { unfold upper. rewrite str_map_app. fold (upper d). rewrite (digits_upper d Hd). reflexivity. }
  rewrite Hup.
  assert (Hpunct : sub_runs is_punct ("CHAPTER " +:+ d) = "CHAPTER " +:+ d).
  { unfold sub_runs. apply sub_runs_from_clear. rewrite str_all_app.
    apply andb_true_iff. split; [reflexivity|].
    eapply str_all_impl; [|exact Hd]. intros x Hx. rewrite (digit_not_punct x Hx). reflexivity. }
  rewrite Hpunct.
  assert (Hspace : sub_runs is_space ("CHAPTER " +:+ d) = "CHAPTER " +:+ d).
  { unfold sub_runs.
    change (sub_runs_from is_space false ("CHAPTER " +:+ d))
      with ("CHAPTER " +:+ sub_runs_from is_space true d).
    rewrite sub_runs_from_clear; [reflexivity|].
    eapply str_all_impl; [|exact Hd]. intros x Hx. rewrite (digit_not_space x Hx). reflexivity. }
  rewrite Hspace.
  assert (Hstrip : strip ("CHAPTER " +:+ d) = "CHAPTER " +:+ d).
  { unfold strip. rewrite lstrip_by_clear by reflexivity.
    apply rstrip_by_app; [rewrite E; reflexivity | apply digits_rstrip; exact Hd]. }
  rewrite Hstrip, (chapter_line_no_alias d Hd). reflexivity.
Qed.

Lemma out_line_facts (x : string) :
  out_line x -> truthy (is_heading x) = false /\ rstrip x = x /\ blank x = false.
Proof.
  intros [n|v t Ht].
  - rewrite chapter_line_is_heading. split; [reflexivity|].
    pose proof (chapter_line_strip n) as Hs. split.
    + unfold chapter_line. unfold rstrip. destruct (str_of_N_nonempty n) as (c & s & E & Hc).
      apply rstrip_by_app; [rewrite E; reflexivity | apply digits_rstrip; apply str_of_N_digits].
    + unfold blank. rewrite Hs. reflexivity.
  - pose proof (verse_line_strip v t Ht) as Hs.
    pose proof (verse_line_match v t Ht) as Hm.
    destruct (verse_simple_exclusive _ _ Hm) as (Hne & _ & _).
    split; [|split].
    + unfold is_heading. rewrite Hs, Hne. unfold matches at 2. rewrite Hm.
      rewrite orb_true_r. reflexivity.
    + destruct (clean_text_facts t Ht) as (Htne & _ & Hr & _).
      unfold verse_line, rstrip. rewrite <- str_app_assoc. apply rstrip_by_app; assumption.
    + unfold blank. rewrite Hs, Hne. reflexivity.
Qed.

End ReadBack.

(** ** The format detector: size and growth of the input *)

Lemma matching_lines_app (r : regex) (l1 l2 : list string) :
  matching_lines r (l1 ++ l2) = (matching_lines r l1 + matching_lines r l2)%nat.
Proof. unfold matching_lines. rewrite List.filter_app, length_app. reflexivity. Qed.

(** A line is a numbered verse line or a BOOK heading, never both: the
    first starts with a digit, the second with a letter. *)
Lemma verse_or_heading (ln : string) :
  matches ExportBibleJson.NUM_VERSE_RE ln = true ->
  matches ExportBibleJson.BOOK_HEADING_RE ln = false.
Proof.
  unfold matches. destruct (re_match ExportBibleJson.NUM_VERSE_RE ln) as [m|] eqn:E; [|done].
  intros _. apply num_verse_starts_with_digit in E as (c & s' & -> & Hc).
  rewrite (book_heading_not_digit c s' Hc). reflexivity.
Qed.

Lemma matching_lines_disjoint (lines : list string) :
  (matching_lines ExportBibleJson.NUM_VERSE_RE lines +
   matching_lines ExportBibleJson.BOOK_HEADING_RE lines <= length lines)%nat.
Proof.
  unfold matching_lines. induction lines as [|ln rest IH]; [simpl; lia|].
  cbn [List.filter length].
  destruct (matches ExportBibleJson.NUM_VERSE_RE ln) eqn:Ev.
  - rewrite (verse_or_heading ln Ev). cbn [length]. lia.
  - destruct (matches ExportBibleJson.BOOK_HEADING_RE ln); cbn [length]; lia.
Qed.

Lemma matching_lines_replicate (r : regex) (n : nat) (ln : string) :
  matching_lines r (replicate n ln) = if matches r ln then n else 0%nat.
Proof.
  unfold matching_lines. induction n as [|n IH]; cbn [replicate List.filter].
  - destruct (matches r ln); reflexivity.
  - destruct (matches r ln) eqn:E; cbn [length]; rewrite IH; reflexivity.
Qed.

(** X1. The detector needs 201 numbered verse lines and 31 BOOK headings,
    and no line is both: an input of fewer than 232 lines is never taken
    for the numbered format, by neither script, and 232 lines can be. *)
Theorem detect_numbered_format_small_input (lines : list string) :
  ((length lines < 232)%nat ->
   SplitBibleKjv.detect_numbered_format lines = false /\
   ExportBibleJson.detect_numbered_format lines = false) /\
  length (numbered_blob 201 31) = 232%nat /\
  SplitBibleKjv.detect_numbered_format (numbered_blob 201 31) = true /\
  ExportBibleJson.detect_numbered_format (numbered_blob 201 31) = true.
Proof.
  split; [|split].
  - intros Hlen. pose proof (matching_lines_disjoint lines) as Hd.
    rewrite split_detect_counts, export_detect_counts.
    change SplitBibleKjv.NUM_VERSE_RE with ExportBibleJson.NUM_VERSE_RE.
    change SplitBibleKjv.BOOK_HEADING_RE with ExportBibleJson.BOOK_HEADING_RE.
    assert ((200 <? N.of_nat (matching_lines ExportBibleJson.NUM_VERSE_RE lines)) &&
            (30 <? N.of_nat (matching_lines ExportBibleJson.BOOK_HEADING_RE lines)) = false) as ->.
    { apply not_true_is_false. rewrite thresholds_iff. lia. }
    done.
  - unfold numbered_blob. rewrite length_app, !length_replicate. reflexivity.
  - rewrite split_detect_counts, export_detect_counts.
    change SplitBibleKjv.NUM_VERSE_RE with ExportBibleJson.NUM_VERSE_RE.
    change SplitBibleKjv.BOOK_HEADING_RE with ExportBibleJson.BOOK_HEADING_RE.
    unfold numbered_blob. rewrite !matching_lines_app, !matching_lines_replicate.
    split; vm_compute; reflexivity.
Qed.

Lemma detect_numbered_format_small_input_witness :
  SplitBibleKjv.detect_numbered_format (numbered_blob 200 31) = false /\
  ExportBibleJson.detect_numbered_format (numbered_blob 200 31) = false.
Proof.
  apply (proj1 (detect_numbered_format_small_input (numbered_blob 200 31))).
  vm_compute. lia.
Defined.

Lemma detect_split_export (lines : list string) :
  SplitBibleKjv.detect_numbered_format lines = ExportBibleJson.detect_numbered_format lines.
Proof. rewrite split_detect_counts, export_detect_counts. reflexivity. Qed.

Lemma detect_grows (pre lines post : list string) :
  ExportBibleJson.detect_numbered_format lines = true ->
  ExportBibleJson.detect_numbered_format (pre ++ lines ++ post) = true.
Proof.
  rewrite !export_detect_counts, !matching_lines_app, !thresholds_iff. lia.
Qed.

(** X2. Lines added before or after an input that is taken for the
    numbered format leave it detected: the counts only grow. *)
Theorem detect_numbered_format_monotone (pre lines post : list string) :
  ExportBibleJson.detect_numbered_format lines = true ->
  ExportBibleJson.detect_numbered_format (pre ++ lines ++ post) = true /\
  SplitBibleKjv.detect_numbered_format (pre ++ lines ++ post) = true.
Proof.
  intros H. rewrite detect_split_export. split; apply detect_grows, H.
Qed.

Lemma detect_numbered_format_monotone_witness :
  ExportBibleJson.detect_numbered_format (["preface"] ++ numbered_blob 201 31 ++ ["The end"]) = true /\
  SplitBibleKjv.detect_numbered_format (["preface"] ++ numbered_blob 201 31 ++ ["The end"]) = true.
Proof.
  apply detect_numbered_format_monotone. vm_compute. reflexivity.
Defined.
(** ** Headings and the split by headings *)

Section SplitBooks.

Import SplitBibleKjv.

Lemma ALIASES_keys : ALIASES.*1 = BOOKS.
Proof. reflexivity. Qed.

Lemma BOOKS_nonempty (b : string) : b ∈ BOOKS -> str_nonempty b = true.
Proof.
  intros Hb.
  assert (H : forallb str_nonempty BOOKS = true) by (vm_compute; reflexivity).
  rewrite forallb_forall in H. apply H, list_elem_of_In, Hb.
Qed.

Lemma is_heading_in_canon (line b : string) :
  is_heading line = Some b -> b ∈ BOOKS.
Proof.
  unfold is_heading.
  destruct (negb (str_nonempty (strip line))); [discriminate|].
  destruct (_ || _); [discriminate|].
  destruct (match re_match BOOK_HEADING_RE (strip line) with
            | Some bh => book_by_name (strip (group bh 2))
            | None => None
            end) as [b'|] eqn:Ename.
  - intros [= <-]. destruct (re_match BOOK_HEADING_RE (strip line)); [|discriminate].
    apply find_some in Ename as [H _]. apply list_elem_of_In. exact H.
  - destruct (find _ ALIASES) as [[canon aliases]|] eqn:Ef; [|discriminate].
    intros [= <-]. apply find_some in Ef as [H _].
    rewrite <- ALIASES_keys. apply list_elem_of_fmap. exists (canon, aliases).
    split; [reflexivity|]. apply list_elem_of_In. exact H.
Qed.

Lemma is_heading_truthy (line : string) :
  truthy (is_heading line) = match is_heading line with Some _ => true | None => false end.
Proof.
  destruct (is_heading line) as [b|] eqn:E; [|reflexivity].
  cbn [truthy]. apply BOOKS_nonempty. eapply is_heading_in_canon; eauto.
Qed.

Lemma sb_inv_init : sb_inv [] sb_init.
Proof.
  split.
  - intros cur. cbn. discriminate.
  - intros b content. cbn [sb_init sb_books_content]. rewrite lookup_empty. discriminate.
Qed.

Lemma sb_step_inv (seen : list string) (st : sb_state) (line : string) :
  sb_inv seen st -> exists st', sb_step st line = Ok st' /\ sb_inv (seen ++ [line]) st'.
Proof.
  intros [Hcur Hkeys].
  assert (Hgrow : forall b content, sb_books_content st !! b = Some content ->
            b ∈ BOOKS /\ content `sublist_of` (rstrip_nl <$> seen ++ [line])).
  { intros b content Hb. destruct (Hkeys b content Hb) as [H1 H2].
    split; [exact H1|]. rewrite fmap_app. apply sublist_inserts_r. exact H2. }
  unfold sb_step.
  set (switch := match is_heading line with
                 | Some b => str_nonempty b && match sb_current st with
                                               | None => true
                                               | Some cur => negb (String.eqb b cur)
                                               end
                 | None => false
                 end).
  assert (Hrest :
    exists st',
      match sb_current st with
      | None => Ok st
      | Some cur =>
          if match sb_heading_buffer st with [] => false | _ :: _ => true end
             && truthy (is_heading line)
          then Ok {| sb_books_content := sb_books_content st;
                     sb_current := sb_current st;
                     sb_heading_buffer := sb_heading_buffer st ++ [line] |}
          else
            bc <- append_line (sb_books_content st) cur (rstrip_nl line) ;;
            Ok {| sb_books_content := bc;
                  sb_current := sb_current st;
                  sb_heading_buffer := [] |}
      end = Ok st' /\ sb_inv (seen ++ [line]) st').
  { destruct (sb_current st) as [cur|] eqn:Ecur.
    - destruct (_ && truthy (is_heading line)).
      + eexists. split; [reflexivity|]. split; cbn [sb_current sb_books_content].
        * intros cur' [= <-]. apply Hcur. reflexivity.
        * exact Hgrow.
      + destruct (Hcur cur eq_refl) as [content Hc].
        unfold append_line, py_getitem. rewrite Hc. cbn [bind].
        eexists. split; [reflexivity|]. split; cbn [sb_current sb_books_content].
        * intros cur' [= <-]. rewrite lookup_insert_eq. eauto.
        * intros b content'. destruct (decide (b = cur)) as [->|Hne].
          -- rewrite lookup_insert_eq. intros [= <-].
             destruct (Hkeys cur content Hc) as [H1 H2]. split; [exact H1|].
             rewrite fmap_app. apply sublist_app; [exact H2|]. reflexivity.
          -- rewrite lookup_insert_ne by congruence. apply Hgrow.
    - eexists. split; [reflexivity|]. split.
      + rewrite Ecur. discriminate.
      + exact Hgrow. }
  destruct (is_heading line) as [b|] eqn:Eh; [|exact Hrest].
  destruct switch; [|exact Hrest].
  eexists. split; [reflexivity|]. split; cbn [sb_current sb_books_content].
  - intros cur [= <-]. unfold setdefault_nil.
    destruct (sb_books_content st !! b) eqn:Eb; [rewrite Eb; eauto|].
    rewrite lookup_insert_eq. eauto.
  - intros b' content. unfold setdefault_nil.
    destruct (sb_books_content st !! b) eqn:Eb; [apply Hgrow|].
    destruct (decide (b' = b)) as [->|Hne].
    + rewrite lookup_insert_eq. intros [= <-]. split.
      * eapply is_heading_in_canon; eauto.
      * apply sublist_nil_l.
    + rewrite lookup_insert_ne by congruence. apply Hgrow.
Qed.

Lemma sb_loop_inv (lines : list string) :
  forall seen st,
    sb_inv seen st ->
    exists st', for_each sb_step lines st = Ok st' /\ sb_inv (seen ++ lines) st'.
Proof.
  induction lines as [|ln rest IH]; intros seen st Hinv.
  - exists st. rewrite app_nil_r. split; [reflexivity | exact Hinv].
  - destruct (sb_step_inv seen st ln Hinv) as (st1 & Hstep & Hinv1).
    destruct (IH _ _ Hinv1) as (st' & Hloop & Hinv').
    exists st'. cbn [for_each]. rewrite Hstep. cbn [bind].
    split; [exact Hloop|]. rewrite <- app_assoc in Hinv'. exact Hinv'.
Qed.

(** A line that is no heading, read before any heading, changes nothing. *)
Lemma sb_step_preface (line : string) :
  is_heading line = None -> sb_step sb_init line = Ok sb_init.
Proof. intros H. unfold sb_step. rewrite H. reflexivity. Qed.

Lemma sb_loop_preface (pre rest : list string) :
  Forall (fun ln => is_heading ln = None) pre ->
  for_each sb_step (pre ++ rest) sb_init = for_each sb_step rest sb_init.
Proof.
  induction 1 as [|ln pre Hln _ IH]; [reflexivity|].
  cbn [app for_each]. rewrite (sb_step_preface ln Hln). cbn [bind]. exact IH.
Qed.

End SplitBooks.

(** X3. A heading is resolved to a book of the canon, whatever the line:
    [is_heading] returns [None] or one of the 66 canonical names, which is
    a true value for the tests of [split_books] and [clean_book_lines]. *)
Theorem is_heading_canonical (line b : string) :
  SplitBibleKjv.is_heading line = Some b ->
  b ∈ SplitBibleKjv.BOOKS /\ SplitBibleKjv.truthy (SplitBibleKjv.is_heading line) = true.
Proof.
  intros H. split.
  - eapply is_heading_in_canon; eauto.
  - rewrite is_heading_truthy, H. reflexivity.
Qed.

Lemma is_heading_canonical_witness :
  "Genesis" ∈ SplitBibleKjv.BOOKS /\
  SplitBibleKjv.truthy (SplitBibleKjv.is_heading "THE FIRST BOOK OF MOSES: CALLED GENESIS") = true.
Proof.
  apply (is_heading_canonical "THE FIRST BOOK OF MOSES: CALLED GENESIS" "Genesis").
  vm_compute. reflexivity.
Defined.

(** X4. Without the numbered format [split_books] never raises: the entry
    of the current book always exists.  Every key of the result is a book
    of the canon, and the lines of a book are lines of the input, without
    their final line feeds, in the order of the input. *)
Theorem split_books_by_headings (lines : list string) :
  SplitBibleKjv.detect_numbered_format lines = false ->
  exists bc,
    SplitBibleKjv.split_books lines = Ok bc /\
    forall b content,
      bc !! b = Some content ->
      b ∈ SplitBibleKjv.BOOKS /\ content `sublist_of` (rstrip_nl <$> lines).
Proof.
  intros Hd. unfold SplitBibleKjv.split_books. rewrite Hd.
  destruct (sb_loop_inv lines [] _ sb_inv_init) as (st & Hloop & Hinv).
  rewrite Hloop. cbn [bind]. eexists. split; [reflexivity|].
  apply (sb_inv_keys _ _ Hinv).
Qed.

Lemma split_books_by_headings_witness :
  exists bc,
    SplitBibleKjv.split_books ["preface"; "GENESIS"; "1:1 In the beginning"; "EXODUS"; "1:1 Now these"]
    = Ok bc /\
    forall b content,
      bc !! b = Some content ->
      b ∈ SplitBibleKjv.BOOKS /\
      content `sublist_of`
        (rstrip_nl <$> ["preface"; "GENESIS"; "1:1 In the beginning"; "EXODUS"; "1:1 Now these"]).
Proof.
  apply split_books_by_headings. vm_compute. reflexivity.
Defined.

(** X5. The lines before the first heading are lost: a run of lines that
    are no headings, put in front of an input split by headings, does not
    change the result. *)
Theorem split_books_drops_preface (pre rest : list string) :
  SplitBibleKjv.detect_numbered_format (pre ++ rest) = false ->
  Forall (fun ln => SplitBibleKjv.is_heading ln = None) pre ->
  SplitBibleKjv.split_books (pre ++ rest) = SplitBibleKjv.split_books rest.
Proof.
  intros Hd Hpre.
  assert (Hd' : SplitBibleKjv.detect_numbered_format rest = false).
  { apply not_true_is_false. intros Ht.
    rewrite detect_split_export in Ht.
    pose proof (detect_grows pre rest [] Ht) as H. rewrite app_nil_r in H.
    rewrite detect_split_export in Hd. congruence. }
  unfold SplitBibleKjv.split_books. rewrite Hd, Hd'.
  rewrite (sb_loop_preface pre rest Hpre). reflexivity.
Qed.

Lemma split_books_drops_preface_witness :
  SplitBibleKjv.split_books (["A title page"; "of two lines"] ++ ["GENESIS"; "1:1 In the beginning"])
  = SplitBibleKjv.split_books ["GENESIS"; "1:1 In the beginning"].
Proof.
  apply split_books_drops_preface.
  - vm_compute. reflexivity.
  - repeat constructor.
Defined.
(** ** The normalizer: what it reads and what it writes *)

Local Arguments String.append !s1 s2 : simpl nomatch.

Section StripBoth.

Variable p : ascii -> bool.

Lemma lstrip_by_all (s : string) : str_all p s = true -> lstrip_by p s = "".
Proof.
  induction s as [|c s IH]; [reflexivity|]. cbn [str_all lstrip_by].
  intros H. apply andb_true_iff in H as [-> H]. auto.
Qed.

(** Stripping at the left and at the right commute. *)
Lemma lstrip_rstrip (s : string) :
  lstrip_by p (rstrip_by p s) = rstrip_by p (lstrip_by p s).
Proof.
  induction s as [|c s IH]; [reflexivity|].
  cbn [lstrip_by rstrip_by]. destruct (p c) eqn:Hc.
  - destruct (rstrip_by p s) as [|c' r] eqn:Er.
    + rewrite (lstrip_by_all s (rstrip_by_nil p s Er)) in IH |- *. reflexivity.
    + cbn [lstrip_by]. rewrite Hc. exact IH.
  - cbn [rstrip_by]. destruct (rstrip_by p s); cbn [lstrip_by]; rewrite Hc; reflexivity.
Qed.

End StripBoth.

Lemma strip_rstrip (s : string) : strip (rstrip s) = strip s.
Proof.
  unfold strip, rstrip. rewrite lstrip_rstrip. apply rstrip_by_idem.
Qed.

Lemma tidy_facts (x : string) :
  tidy x = true ->
  str_nonempty x = true /\ strip x = x /\ rstrip x = x /\ starts_clear is_space x = true.
Proof.
  unfold tidy. intros H. apply andb_true_iff in H as [Hne Hs].
  apply String.eqb_eq in Hs. repeat split; auto.
  - rewrite <- Hs. unfold strip, rstrip. apply rstrip_by_idem.
  - rewrite <- Hs. unfold strip. apply rstrip_by_starts, lstrip_by_starts.
Qed.

Lemma tidy_intro (x : string) : str_nonempty x = true -> strip x = x -> tidy x = true.
Proof. intros H1 H2. unfold tidy. rewrite H1, H2, String.eqb_refl. reflexivity. Qed.

Lemma tidy_strip (ln : string) : str_nonempty (strip ln) = true -> tidy (strip ln) = true.
Proof. intros H. apply tidy_intro; [exact H | apply strip_idem]. Qed.

Lemma tidy_chapter_line (n : N) : tidy (chapter_line n) = true.
Proof. apply tidy_intro; [reflexivity | apply chapter_line_strip]. Qed.

Lemma tidy_verse_line (v : N) (t : string) : clean_text t = true -> tidy (verse_line v t) = true.
Proof.
  intros Ht. apply tidy_intro; [|apply verse_line_strip, Ht].
  unfold verse_line. destruct (str_of_N_nonempty v) as (c & s & -> & _). reflexivity.
Qed.

(** A tidy line extended by a blank and a tidy line is tidy. *)
Lemma tidy_extend (x raw : string) :
  tidy x = true -> tidy raw = true -> tidy (x +:+ " " +:+ raw) = true.
Proof.
  intros Hx Hraw.
  destruct (tidy_facts x Hx) as (Hxne & _ & _ & Hxs).
  destruct (tidy_facts raw Hraw) as (Hrne & _ & Hrr & _).
  apply tidy_intro.
  - destruct x; [discriminate | reflexivity].
  - unfold strip. rewrite lstrip_by_clear by (destruct x; [discriminate | exact Hxs]).
    rewrite <- str_app_assoc. apply rstrip_by_app; assumption.
Qed.

Section Normalizer.

Import SplitBibleKjv.

Lemma is_heading_strip (ln : string) : is_heading (strip ln) = is_heading ln.
Proof. unfold is_heading. rewrite strip_idem. reflexivity. Qed.

Lemma blank_strip (ln : string) : blank (strip ln) = blank ln.
Proof. unfold blank. rewrite strip_idem. reflexivity. Qed.

Lemma blank_rstrip (ln : string) : blank (rstrip ln) = blank ln.
Proof. unfold blank. rewrite strip_rstrip. reflexivity. Qed.

Lemma is_heading_blank (ln : string) : blank ln = true -> is_heading ln = None.
Proof. unfold blank, is_heading. intros ->. reflexivity. Qed.

(** The loop body looks at the stripped line only. *)
Lemma cl_step_strip (st : cl_state) (ln ln' : string) :
  strip ln' = strip ln -> cl_step st ln' = cl_step st ln.
Proof. intros H. unfold cl_step. rewrite H. reflexivity. Qed.

Lemma cl_step_blank (st : cl_state) (ln : string) : blank ln = true -> cl_step st ln = st.
Proof. unfold blank, cl_step. intros ->. reflexivity. Qed.

Lemma fold_cl_step_fmap (f : string -> string) (l : list string) :
  (forall x, strip (f x) = strip x) ->
  forall st, fold_left cl_step (f <$> l) st = fold_left cl_step l st.
Proof.
  intros Hf. induction l as [|x l IH]; intros st; [reflexivity|].
  cbn [fmap list_fmap fold_left]. rewrite (cl_step_strip st x (f x) (Hf x)). apply IH.
Qed.

Lemma fold_cl_step_nonblank (l : list string) :
  forall st,
    fold_left cl_step (List.filter (fun x => negb (blank x)) l) st = fold_left cl_step l st.
Proof.
  induction l as [|x l IH]; intros st; [reflexivity|].
  cbn [List.filter fold_left]. destruct (blank x) eqn:Hb; cbn [negb fold_left].
  - rewrite (cl_step_blank st x Hb). apply IH.
  - apply IH.
Qed.

Lemma pop_leading_blanks_nonblank (l : list string) :
  List.filter (fun x => negb (blank x)) (pop_leading_blanks l)
  = List.filter (fun x => negb (blank x)) l.
Proof.
  induction l as [|x l IH]; [reflexivity|].
  cbn [pop_leading_blanks]. destruct (blank x) eqn:Hb; [|reflexivity].
  cbn [List.filter]. rewrite Hb. exact IH.
Qed.

Lemma pop_trailing_blanks_nonblank (l : list string) :
  List.filter (fun x => negb (blank x)) (pop_trailing_blanks l)
  = List.filter (fun x => negb (blank x)) l.
Proof.
  induction l as [|x l IH]; [reflexivity|].
  cbn [pop_trailing_blanks]. destruct (pop_trailing_blanks l) as [|y r] eqn:Er.
  - cbn [List.filter] in IH |- *. rewrite <- IH.
    destruct (blank x) eqn:Hb; cbn [List.filter negb]; rewrite ?Hb; reflexivity.
  - cbn [List.filter] in IH |- *. rewrite IH. reflexivity.
Qed.

(** The lines the main loop reads, blank lines apart. *)
Lemma drop_headings_nonblank (lines : list string) :
  List.filter (fun x => negb (blank x)) (drop_headings lines)
  = rstrip <$> List.filter content_line lines.
Proof.
  unfold drop_headings, content_line.
  induction lines as [|x l IH]; [reflexivity|].
  cbn [List.filter]. destruct (truthy (is_heading x)); cbn [negb andb]; [exact IH|].
  cbn [fmap list_fmap List.filter]. rewrite blank_rstrip.
  destruct (blank x); cbn [negb]; [exact IH|].
  cbn [fmap list_fmap]. f_equal. exact IH.
Qed.

Lemma clean_book_lines_content (book : string) (lines : list string) :
  clean_book_lines book lines
  = normalized (fold_left cl_step (List.filter content_line lines) cl_init).
Proof.
  unfold clean_book_lines. cbv zeta.
  rewrite <- fold_cl_step_nonblank.
  rewrite pop_trailing_blanks_nonblank, pop_leading_blanks_nonblank, drop_headings_nonblank.
  rewrite (fold_cl_step_fmap rstrip _ strip_rstrip). reflexivity.
Qed.

Lemma content_line_strip (ln : string) : content_line (strip ln) = content_line ln.
Proof. unfold content_line. rewrite is_heading_strip, blank_strip. reflexivity. Qed.

Lemma filter_content_fmap_strip (l : list string) :
  List.filter content_line (strip <$> List.filter content_line l)
  = strip <$> List.filter content_line l.
Proof.
  induction l as [|x l IH]; [reflexivity|].
  cbn [List.filter]. destruct (content_line x) eqn:Hx; [|exact IH].
  cbn [fmap list_fmap List.filter]. rewrite content_line_strip, Hx. f_equal. exact IH.
Qed.

(** *** The shape of the output *)

Lemma start_chapter_opens (st : cl_state) (n : N) :
  opens_with_chapter st -> opens_with_chapter (start_chapter st n).
Proof.
  unfold opens_with_chapter. cbn [start_chapter normalized current_chapter].
  destruct (normalized st) as [|x l]; cbn [app]; eauto.
Qed.

Lemma snoc_opens (st : cl_state) (x : string) (c : option N) (v : option N) :
  opens_with_chapter st -> normalized st <> [] ->
  opens_with_chapter {| normalized := normalized st ++ [x];
                        current_chapter := c; last_verse_in_chapter := v |}.
Proof.
  unfold opens_with_chapter. cbn [normalized current_chapter].
  destruct (normalized st) as [|y l]; [congruence|]. cbn [app]. auto.
Qed.

Lemma start_chapter_nonempty (st : cl_state) (n : N) : normalized (start_chapter st n) <> [].
Proof. cbn [start_chapter normalized]. destruct (normalized st); discriminate. Qed.

Lemma opens_nonempty (st : cl_state) (c : N) :
  opens_with_chapter st -> current_chapter st = Some c -> normalized st <> [].
Proof.
  unfold opens_with_chapter. intros H Hc Hn. rewrite Hn in H. congruence.
Qed.

Lemma append_verse_opens (st : cl_state) (v : N) (t : string) :
  opens_with_chapter st -> normalized st <> [] -> opens_with_chapter (append_verse st v t).
Proof. intros H Hn. unfold append_verse. apply snoc_opens; assumption. Qed.

Lemma infer_chapter_opens (st : cl_state) (v : N) :
  opens_with_chapter st ->
  opens_with_chapter (infer_chapter st v) /\ normalized (infer_chapter st v) <> [].
Proof.
  intros H. unfold infer_chapter.
  destruct (current_chapter st) as [cur|] eqn:Ec.
  - pose proof (opens_nonempty st cur H Ec) as Hn.
    destruct (last_verse_in_chapter st) as [last|]; [|auto].
    destruct (_ && _); [|auto].
    split; [apply start_chapter_opens, H | apply start_chapter_nonempty].
  - split; [apply start_chapter_opens, H | apply start_chapter_nonempty].
Qed.

Lemma update_last_head {A : Type} (f : A -> A) (x y : A) (l : list A) :
  exists l', update_last f (x :: y :: l) = x :: l'.
Proof. cbn [update_last]. eauto. Qed.

Lemma update_last_Forall {A : Type} (P : A -> Prop) (f : A -> A) (l : list A) :
  (forall x, P x -> P (f x)) -> Forall P l -> Forall P (update_last f l).
Proof.
  intros Hf. induction 1 as [|x l Hx Hl IH]; [constructor|].
  destruct l as [|y l]; cbn [update_last].
  - constructor; auto.
  - constructor; [exact Hx | exact IH].
Qed.

Lemma update_last_length {A : Type} (f : A -> A) (l : list A) :
  length (update_last f l) = length l.
Proof.
  induction l as [|x l IH]; [reflexivity|].
  destruct l as [|y l]; [reflexivity|]. cbn [update_last length] in *. rewrite IH. reflexivity.
Qed.

(** One turn of the main loop keeps the shape of the output. *)
Lemma cl_step_shape (st : cl_state) (ln : string) :
  opens_with_chapter st -> Forall (fun x => tidy x = true) (normalized st) ->
  opens_with_chapter (cl_step st ln) /\
  Forall (fun x => tidy x = true) (normalized (cl_step st ln)) /\
  (length (normalized st) <= length (normalized (cl_step st ln)))%nat /\
  (blank ln = false -> normalized (cl_step st ln) <> []).
Proof.
  intros Hopen Htidy. unfold blank, cl_step.
  destruct (negb (str_nonempty (strip ln))) eqn:Hblank.
  { repeat split; auto; discriminate. }
  apply negb_false_iff in Hblank.
  destruct (re_match CHAPTER_HEADING_RE (strip ln)) as [m_head|] eqn:Hhead.
  { repeat split.
    - apply start_chapter_opens, Hopen.
    - cbn [start_chapter normalized]. apply Forall_app. split; [exact Htidy|].
      constructor; [apply tidy_chapter_line | constructor].
    - cbn [start_chapter normalized]. rewrite length_app. lia.
    - intros _. apply start_chapter_nonempty. }
  destruct (re_match VERSE_COLON_RE (strip ln)) as [m_colon|] eqn:Hcolon.
  { pose proof (verse_colon_text ln m_colon Hcolon) as Ht.
    set (st1 := if bool_decide (current_chapter st = Some (int (group m_colon 1))) then st
                else start_chapter st (int (group m_colon 1))).
    assert (H1 : opens_with_chapter st1 /\ normalized st1 <> [] /\
                 Forall (fun x => tidy x = true) (normalized st1) /\
                 (length (normalized st) <= length (normalized st1))%nat).
    { subst st1. destruct (bool_decide _) eqn:Hcur.
      - apply bool_decide_eq_true in Hcur. repeat split; auto.
        eapply opens_nonempty; eauto.
      - repeat split.
        + apply start_chapter_opens, Hopen.
        + apply start_chapter_nonempty.
        + cbn [start_chapter normalized]. apply Forall_app. split; [exact Htidy|].
          constructor; [apply tidy_chapter_line | constructor].
        + cbn [start_chapter normalized]. rewrite length_app. lia. }
    destruct H1 as (Ho1 & Hn1 & Ht1 & Hl1). repeat split.
    - apply append_verse_opens; assumption.
    - cbn [append_verse normalized]. apply Forall_app. split; [exact Ht1|].
      constructor; [apply (tidy_verse_line _ _ Ht) | constructor].
    - cbn [append_verse normalized]. rewrite length_app. lia.
    - intros _. cbn [append_verse normalized]. destruct (normalized st1); discriminate. }
  destruct (re_match VERSE_SIMPLE_RE (strip ln)) as [m_simple|] eqn:Hsimple.
  { pose proof (verse_simple_text ln m_simple Hsimple) as Ht.
    destruct (infer_chapter_opens st (int (group m_simple 1)) Hopen) as [Ho1 Hn1].
    assert (Ht1 : Forall (fun x => tidy x = true)
                    (normalized (infer_chapter st (int (group m_simple 1)))) /\
                  (length (normalized st)
                   <= length (normalized (infer_chapter st (int (group m_simple 1)))))%nat).
    { destruct (infer_chapter_cases st (int (group m_simple 1))) as [E|[k E]]; rewrite E.
      - auto.
      - cbn [start_chapter normalized]. rewrite length_app. split; [|lia].
        apply Forall_app. split; [exact Htidy|].
        constructor; [apply tidy_chapter_line | constructor]. }
    destruct Ht1 as [Ht1 Hl1]. repeat split.
    - apply append_verse_opens; assumption.
    - cbn [append_verse normalized]. apply Forall_app. split; [exact Ht1|].
      constructor; [apply (tidy_verse_line _ _ Ht) | constructor].
    - cbn [append_verse normalized]. rewrite length_app. lia.
    - intros _. cbn [append_verse normalized].
      destruct (normalized (infer_chapter st _)); discriminate. }
  pose proof (tidy_strip ln Hblank) as Hraw.
  destruct (match normalized st with [] => false | _ :: _ => true end
            && negb (last_is_chapter_line (normalized st))) eqn:Hcont.
  { apply andb_true_iff in Hcont as [Hne Hlast]. apply negb_true_iff in Hlast.
    cbn [normalized current_chapter]. repeat split.
    - unfold opens_with_chapter in *. cbn [normalized current_chapter].
      destruct (normalized st) as [|x [|y l]] eqn:En; [discriminate| |].
      + destruct Hopen as [n ->]. unfold last_is_chapter_line in Hlast.
        cbn [last] in Hlast. discriminate.
      + cbn [update_last]. exact Hopen.
    - apply update_last_Forall; [|exact Htidy].
      intros x Hx. apply tidy_extend; assumption.
    - rewrite update_last_length. lia.
    - intros _ Hnil. apply (f_equal length) in Hnil. rewrite update_last_length in Hnil.
      destruct (normalized st); [discriminate | discriminate Hnil]. }
  set (st1 := match current_chapter st with None => start_chapter st 1 | Some _ => st end).
  assert (H1 : opens_with_chapter st1 /\ normalized st1 <> [] /\
               Forall (fun x => tidy x = true) (normalized st1) /\
               (length (normalized st) <= length (normalized st1))%nat).
  { subst st1. destruct (current_chapter st) as [c|] eqn:Ec.
    - repeat split; auto. eapply opens_nonempty; eauto.
    - repeat split.
      + apply start_chapter_opens, Hopen.
      + apply start_chapter_nonempty.
      + cbn [start_chapter normalized]. apply Forall_app. split; [exact Htidy|].
        constructor; [apply tidy_chapter_line | constructor].
      + cbn [start_chapter normalized]. rewrite length_app. lia. }
  destruct H1 as (Ho1 & Hn1 & Ht1 & Hl1). repeat split.
  - apply snoc_opens; assumption.
  - cbn [normalized]. apply Forall_app. split; [exact Ht1|].
    constructor; [exact Hraw | constructor].
  - cbn [normalized]. rewrite length_app. lia.
  - intros _. cbn [normalized]. destruct (normalized st1); discriminate.
Qed.

Lemma fold_cl_step_shape (lines : list string) :
  forall st,
    opens_with_chapter st -> Forall (fun x => tidy x = true) (normalized st) ->
    opens_with_chapter (fold_left cl_step lines st) /\
    Forall (fun x => tidy x = true) (normalized (fold_left cl_step lines st)) /\
    (length (normalized st) <= length (normalized (fold_left cl_step lines st)))%nat.
Proof.
  induction lines as [|ln lines IH]; intros st Ho Ht; [auto|].
  cbn [fold_left]. destruct (cl_step_shape st ln Ho Ht) as (Ho1 & Ht1 & Hl1 & _).
  destruct (IH _ Ho1 Ht1) as (Ho2 & Ht2 & Hl2). repeat split; auto. lia.
Qed.

Lemma cl_init_opens : opens_with_chapter cl_init.
Proof. reflexivity. Qed.

End Normalizer.

(** X6. [clean_book_lines] reads the stripped text of the lines that are
    neither headings nor blank, and nothing else: the book name, the
    blank lines, the heading lines and the blanks around a line do not
    change its result. *)
Theorem clean_book_lines_reads_content (book book' : string) (lines : list string) :
  SplitBibleKjv.clean_book_lines book lines
  = SplitBibleKjv.clean_book_lines book' (strip <$> List.filter content_line lines).
Proof.
  rewrite !clean_book_lines_content, filter_content_fmap_strip.
  rewrite (fold_cl_step_fmap strip _ strip_idem). reflexivity.
Qed.

(** X7. The output of [clean_book_lines] is empty exactly when the input
    has no line to read; otherwise it starts with a chapter marker.  None
    of its lines is empty or has a blank at either end. *)
Theorem clean_book_lines_shape (book : string) (lines : list string) :
  let out := SplitBibleKjv.clean_book_lines book lines in
  (out = [] <-> List.filter content_line lines = []) /\
  (out <> [] -> exists n rest, out = chapter_line n :: rest) /\
  Forall (fun x => tidy x = true) out.
Proof.
  cbv zeta. rewrite clean_book_lines_content.
  destruct (fold_cl_step_shape (List.filter content_line lines) _
              cl_init_opens (Forall_nil_2 _)) as (Ho & Ht & _).
  split; [|split].
  - split.
    + intros Hout. destruct (List.filter content_line lines) as [|x l] eqn:Ef; [reflexivity|].
      exfalso. assert (Hx : content_line x = true).
      { assert (In x (List.filter content_line lines)) as Hin by (rewrite Ef; left; reflexivity).
        apply filter_In in Hin as [_ Hin]. exact Hin. }
      unfold content_line in Hx. apply andb_true_iff in Hx as [_ Hb].
      apply negb_true_iff in Hb. cbn [fold_left] in Hout.
      destruct (cl_step_shape SplitBibleKjv.cl_init x cl_init_opens (Forall_nil_2 _))
        as (Ho1 & Ht1 & _ & Hne).
      destruct (fold_cl_step_shape l _ Ho1 Ht1) as (_ & _ & Hlen).
      rewrite Hout in Hlen. specialize (Hne Hb).
      destruct (SplitBibleKjv.normalized (SplitBibleKjv.cl_step SplitBibleKjv.cl_init x));
        [congruence | cbn in Hlen; lia].
    + intros ->. reflexivity.
  - intros Hne. unfold opens_with_chapter in Ho.
    destruct (SplitBibleKjv.normalized _) as [|x rest]; [congruence|].
    destruct Ho as [n ->]. eauto.
  - exact Ht.
Qed.
(** ** The per-book file parser: names, chapters and verses *)

Local Arguments String.append !s1 s2 : simpl nomatch.

Lemma fmap_alter_same {A B : Type} (g : A -> B) (f : A -> A) (i : nat) (l : list A) :
  (forall x, g (f x) = g x) -> g <$> alter f i l = g <$> l.
Proof.
  intros Hf. revert i. induction l as [|x l IH]; intros i; [reflexivity|].
  destruct i as [|i]; cbn [alter list_alter fmap list_fmap].
  - rewrite Hf. reflexivity.
  - f_equal. apply IH.
Qed.

Lemma fmap_concat {A B : Type} (g : A -> B) (l : list (list A)) :
  g <$> concat l = concat ((fun x : list A => g <$> x) <$> l).
Proof.
  induction l as [|x l IH]; [reflexivity|].
  cbn [concat fmap list_fmap]. rewrite fmap_app. f_equal. exact IH.
Qed.

Lemma all_verses_snoc (chs : list ExportBibleJson.Chapter) (ch : ExportBibleJson.Chapter) :
  all_verses (chs ++ [ch]) = all_verses chs ++ ExportBibleJson.c_verses ch.
Proof.
  unfold all_verses. rewrite fmap_app, concat_app. cbn [fmap list_fmap concat].
  rewrite app_nil_r. reflexivity.
Qed.

Lemma snoc_view {A : Type} (l : list A) : l = [] \/ exists front x, l = front ++ [x].
Proof.
  induction l as [|x l IH] using rev_ind; [left; reflexivity|].
  right. eauto.
Qed.

Section BookFile.

Import ExportBibleJson.

Lemma chapter_re_empty : re_match CHAPTER_RE "" = None.
Proof. reflexivity. Qed.

Lemma verse_re_empty : re_match VERSE_RE "" = None.
Proof. reflexivity. Qed.

Lemma marker_not_verse (ln : string) (n : N) :
  marker_number ln = Some n -> verse_number ln = None.
Proof.
  unfold marker_number, verse_number.
  destruct (re_match VERSE_RE (strip ln)) as [m|] eqn:Ev; [|reflexivity].
  destruct (verse_re_exclusive _ _ Ev) as [_ Hc]. rewrite Hc. discriminate.
Qed.

Lemma pb_step_marker (st : pb_state) (ln : string) (n : N) :
  marker_number ln = Some n ->
  pb_step st ln = {| pb_chapters := pb_chapters st ++ [{| c_number := n; c_verses := [] |}];
                     pb_current_chapter := Some (length (pb_chapters st));
                     pb_last_verse := None |}.
Proof.
  unfold marker_number, pb_step.
  destruct (strip ln) as [|c s] eqn:Es; [rewrite chapter_re_empty; discriminate|].
  cbn [str_nonempty negb]. destruct (re_match CHAPTER_RE (String c s)) as [m|]; [|discriminate].
  cbn. intros [= <-]. reflexivity.
Qed.

Lemma pb_step_verse (st : pb_state) (ln : string) (front : list Chapter) (ch : Chapter)
    (m : list string) :
  pb_chapters st = front ++ [ch] -> pb_current_chapter st = Some (length front) ->
  re_match VERSE_RE (strip ln) = Some m ->
  pb_step st ln =
  {| pb_chapters := front ++ [{| c_number := c_number ch;
                                 c_verses := c_verses ch ++
                                   [{| v_number := int (group m 1);
                                       v_text := strip (group m 2) |}] |}];
     pb_current_chapter := Some (length front);
     pb_last_verse := Some (length front, length (c_verses ch)) |}.
Proof.
  intros Hchs Hcur Hm. destruct (verse_re_exclusive _ _ Hm) as [Hne Hch].
  unfold pb_step. rewrite Hne, Hch, Hm, Hcur, Hchs. cbn [negb].
  rewrite lookup_app_r by lia. rewrite Nat.sub_diag. cbn [lookup list_lookup].
  unfold append_verse_at. rewrite alter_app_r_alt by lia. rewrite Nat.sub_diag.
  reflexivity.
Qed.

(** The numbers of the chapters and of the verses after a line that is
    no chapter marker. *)
Lemma pb_step_other (st : pb_state) (ln : string) :
  pb_current_is_last st -> marker_number ln = None ->
  pb_current_is_last (pb_step st ln) /\
  c_number <$> pb_chapters (pb_step st ln) = c_number <$> pb_chapters st /\
  v_number <$> all_verses (pb_chapters (pb_step st ln)) =
    (v_number <$> all_verses (pb_chapters st)) ++
    match pb_chapters st with
    | [] => []
    | _ :: _ => option_list (verse_number ln)
    end.
Proof.
  intros Hlast Hmark.
  assert (Hext : forall ci vi x,
            c_number <$> extend_verse_at ci vi x (pb_chapters st) = c_number <$> pb_chapters st /\
            v_number <$> all_verses (extend_verse_at ci vi x (pb_chapters st))
            = v_number <$> all_verses (pb_chapters st) /\
            length (extend_verse_at ci vi x (pb_chapters st)) = length (pb_chapters st)).
  { intros ci vi x. unfold extend_verse_at. split; [|split].
    - apply fmap_alter_same. reflexivity.
    - unfold all_verses. rewrite !fmap_concat, <- !list_fmap_compose.
      f_equal. apply fmap_alter_same. intros ch. cbn.
      apply fmap_alter_same. reflexivity.
    - apply length_alter. }
  assert (Hcont :
    let st' := match pb_last_verse st with
               | Some (ci, vi) =>
                   {| pb_chapters := extend_verse_at ci vi (strip ln) (pb_chapters st);
                      pb_current_chapter := pb_current_chapter st;
                      pb_last_verse := pb_last_verse st |}
               | None => st
               end in
    pb_current_is_last st' /\
    c_number <$> pb_chapters st' = c_number <$> pb_chapters st /\
    v_number <$> all_verses (pb_chapters st') = v_number <$> all_verses (pb_chapters st)).
  { cbv zeta. destruct (pb_last_verse st) as [[ci vi]|]; [|auto].
    destruct (Hext ci vi (strip ln)) as (H1 & H2 & H3).
    split; [|auto]. unfold pb_current_is_last in *. cbn [pb_chapters pb_current_chapter].
    rewrite Hlast, H3.
    destruct (pb_chapters st), (extend_verse_at ci vi (strip ln) _); try discriminate H3;
      reflexivity. }
  unfold marker_number in Hmark. unfold verse_number, pb_step.
  destruct (negb (str_nonempty (strip ln))) eqn:Hblank.
  { apply negb_true_iff in Hblank. destruct (strip ln); [|discriminate].
    rewrite verse_re_empty. cbn. repeat split; auto.
    destruct (pb_chapters st); rewrite app_nil_r; reflexivity. }
  destruct (re_match CHAPTER_RE (strip ln)) as [mc|] eqn:Ec; [discriminate|].
  destruct (re_match VERSE_RE (strip ln)) as [m|] eqn:Ev.
  - destruct (snoc_view (pb_chapters st)) as [Hnil|(front & ch & Hchs)].
    + unfold pb_current_is_last in Hlast. rewrite Hnil in Hlast. rewrite Hlast.
      cbv zeta in Hcont. rewrite Hnil, app_nil_r. rewrite Hnil, Hlast in Hcont. exact Hcont.
    + assert (Hcur : pb_current_chapter st = Some (length front)).
      { unfold pb_current_is_last in Hlast. rewrite Hlast, Hchs.
        destruct front; cbn [app length]; [reflexivity|]. rewrite length_app. cbn. f_equal. lia. }
      pose proof (pb_step_verse st ln front ch m Hchs Hcur Ev) as Hstep.
      unfold pb_step in Hstep. rewrite Hblank, Ec, Ev in Hstep. rewrite Hstep.
      cbn [pb_chapters pb_current_chapter]. split; [|split].
      * unfold pb_current_is_last. cbn [pb_chapters pb_current_chapter].
        destruct front; cbn [app length]; [reflexivity|]. rewrite length_app. cbn. f_equal. lia.
      * rewrite Hchs, !fmap_app. reflexivity.
      * rewrite Hchs, !all_verses_snoc. cbn [c_verses]. rewrite !fmap_app, <- app_assoc.
        destruct front; reflexivity.
  - cbv zeta in Hcont. destruct Hcont as (H1 & H2 & H3).
    assert (Hnil : match pb_chapters st with
                   | [] => []
                   | _ :: _ => option_list (None ≫= (fun m : list string => Some (int (group m 1))))
                   end = []) by (destruct (pb_chapters st); reflexivity).
    rewrite Hnil, app_nil_r.
    destruct (pb_current_chapter st); auto.
Qed.

Lemma pb_fold_numbers (lines : list string) :
  forall st,
    pb_current_is_last st ->
    c_number <$> pb_chapters (fold_left pb_step lines st)
    = (c_number <$> pb_chapters st) ++ omap marker_number lines /\
    v_number <$> all_verses (pb_chapters (fold_left pb_step lines st))
    = (v_number <$> all_verses (pb_chapters st)) ++
      omap verse_number (match pb_chapters st with
                         | [] => after_first_marker lines
                         | _ :: _ => lines
                         end).
Proof.
  induction lines as [|ln lines IH]; intros st Hlast.
  - cbn [fold_left omap list_omap after_first_marker].
    destruct (pb_chapters st); rewrite !app_nil_r; auto.
  - cbn [fold_left omap list_omap after_first_marker].
    destruct (marker_number ln) as [n|] eqn:Hmark.
    + rewrite (pb_step_marker st ln n Hmark).
      destruct (IH {| pb_chapters := pb_chapters st ++ [{| c_number := n; c_verses := [] |}];
                      pb_current_chapter := Some (length (pb_chapters st));
                      pb_last_verse := None |}) as [H1 H2].
      { unfold pb_current_is_last. cbn [pb_chapters pb_current_chapter].
        destruct (pb_chapters st); cbn [app length]; [reflexivity|].
        rewrite length_app. cbn. f_equal. lia. }
      cbn [pb_chapters] in H1, H2. rewrite H1, H2, fmap_app, all_verses_snoc, <- app_assoc.
      cbn [c_verses]. rewrite app_nil_r. split; [reflexivity|].
      destruct (pb_chapters st); cbn [app]; [reflexivity|].
      cbn [omap list_omap]. rewrite (marker_not_verse ln n Hmark). reflexivity.
    + destruct (pb_step_other st ln Hlast Hmark) as (Hl & Hc & Hv).
      destruct (IH _ Hl) as [H1 H2]. rewrite H1, H2, Hc, Hv. split; [reflexivity|].
      assert (Hsame : match pb_chapters (pb_step st ln) with [] => true | _ :: _ => false end
                      = match pb_chapters st with [] => true | _ :: _ => false end).
      { apply (f_equal length) in Hc. rewrite !length_fmap in Hc.
        destruct (pb_chapters (pb_step st ln)), (pb_chapters st); try discriminate Hc;
          reflexivity. }
      destruct (pb_chapters (pb_step st ln)), (pb_chapters st); try discriminate Hsame.
      * rewrite app_nil_r. reflexivity.
      * rewrite <- app_assoc. cbn [omap list_omap].
        destruct (verse_number ln); reflexivity.
Qed.

(** *** The name and the order of the book *)

Lemma find_space_free (i : nat) (b : string) :
  BOOKS !! i = Some b ->
  find (fun b' => String.eqb (remove_spaces b') (remove_spaces b)) BOOKS = Some b.
Proof.
  intros Hb.
  assert (H : forallb (fun b => match find (fun b' => String.eqb (remove_spaces b')
                                                        (remove_spaces b)) BOOKS with
                                | Some b' => String.eqb b' b
                                | None => false
                                end) BOOKS = true) by (vm_compute; reflexivity).
  rewrite forallb_forall in H. apply list_elem_of_lookup_2, list_elem_of_In in Hb.
  specialize (H b Hb). destruct (find _ BOOKS) as [b'|]; [|discriminate].
  apply String.eqb_eq in H. congruence.
Qed.

Lemma BOOK_INDEX_lookup (i : nat) (b : string) :
  BOOKS !! i = Some b -> BOOK_INDEX !! b = Some (N.of_nat i + 1).
Proof.
  intros Hb. unfold BOOK_INDEX. apply elem_of_list_to_map_1.
  - exact BOOKS_NoDup.
  - apply elem_of_lookup_imap. eauto.
Qed.

Lemma BOOK_INDEX_keys (b : string) : b ∉ BOOKS -> BOOK_INDEX !! b = None.
Proof.
  intros Hb. unfold BOOK_INDEX. apply not_elem_of_list_to_map_1.
  intros Hin. apply Hb. apply list_elem_of_fmap in Hin as ([b' n] & -> & Hin).
  apply elem_of_lookup_imap in Hin as (i & b'' & [= -> ->] & Hi).
  eapply list_elem_of_lookup_2; eauto.
Qed.

(** *** Reading a rendered book *)

Lemma chapter_re_chapter_line (n : N) :
  re_match CHAPTER_RE (chapter_line n) = Some [str_of_N n].
Proof.
  unfold chapter_line. pose proof (str_of_N_digits n) as Hd.
  destruct (str_of_N_nonempty n) as (c & s & E & Hc).
  set (d := str_of_N n) in *.
  unfold re_match, CHAPTER_RE, seq_re, plus. cbn [foldr run].
  assert (Hlit : lit_rest true "Chapter" ("Chapter " +:+ d) = Some ("Chapter", " " +:+ d))
    by reflexivity.
  rewrite Hlit.
  rewrite (rep_greedy is_space " " d 1%nat "" _ [d]); [reflexivity | reflexivity | | simpl; lia |].
  - rewrite E. simpl. rewrite (digit_not_space c Hc). reflexivity.
  - apply rep_greedy_end; [exact Hd | rewrite E; simpl; lia | reflexivity].
Qed.

Lemma marker_number_chapter_line (n : N) : marker_number (chapter_line n) = Some n.
Proof.
  unfold marker_number. rewrite chapter_line_strip, chapter_re_chapter_line.
  cbn [mbind option_bind group nth Nat.pred]. rewrite int_str_of_N. reflexivity.
Qed.

Lemma pb_fold_verses (vs : list Verse) :
  forall st front n done,
    pb_chapters st = front ++ [{| c_number := n; c_verses := done |}] ->
    pb_current_chapter st = Some (length front) ->
    forallb (fun v => clean_text (v_text v)) vs = true ->
    let st' := fold_left pb_step
                 ((fun v => verse_line (v_number v) (v_text v)) <$> vs) st in
    pb_chapters st' = front ++ [{| c_number := n; c_verses := done ++ vs |}] /\
    pb_current_chapter st' = Some (length front).
Proof.
  induction vs as [|v vs IH]; intros st front n done Hchs Hcur Hclean; cbv zeta.
  - cbn [fmap list_fmap fold_left]. rewrite app_nil_r. auto.
  - cbn [forallb] in Hclean. apply andb_true_iff in Hclean as [Hv Hclean].
    cbn [fmap list_fmap fold_left].
    assert (Hm : re_match VERSE_RE (strip (verse_line (v_number v) (v_text v)))
                 = Some [str_of_N (v_number v); v_text v]).
    { rewrite (verse_line_strip _ _ Hv). exact (verse_line_match _ _ Hv). }
    rewrite (pb_step_verse st _ front _ _ Hchs Hcur Hm).
    cbn [group nth Nat.pred c_number c_verses]. rewrite int_str_of_N.
    destruct (clean_text_facts _ Hv) as (_ & _ & _ & _ & Hs). rewrite Hs.
    destruct (IH {| pb_chapters :=
                      front ++ [{| c_number := n;
                                   c_verses := done ++ [{| v_number := v_number v;
                                                           v_text := v_text v |}] |}];
                    pb_current_chapter := Some (length front);
                    pb_last_verse := Some (length front, length done) |}
                 front n (done ++ [{| v_number := v_number v; v_text := v_text v |}])
                 eq_refl eq_refl Hclean) as [H1 H2].
    cbv zeta in H1, H2. rewrite H1, H2. split; [|reflexivity].
    rewrite <- app_assoc. destruct v. reflexivity.
Qed.

Lemma pb_fold_render (chs : list Chapter) :
  forall st,
    pb_current_is_last st -> clean_chapters chs = true ->
    let st' := fold_left pb_step (render_book chs) st in
    pb_chapters st' = pb_chapters st ++ chs /\ pb_current_is_last st'.
Proof.
  induction chs as [|ch chs IH]; intros st Hlast Hclean; cbv zeta.
  - cbn [render_book fmap list_fmap concat fold_left]. rewrite app_nil_r. auto.
  - cbn [clean_chapters forallb] in Hclean. apply andb_true_iff in Hclean as [Hch Hclean].
    unfold render_book. cbn [fmap list_fmap concat]. rewrite fold_left_app.
    change (fold_left pb_step (render_chapter ch) st)
      with (fold_left pb_step ((fun v => verse_line (v_number v) (v_text v)) <$> c_verses ch)
              (pb_step st (chapter_line (c_number ch)))).
    rewrite (pb_step_marker st _ _ (marker_number_chapter_line (c_number ch))).
    destruct (pb_fold_verses (c_verses ch)
                {| pb_chapters := pb_chapters st ++ [{| c_number := c_number ch; c_verses := [] |}];
                   pb_current_chapter := Some (length (pb_chapters st));
                   pb_last_verse := None |}
                (pb_chapters st) (c_number ch) [] eq_refl eq_refl Hch) as [H1 H2].
    cbv zeta in H1, H2. cbn [app] in H1.
    match goal with
    | |- context [fold_left pb_step (concat _) ?s] => set (st1 := s) in *
    end.
    destruct (IH st1) as [H3 H4].
    { unfold pb_current_is_last. rewrite H2, H1.
      destruct (pb_chapters st); cbn [app length]; [reflexivity|].
      rewrite length_app. cbn. f_equal. lia. }
    { exact Hclean. }
    cbv zeta in H3, H4. fold (render_book chs). rewrite H3, H1, <- app_assoc.
    split; [|exact H4]. destruct ch. reflexivity.
Qed.

End BookFile.

(** X8. [parse_book_txt] opens one chapter per chapter marker, in the
    order of the file, and records one verse per verse line after the
    first marker, in the order of the file: the chapter numbers of the
    result are the numbers of the markers and its verse numbers those of
    the verse lines, whatever else the file holds. *)
Theorem parse_book_txt_chapters_and_verses (stem : string) (lines : list string) :
  let bj := ExportBibleJson.parse_book_txt stem lines in
  ExportBibleJson.c_number <$> ExportBibleJson.chapters bj = omap marker_number lines /\
  ExportBibleJson.v_number <$> all_verses (ExportBibleJson.chapters bj)
  = omap verse_number (after_first_marker lines).
Proof.
  cbv zeta. unfold ExportBibleJson.parse_book_txt. cbn [ExportBibleJson.chapters].
  destruct (pb_fold_numbers lines ExportBibleJson.pb_init eq_refl) as [H1 H2].
  exact (conj H1 H2).
Qed.

(** X9. The file name gives the book back: for the file of a canonical
    book, named after it without its spaces, [parse_book_txt] restores
    the canonical name and gives its 1-based position in the canon; for
    a name that belongs to no book the name is kept and the order is 0. *)
Theorem parse_book_txt_book_and_order (stem : string) (lines : list string) :
  let bj := ExportBibleJson.parse_book_txt stem lines in
  (forall i b,
     ExportBibleJson.BOOKS !! i = Some b -> stem = ExportBibleJson.remove_spaces b ->
     ExportBibleJson.book bj = b /\ ExportBibleJson.order bj = N.of_nat i + 1) /\
  ((forall b, b ∈ ExportBibleJson.BOOKS -> stem <> ExportBibleJson.remove_spaces b /\ stem <> b) ->
   ExportBibleJson.book bj = stem /\ ExportBibleJson.order bj = 0).
Proof.
  cbv zeta. unfold ExportBibleJson.parse_book_txt.
  cbn [ExportBibleJson.book ExportBibleJson.order]. split.
  - intros i b Hb ->. rewrite (find_space_free i b Hb), (BOOK_INDEX_lookup i b Hb). auto.
  - intros Hno.
    destruct (find _ ExportBibleJson.BOOKS) as [b|] eqn:Ef.
    + apply find_some in Ef as [Hin Heq]. apply String.eqb_eq in Heq.
      apply list_elem_of_In in Hin. destruct (Hno b Hin) as [H _]. congruence.
    + rewrite BOOK_INDEX_keys; [auto|]. intros Hin. destruct (Hno stem Hin) as [_ H]. congruence.
Qed.

(** X10. Reading a book file back: the lines that hold the chapters of a
    book, a marker [Chapter N] and then one line [V text] per verse, are
    parsed by [parse_book_txt] into these chapters, provided the verse
    texts are texts the normalizer writes. *)
Theorem parse_book_txt_render_book (stem : string) (chs : list ExportBibleJson.Chapter) :
  clean_chapters chs = true ->
  ExportBibleJson.chapters (ExportBibleJson.parse_book_txt stem (render_book chs)) = chs.
Proof.
  intros Hclean. unfold ExportBibleJson.parse_book_txt. cbn [ExportBibleJson.chapters].
  destruct (pb_fold_render chs ExportBibleJson.pb_init eq_refl Hclean) as [H _].
  exact H.
Qed.

Lemma parse_book_txt_render_book_witness :
  ExportBibleJson.chapters
    (ExportBibleJson.parse_book_txt "Genesis"
       (render_book
          [{| ExportBibleJson.c_number := 1;
              ExportBibleJson.c_verses :=
                [{| ExportBibleJson.v_number := 1; ExportBibleJson.v_text := "In the beginning" |};
                 {| ExportBibleJson.v_number := 2; ExportBibleJson.v_text := "And the earth" |}] |};
           {| ExportBibleJson.c_number := 2;
              ExportBibleJson.c_verses :=
                [{| ExportBibleJson.v_number := 1; ExportBibleJson.v_text := "Thus" |}] |}]))
  = [{| ExportBibleJson.c_number := 1;
        ExportBibleJson.c_verses :=
          [{| ExportBibleJson.v_number := 1; ExportBibleJson.v_text := "In the beginning" |};
           {| ExportBibleJson.v_number := 2; ExportBibleJson.v_text := "And the earth" |}] |};
     {| ExportBibleJson.c_number := 2;
        ExportBibleJson.c_verses :=
          [{| ExportBibleJson.v_number := 1; ExportBibleJson.v_text := "Thus" |}] |}].
Proof.
  apply parse_book_txt_render_book. vm_compute. reflexivity.
Defined.
(** ** The sink without upload *)

Section SinkWriteOnly.

Import ExportBibleJson.

Variable requests_post : request -> outcome.
Variables (api_url password tradition source work : string).
Variable books : gmap string BookJSON.
Variable out_dir : option string.

Lemma sink_loop_write_only (bs : list string) :
  forall w,
    exists w',
      sink_loop requests_post api_url password tradition source work books out_dir false bs w
      = (w', Ok tt) /\
      sent w' = sent w /\
      files w' = files w ++ written_files out_dir (present_books books bs) /\
      stdout w' = stdout w ++ concat (wrote_lines out_dir <$> present_books books bs).
Proof.
  induction bs as [|b bs IH]; intros w.
  - exists w. cbn [sink_loop present_books omap list_omap fmap list_fmap concat].
    unfold written_files. destruct out_dir; cbn [fmap list_fmap]; rewrite !app_nil_r; auto.
  - cbn [sink_loop]. unfold present_books in *. cbn [omap list_omap].
    destruct (books !! b) as [bk|]; [|apply IH].
    destruct (IH (match out_dir with Some d => write_json bk d w | None => w end))
      as (w' & Hrun & Hsent & Hfiles & Hout).
    exists w'. split; [exact Hrun|].
    rewrite Hsent, Hfiles, Hout. unfold written_files, wrote_lines.
    destruct out_dir as [d|]; cbn [write_json print sent files stdout fmap list_fmap concat];
      rewrite <- ?app_assoc; auto.
Qed.

End SinkWriteOnly.

(** X11. Without [--upload] the sink cannot fail and never calls the
    server: it writes one file per book present, in the order of the
    canon, reports each and ends with the line Done.  Without an output
    directory either, that line is all it does. *)
Theorem sink_write_only
    (requests_post : ExportBibleJson.request -> ExportBibleJson.outcome)
    (api_url password tradition source work : string)
    (books : gmap string ExportBibleJson.BookJSON) (out_dir : option string)
    (w : ExportBibleJson.world) :
  let present := present_books books ExportBibleJson.BOOKS in
  exists w',
    ExportBibleJson.sink requests_post api_url password tradition source work
      books out_dir false w = (w', Ok tt) /\
    ExportBibleJson.sent w' = ExportBibleJson.sent w /\
    ExportBibleJson.files w' = ExportBibleJson.files w ++ written_files out_dir present /\
    ExportBibleJson.stdout w' =
      ExportBibleJson.stdout w ++ concat (wrote_lines out_dir <$> present) ++ ["Done."].
Proof.
  cbv zeta. unfold ExportBibleJson.sink.
  destruct (sink_loop_write_only requests_post api_url password tradition source work
              books out_dir ExportBibleJson.BOOKS w) as (w' & Hrun & Hsent & Hfiles & Hout).
  rewrite Hrun. eexists. split; [reflexivity|].
  cbn [ExportBibleJson.print ExportBibleJson.sent ExportBibleJson.files ExportBibleJson.stdout].
  rewrite Hsent, Hfiles, Hout, <- app_assoc. auto.
Qed.
(** ** The numbered-format parser: where the verses go *)

Local Arguments String.append !s1 s2 : simpl nomatch.

Lemma py_index_snoc {A : Type} (l : list A) (x : A) : py_index (l ++ [x]) (-1) = Ok x.
Proof.
  destruct (py_index_last_nonempty (l ++ [x])) as [y Hy]; [destruct l; discriminate|].
  rewrite Hy. f_equal. apply py_index_last in Hy.
  rewrite length_app in Hy. cbn [length] in Hy.
  rewrite lookup_app_r in Hy by lia.
  replace (length l + 1 - 1 - length l)%nat with 0%nat in Hy by lia.
  cbn in Hy. congruence.
Qed.

Lemma rstrip_by_head (p : ascii -> bool) (s : string) (c : ascii) (r : string) :
  rstrip_by p s = String c r -> exists s', s = String c s'.
Proof.
  destruct s as [|a s]; [discriminate|]. cbn [rstrip_by].
  destruct (rstrip_by p s); [destruct (p a)|]; intros [= <- _]; eauto.
Qed.

Lemma clean_tidy (t : string) : clean_text t = true -> tidy t = true.
Proof.
  intros H. destruct (clean_text_facts t H) as (Hne & _ & _ & _ & Hs).
  apply tidy_intro; assumption.
Qed.

Lemma tidy_digits (d : string) :
  str_nonempty d = true -> str_all is_digit d = true -> tidy d = true.
Proof.
  intros Hne Hd. apply tidy_intro; [exact Hne|].
  unfold strip. rewrite lstrip_by_clear.
  - apply digits_rstrip, Hd.
  - destruct d as [|c d]; [reflexivity|]. cbn in Hd |- *.
    apply andb_true_iff in Hd as [Hc _]. rewrite (digit_not_space c Hc). reflexivity.
Qed.

Lemma tidy_verse_text (v : N) (t : string) : tidy t = true -> tidy (verse_line v t) = true.
Proof.
  intros Ht. unfold verse_line. apply tidy_extend; [|exact Ht].
  apply tidy_digits; [|apply str_of_N_digits].
  destruct (str_of_N_nonempty v) as (c & s & -> & _). reflexivity.
Qed.

Section NumberedMaster.

Import ExportBibleJson.

(** A line that holds a numbered verse has no blank in front. *)
Lemma num_verse_flush (ln : string) (mv : list string) :
  re_match NUM_VERSE_RE (rstrip ln) = Some mv -> strip ln = rstrip ln.
Proof.
  intros H. apply num_verse_starts_with_digit in H as (c & s' & E & Hc).
  apply rstrip_by_head in E as [s'' ->].
  unfold strip, rstrip. cbn [lstrip_by]. rewrite (digit_not_space c Hc). reflexivity.
Qed.

(** The text of a numbered verse line is a clean text. *)
Lemma num_verse_text (ln : string) (mv : list string) :
  re_match NUM_VERSE_RE (rstrip ln) = Some mv ->
  clean_text (strip (group mv 4)) = true.
Proof.
  intros Hm. pose proof (num_verse_flush ln mv Hm) as Hflush. revert Hm.
  unfold re_match, NUM_VERSE_RE, seq_re, plus, star, exactly. cbn [foldr run]. intros H.
  apply rep_sound in H as (d1 & r1 & E1 & _ & _ & H).
  destruct (lit_rest false ":" r1) as [[lm1 r2]|] eqn:Hlit1; [|discriminate].
  assert (Hr1 : r1 = String ":" r2).
  { destruct r1 as [|x r1]; [discriminate|]. cbn [lit_rest] in Hlit1.
    destruct (char_eq false ":" x) eqn:Hx; [|discriminate].
    apply Ascii.eqb_eq in Hx as <-. injection Hlit1 as _ <-. reflexivity. }
  apply rep_sound in H as (d2 & r3 & -> & _ & _ & H).
  destruct (lit_rest false ":" r3) as [[lm2 r4]|] eqn:Hlit2; [|discriminate].
  assert (Hr3 : r3 = String ":" r4).
  { destruct r3 as [|x r3]; [discriminate|]. cbn [lit_rest] in Hlit2.
    destruct (char_eq false ":" x) eqn:Hx; [|discriminate].
    apply Ascii.eqb_eq in Hx as <-. injection Hlit2 as _ <-. reflexivity. }
  apply rep_sound in H as (d3 & r5 & -> & _ & _ & H).
  apply rep_sound in H as (w & r6 & -> & Hw & Hwl & H).
  apply rep_sound in H as (t & e & -> & Ht & _ & H).
  destruct (at_eos e) eqn:He; [|discriminate].
  injection H as <-. cbn [group nth Nat.pred app].
  destruct w as [|c w]; [simpl in Hwl; lia|].
  simpl in Hw. apply andb_true_iff in Hw as [Hc Hw].
  apply (stripped_text_clean ln (d1 +:+ String ":" (d2 +:+ String ":" d3)) c w t e); auto.
  rewrite Hflush, E1, Hr1, Hr3. rewrite ?str_app_assoc. simpl. rewrite ?str_app_assoc.
  simpl. rewrite ?str_app_assoc. reflexivity.
Qed.

Lemma numbered_verse_None (ln : string) :
  re_match NUM_VERSE_RE (rstrip ln) = None -> numbered_verse ln = None.
Proof. unfold numbered_verse. intros ->. reflexivity. Qed.

Lemma placed_in_snoc_None (b : string) (seen : list string) (ln : string) :
  numbered_verse ln = None -> placed_in b (seen ++ [ln]) = placed_in b seen.
Proof.
  intros H. unfold placed_in. rewrite omap_app. cbn [omap list_omap]. rewrite H.
  apply app_nil_r.
Qed.

Lemma chapter_verse_numbers_snoc (chs : list Chapter) (ch : Chapter) :
  chapter_verse_numbers (chs ++ [ch])
  = chapter_verse_numbers chs ++ ((fun v => (c_number ch, v_number v)) <$> c_verses ch).
Proof.
  unfold chapter_verse_numbers. rewrite fmap_app, concat_app.
  cbn [fmap list_fmap concat]. rewrite app_nil_r. reflexivity.
Qed.

Lemma pm_shape_init : pm_shape [] pm_init.
Proof.
  split; try discriminate.
  - intros b bj ch Hb Hch. apply pm_init_keys in Hb as [_ Hb]. rewrite Hb in Hch.
    inversion Hch.
  - intros b bj ch v Hb Hch. apply pm_init_keys in Hb as [_ Hb]. rewrite Hb in Hch.
    inversion Hch.
  - intros b bj Hb. apply pm_init_keys in Hb as [_ Hb]. rewrite Hb. reflexivity.
Qed.

Lemma pm_shape_reset (seen : list string) (ln : string) (st : pm_state) (ob : option string) :
  numbered_verse ln = None ->
  pm_shape seen st -> pm_shape (seen ++ [ln]) (pm_reset st ob).
Proof.
  intros Hln [H1 H2 H3 H4 H5]. split; cbn [pm_reset pm_books pm_current_book
    pm_current_chapter_num pm_last_verse]; auto; try discriminate.
  intros b bj Hb. rewrite placed_in_snoc_None by exact Hln. auto.
Qed.

Lemma pm_shape_skip (seen : list string) (ln : string) (st : pm_state) :
  numbered_verse ln = None ->
  pm_shape seen st -> pm_shape (seen ++ [ln]) st.
Proof.
  intros Hln [H1 H2 H3 H4 H5]. split; auto.
  intros b bj Hb. rewrite placed_in_snoc_None by exact Hln. auto.
Qed.

(** The block that aligns the current book with the number of the verse
    line keeps the state or resets it. *)
Lemma pm_align_cases (st st0 : pm_state) (bn : N) :
  pm_align st bn = Ok st0 ->
  exists cb,
    py_index BOOKS (Z.of_N bn - 1) = Ok cb /\
    ((pm_current_book st = Some cb /\ st0 = st) \/
     (pm_current_book st <> Some cb /\ st0 = pm_reset st (Some cb))).
Proof.
  unfold pm_align. destruct (pm_current_book st) as [cur|] eqn:Ecur.
  - destruct (py_index BOOKS (Z.of_N bn - 1)) as [b|] eqn:Eb; cbn [bind]; [|discriminate].
    destruct (String.eqb cur b) eqn:Eeq; cbn [negb bind].
    + apply String.eqb_eq in Eeq as ->. intros [= <-]. exists b. auto.
    + apply String.eqb_neq in Eeq. intros [= <-]. exists b. split; [reflexivity|].
      right. split; [congruence | reflexivity].
  - cbn [bind]. destruct (py_index BOOKS (Z.of_N bn - 1)) as [b|] eqn:Eb; cbn [bind];
      [|discriminate].
    intros [= <-]. exists b. split; [reflexivity|]. right. split; [discriminate | reflexivity].
Qed.

(** What a numbered verse line does to the state: its book becomes the
    current one, and the verse is appended to the last chapter of the
    book if that chapter is open under the same number, to a new chapter
    otherwise. *)
Lemma pm_verse_spec (seen : list string) (st st' : pm_state) (mv : list string) :
  pm_inv seen st -> pm_shape seen st -> pm_verse st mv = Ok st' ->
  let chapter := int (lstrip0_or0 (group mv 2)) in
  let verse := {| v_number := int (lstrip0_or0 (group mv 3)); v_text := strip (group mv 4) |} in
  exists cb bj base vs,
    py_index BOOKS (Z.of_N (int (group mv 1)) - 1) = Ok cb /\
    pm_books st !! cb = Some bj /\
    ((pm_current_book st = Some cb /\ pm_current_chapter_num st = Some chapter /\
      chapters bj = base ++ [{| c_number := chapter; c_verses := vs |}]) \/
     (~ (pm_current_book st = Some cb /\ pm_current_chapter_num st = Some chapter) /\
      chapters bj = base /\ vs = [])) /\
    st' = {| pm_books :=
               <[cb := with_chapters bj
                         (base ++ [{| c_number := chapter; c_verses := vs ++ [verse] |}])]>
                 (pm_books st);
             pm_current_book := Some cb;
             pm_current_chapter_num := Some chapter;
             pm_last_verse := Some (cb, length base, length vs) |}.
Proof.
  intros Hinv Hshape H. cbv zeta. unfold pm_verse in H. bind_inv H. rename a into st0.
  apply pm_align_cases in E as (cb & Hcb & Hcase).
  assert (Hbooks0 : pm_books st0 = pm_books st)
    by (destruct Hcase as [[_ ->]|[_ ->]]; reflexivity).
  assert (Hcur0 : pm_current_book st0 = Some cb)
    by (destruct Hcase as [[Hc ->]|[_ ->]]; [exact Hc | reflexivity]).
  assert (Hbj : exists bj, pm_books st !! cb = Some bj).
  { pose proof (py_index_Ok _ _ _ Hcb) as Hin. apply list_elem_of_lookup in Hin as [i Hi].
    destruct (inv_books _ _ Hinv i cb Hi) as (bj & Hbj & _). eauto. }
  destruct Hbj as [bj Hbj]. exists cb, bj.
  unfold pm_append in H. rewrite Hcur0 in H. unfold py_getitem in H.
  rewrite Hbooks0, Hbj in H. cbn [bind] in H.
  destruct (bool_decide (pm_current_chapter_num st0 = Some (int (lstrip0_or0 (group mv 2)))))
    eqn:Hdec.
  - apply bool_decide_eq_true in Hdec.
    assert (Hst0 : st0 = st).
    { destruct Hcase as [[_ ->]|[_ ->]]; [reflexivity|]. discriminate Hdec. }
    subst st0.
    destruct (shape_open _ _ Hshape _ Hdec) as (cb' & bj' & front & vs & Hc' & Hb' & Hchs).
    assert (cb' = cb) as -> by congruence. assert (bj' = bj) as -> by congruence.
    exists front, vs. split; [exact Hcb|]. split; [exact Hbj|]. split; [left; auto|].
    rewrite Hchs in H. rewrite py_index_snoc in H. cbn [bind] in H.
    injection H as <-. rewrite Hdec.
    rewrite length_app. cbn [length c_verses].
    replace (length front + 1 - 1)%nat with (length front) by lia.
    unfold append_verse_at. rewrite alter_app_r_alt by lia. rewrite Nat.sub_diag.
    reflexivity.
  - apply bool_decide_eq_false in Hdec.
    exists (chapters bj), []. split; [exact Hcb|]. split; [exact Hbj|]. split.
    + right. split; [|auto]. intros [Hc1 Hc2].
      destruct Hcase as [[_ ->]|[Hne _]]; [congruence | congruence].
    + rewrite py_index_snoc in H. cbn [bind] in H. injection H as <-.
      rewrite length_app. cbn [length c_verses].
      replace (length (chapters bj) + 1 - 1)%nat with (length (chapters bj)) by lia.
      unfold append_verse_at. rewrite alter_app_r_alt by lia. rewrite Nat.sub_diag.
      reflexivity.
Qed.

Lemma pm_shape_verse (seen : list string) (ln : string) (st st' : pm_state) (mv : list string) :
  re_match NUM_VERSE_RE (rstrip ln) = Some mv ->
  pm_inv seen st -> pm_shape seen st -> pm_verse st mv = Ok st' ->
  pm_shape (seen ++ [ln]) st'.
Proof.
  intros Hm Hinv Hshape H.
  destruct (pm_verse_spec seen st st' mv Hinv Hshape H)
    as (cb & bj & base & vs & Hcb & Hbj & Hcase & ->).
  pose proof (num_verse_text ln mv Hm) as Htext.
  assert (Hbase : forall ch, ch ∈ base -> ch ∈ chapters bj).
  { intros ch Hch. destruct Hcase as [(_ & _ & ->)|(_ & -> & _)]; [|exact Hch].
    apply elem_of_app. left. exact Hch. }
  assert (Hvs : forall v, v ∈ vs -> exists ch, ch ∈ chapters bj /\ v ∈ c_verses ch).
  { intros v Hv. destruct Hcase as [(_ & _ & ->)|(_ & _ & ->)]; [|inversion Hv].
    eexists. split; [apply elem_of_app; right; apply list_elem_of_here | exact Hv]. }
  assert (Hnum : chapter_verse_numbers
                   (base ++ [{| c_number := int (lstrip0_or0 (group mv 2));
                                c_verses := vs ++ [{| v_number := int (lstrip0_or0 (group mv 3));
                                                      v_text := strip (group mv 4) |}] |}])
                 = chapter_verse_numbers (chapters bj)
                   ++ [(int (lstrip0_or0 (group mv 2)), int (lstrip0_or0 (group mv 3)))]).
  { rewrite chapter_verse_numbers_snoc. cbn [c_number c_verses].
    destruct Hcase as [(_ & _ & ->)|(_ & -> & ->)].
    - rewrite chapter_verse_numbers_snoc. cbn [c_number c_verses].
      rewrite fmap_app, app_assoc. reflexivity.
    - reflexivity. }
  destruct Hshape as [H1 H2 H3 H4 H5].
  split; cbn [pm_books pm_current_book pm_current_chapter_num pm_last_verse].
  - intros c [= <-]. exists cb. eexists. exists base. eexists.
    rewrite lookup_insert_eq. cbn [with_chapters chapters]. eauto.
  - intros b ci vi [= <- <- <-]. eexists. exists base. do 3 eexists.
    rewrite lookup_insert_eq. cbn [with_chapters chapters]. eauto.
  - intros b bj' ch. destruct (decide (b = cb)) as [->|Hne].
    + rewrite lookup_insert_eq. intros [= <-]. cbn [with_chapters chapters].
      intros Hch. apply elem_of_app in Hch as [Hch|Hch].
      * eapply H3; eauto.
      * apply list_elem_of_singleton in Hch as ->. cbn [c_verses]. destruct vs; discriminate.
    + rewrite lookup_insert_ne by congruence. apply H3.
  - intros b bj' ch v. destruct (decide (b = cb)) as [->|Hne].
    + rewrite lookup_insert_eq. intros [= <-]. cbn [with_chapters chapters].
      intros Hch Hv. apply elem_of_app in Hch as [Hch|Hch].
      * eapply H4; eauto.
      * apply list_elem_of_singleton in Hch as ->. cbn [c_verses] in Hv.
        apply elem_of_app in Hv as [Hv|Hv].
        -- destruct (Hvs v Hv) as (ch & Hch & Hv'). eapply H4; eauto.
        -- apply list_elem_of_singleton in Hv as ->. cbn [v_text]. apply clean_tidy, Htext.
    + rewrite lookup_insert_ne by congruence. apply H4.
  - intros b bj'. unfold placed_in. rewrite omap_app. cbn [omap list_omap].
    unfold numbered_verse. rewrite Hm, Hcb. fold (placed_in b seen).
    destruct (decide (b = cb)) as [->|Hne].
    + rewrite lookup_insert_eq. intros [= <-]. cbn [with_chapters chapters].
      rewrite String.eqb_refl, Hnum, (H5 cb bj Hbj). reflexivity.
    + rewrite lookup_insert_ne by congruence. intros Hb.
      assert (String.eqb b cb = false) as -> by (apply String.eqb_neq; exact Hne).
      rewrite app_nil_r. apply H5. exact Hb.
Qed.

Lemma extend_verse_at_last (front : list Chapter) (n : N) (vs : list Verse) (v : Verse)
    (x : string) :
  extend_verse_at (length front) (length vs) x
    (front ++ [{| c_number := n; c_verses := vs ++ [v] |}])
  = front ++ [{| c_number := n;
                 c_verses := vs ++ [{| v_number := v_number v;
                                       v_text := v_text v +:+ " " +:+ x |}] |}].
Proof.
  unfold extend_verse_at. rewrite alter_app_r_alt by lia. rewrite Nat.sub_diag.
  cbn [alter list_alter c_number c_verses]. rewrite alter_app_r_alt by lia.
  rewrite Nat.sub_diag. reflexivity.
Qed.

Lemma pm_shape_continuation (seen : list string) (ln : string) (st : pm_state) :
  numbered_verse ln = None -> str_nonempty (strip ln) = true ->
  pm_shape seen st -> pm_shape (seen ++ [ln]) (pm_continuation st ln).
Proof.
  intros Hln Hne Hshape. unfold pm_continuation.
  destruct (pm_last_verse st) as [[[b ci] vi]|] eqn:Hlast;
    [|apply pm_shape_skip; assumption].
  destruct (shape_last _ _ Hshape b ci vi Hlast)
    as (bj & front & n & vs & v & Hbj & Hchs & -> & ->).
  destruct Hshape as [H1 H2 H3 H4 H5].
  assert (Hnew : alter (fun bj => with_chapters bj
                          (extend_verse_at (length front) (length vs) (strip ln) (chapters bj)))
                   b (pm_books st) !! b
                 = Some (with_chapters bj
                     (front ++ [{| c_number := n;
                                   c_verses := vs ++ [{| v_number := v_number v;
                                                         v_text := v_text v +:+ " " +:+ strip ln |}] |}]))).
  { rewrite lookup_alter_eq, Hbj. cbn [fmap option_fmap option_map].
    rewrite Hchs, extend_verse_at_last. reflexivity. }
  split; cbn [pm_books pm_current_book pm_current_chapter_num pm_last_verse].
  - intros c Hc. destruct (H1 c Hc) as (cb & bj' & front' & vs' & Hcb & Hbj' & Hchs').
    exists cb. destruct (decide (cb = b)) as [->|Hne'].
    + assert (bj' = bj) as -> by congruence. rewrite Hchs in Hchs'.
      apply app_inj_tail in Hchs' as [<- [= <- <-]].
      eexists. exists front. eexists. rewrite Hnew. cbn [with_chapters chapters]. eauto.
    + exists bj', front', vs'. rewrite lookup_alter_ne by congruence. auto.
  - intros b' ci vi [= <- <- <-]. rewrite Hnew. eexists. exists front. do 3 eexists.
    cbn [with_chapters chapters]. eauto.
  - intros b' bj' ch. destruct (decide (b' = b)) as [->|Hne'].
    + rewrite Hnew. intros [= <-]. cbn [with_chapters chapters]. intros Hch.
      apply elem_of_app in Hch as [Hch|Hch].
      * apply (H3 b bj ch Hbj). rewrite Hchs. apply elem_of_app. auto.
      * apply list_elem_of_singleton in Hch as ->. cbn [c_verses]. destruct vs; discriminate.
    + rewrite lookup_alter_ne by congruence. apply H3.
  - intros b' bj' ch v'. destruct (decide (b' = b)) as [->|Hne'].
    + rewrite Hnew. intros [= <-]. cbn [with_chapters chapters]. intros Hch Hv.
      assert (Hin : {| c_number := n; c_verses := vs ++ [v] |} ∈ chapters bj).
      { rewrite Hchs. apply elem_of_app. right. apply list_elem_of_here. }
      apply elem_of_app in Hch as [Hch|Hch].
      * apply (H4 b bj ch v' Hbj); [|exact Hv]. rewrite Hchs. apply elem_of_app. auto.
      * apply list_elem_of_singleton in Hch as ->. cbn [c_verses] in Hv.
        apply elem_of_app in Hv as [Hv|Hv].
        -- apply (H4 b bj _ v' Hbj Hin). cbn [c_verses]. apply elem_of_app. auto.
        -- apply list_elem_of_singleton in Hv as ->. cbn [v_text].
           apply tidy_extend; [|apply tidy_strip, Hne].
           apply (H4 b bj _ v Hbj Hin). cbn [c_verses]. apply elem_of_app. right.
           apply list_elem_of_here.
    + rewrite lookup_alter_ne by congruence. apply H4.
  - intros b' bj'. rewrite placed_in_snoc_None by exact Hln.
    destruct (decide (b' = b)) as [->|Hne'].
    + rewrite Hnew. intros [= <-]. cbn [with_chapters chapters].
      rewrite <- (H5 b bj Hbj), Hchs, !chapter_verse_numbers_snoc. cbn [c_number c_verses].
      rewrite !fmap_app. reflexivity.
    + rewrite lookup_alter_ne by congruence. apply H5.
Qed.

(** One line of the input keeps the shape. *)
Lemma pm_step_shape (seen : list string) (st st' : pm_state) (ln : string) :
  pm_inv seen st -> pm_shape seen st -> pm_step st ln = Ok st' ->
  pm_shape (seen ++ [ln]) st'.
Proof.
  intros Hinv Hshape. unfold pm_step.
  destruct (negb (str_nonempty (strip (rstrip ln)))) eqn:Hblank.
  { intros [= <-]. apply pm_shape_skip; [|exact Hshape].
    unfold numbered_verse.
    destruct (re_match NUM_VERSE_RE (rstrip ln)) as [mv|] eqn:E; [|reflexivity].
    destruct (num_verse_exclusive _ _ E) as [Hne _]. rewrite Hne in Hblank. discriminate. }
  destruct (re_match BOOK_HEADING_RE (strip (rstrip ln))) as [bh|] eqn:Hbh.
  { intros H. bind_inv H. injection H as <-. apply pm_shape_reset; [|exact Hshape].
    unfold numbered_verse.
    destruct (re_match NUM_VERSE_RE (rstrip ln)) as [mv|] eqn:E'; [|reflexivity].
    destruct (num_verse_exclusive _ _ E') as [_ Hno]. congruence. }
  destruct (re_match NUM_VERSE_RE (rstrip ln)) as [mv|] eqn:Hmv.
  { intros H. eapply pm_shape_verse; eauto. }
  intros [= <-]. apply negb_false_iff in Hblank. rewrite strip_rstrip in Hblank.
  assert (Hc : pm_continuation st (rstrip ln) = pm_continuation st ln).
  { unfold pm_continuation. rewrite strip_rstrip. reflexivity. }
  rewrite Hc. apply pm_shape_continuation; [apply numbered_verse_None, Hmv | exact Hblank | exact Hshape].
Qed.

Lemma pm_loop_shape (lines : list string) :
  forall seen st st',
    pm_inv seen st -> pm_shape seen st -> for_each pm_step lines st = Ok st' ->
    pm_inv (seen ++ lines) st' /\ pm_shape (seen ++ lines) st'.
Proof.
  induction lines as [|ln lines IH]; intros seen st st' Hinv Hshape H.
  - injection H as <-. rewrite app_nil_r. auto.
  - cbn [for_each] in H. bind_inv H. rename a into st1.
    destruct (pm_step_inv seen st ln Hinv) as [Hinv1 _]. specialize (Hinv1 st1 E).
    pose proof (pm_step_shape seen st st1 ln Hinv Hshape E) as Hshape1.
    destruct (IH _ _ _ Hinv1 Hshape1 H) as [H1 H2].
    rewrite <- app_assoc in H1, H2. auto.
Qed.

Lemma nonempty_chapters_full (chs : list Chapter) :
  (forall ch, ch ∈ chs -> c_verses ch <> []) -> nonempty_chapters chs = chs.
Proof.
  unfold nonempty_chapters. induction chs as [|ch chs IH]; intros H; [reflexivity|].
  cbn [List.filter]. pose proof (H ch (list_elem_of_here _ _)) as Hch.
  destruct (c_verses ch); [congruence|]. f_equal. apply IH.
  intros ch' Hch'. apply H. apply list_elem_of_further. exact Hch'.
Qed.

(** The last loop finds no chapter to remove. *)
Lemma trim_books_full (books : gmap string BookJSON) :
  (forall b, b ∈ BOOKS -> is_Some (books !! b)) ->
  (forall b bj ch, books !! b = Some bj -> ch ∈ chapters bj -> c_verses ch <> []) ->
  trim_books books = Ok books.
Proof.
  intros Hkeys Hfull. destruct (trim_loop BOOKS books Hkeys) as (books' & Hrun & Hlook).
  unfold trim_books. rewrite Hrun. f_equal. apply map_eq. intros b. rewrite Hlook.
  destruct (decide (b ∈ BOOKS)); [|reflexivity].
  destruct (books !! b) as [bj|] eqn:Hb; [|reflexivity].
  cbn [fmap option_fmap option_map]. f_equal.
  rewrite (nonempty_chapters_full (chapters bj)) by (intros ch; apply (Hfull b bj ch Hb)).
  destruct bj. reflexivity.
Qed.

Lemma parse_master_numbered_loop (lines : list string) (books : gmap string BookJSON) :
  parse_master_numbered lines = Ok books ->
  exists st, for_each pm_step lines pm_init = Ok st /\ pm_books st = books /\
             pm_inv lines st /\ pm_shape lines st.
Proof.
  unfold parse_master_numbered. intros H. bind_inv H. rename a into st.
  destruct (pm_loop_shape lines [] pm_init st pm_inv_init pm_shape_init E) as [Hinv Hshape].
  cbn [app] in Hinv, Hshape. exists st. split; [reflexivity|]. split; [|auto].
  rewrite trim_books_full in H.
  - congruence.
  - intros b Hb. apply list_elem_of_lookup in Hb as [i Hi].
    destruct (inv_books _ _ Hinv i b Hi) as (bj & Hbj & _). eauto.
  - apply (shape_full _ _ Hshape).
Qed.

Lemma pm_loop_returns (lines : list string) :
  book_numbers_in_canon lines = true ->
  exists st, for_each pm_step lines pm_init = Ok st.
Proof.
  intros Hcanon. destruct (pm_loop_inv lines [] pm_init pm_inv_init) as [_ Hprog].
  apply Hprog. intros ln n Hln Hn. unfold book_numbers_in_canon in Hcanon.
  rewrite forallb_forall in Hcanon. apply list_elem_of_In in Hln.
  specialize (Hcanon ln Hln). rewrite Hn in Hcanon. apply N.leb_le. exact Hcanon.
Qed.

Lemma parse_master_numbered_returns (lines : list string) :
  book_numbers_in_canon lines = true ->
  exists books,
    parse_master_numbered lines = Ok books /\ forall b, b ∈ BOOKS -> is_Some (books !! b).
Proof.
  intros Hcanon. destruct (pm_loop_returns lines Hcanon) as [st Hst].
  destruct (pm_loop_shape lines [] pm_init st pm_inv_init pm_shape_init Hst) as [Hinv Hshape].
  cbn [app] in Hinv, Hshape.
  assert (Hkeys : forall b, b ∈ BOOKS -> is_Some (pm_books st !! b)).
  { intros b Hb. apply list_elem_of_lookup in Hb as [i Hi].
    destruct (inv_books _ _ Hinv i b Hi) as (bj & Hbj & _). eauto. }
  exists (pm_books st). split; [|exact Hkeys].
  unfold parse_master_numbered. rewrite Hst. cbn [bind].
  apply trim_books_full; [exact Hkeys | apply (shape_full _ _ Hshape)].
Qed.

End NumberedMaster.

(** X12. [parse_master_numbered] places every numbered verse line in the
    book its number resolves to, whatever the last BOOK heading said, and
    keeps the order of the input: the chapter and verse numbers of the
    verses of a book are those of its verse lines, one verse per line,
    none merged, none dropped. *)
Theorem parse_master_numbered_verse_order
    (lines : list string) (books : gmap string ExportBibleJson.BookJSON)
    (b : string) (bj : ExportBibleJson.BookJSON) :
  ExportBibleJson.parse_master_numbered lines = Ok books ->
  books !! b = Some bj ->
  chapter_verse_numbers (ExportBibleJson.chapters bj) = placed_in b lines.
Proof.
  intros H Hb. apply parse_master_numbered_loop in H as (st & _ & <- & _ & Hshape).
  apply (shape_order _ _ Hshape b bj Hb).
Qed.

Lemma parse_master_numbered_verse_order_witness :
  exists books bj,
    ExportBibleJson.parse_master_numbered
      ["BOOK 02 Exodus"; "01:001:001 In the beginning"; "02:001:001 Now these";
       "01:001:002 And the earth"] = Ok books /\
    books !! "Genesis" = Some bj /\
    chapter_verse_numbers (ExportBibleJson.chapters bj) =
      placed_in "Genesis"
        ["BOOK 02 Exodus"; "01:001:001 In the beginning"; "02:001:001 Now these";
         "01:001:002 And the earth"].
Proof.
  destruct (parse_master_numbered_returns
              ["BOOK 02 Exodus"; "01:001:001 In the beginning"; "02:001:001 Now these";
               "01:001:002 And the earth"]) as (books & E & Hkeys);
    [vm_compute; reflexivity|].
  destruct (Hkeys "Genesis") as [bj Hb]; [apply list_elem_of_here|].
  exists books, bj. split; [exact E|]. split; [exact Hb|].
  apply (parse_master_numbered_verse_order _ books "Genesis" bj E Hb).
Defined.

(** X13. The loop that trims empty chapters at the end of
    [parse_master_numbered] never finds one: a chapter is opened only by
    the verse line that gives it its first verse, so the result is the
    mapping the main loop built. *)
Theorem parse_master_numbered_trim_is_identity (lines : list string) (st : ExportBibleJson.pm_state) :
  for_each ExportBibleJson.pm_step lines ExportBibleJson.pm_init = Ok st ->
  ExportBibleJson.trim_books (ExportBibleJson.pm_books st) = Ok (ExportBibleJson.pm_books st) /\
  ExportBibleJson.parse_master_numbered lines = Ok (ExportBibleJson.pm_books st).
Proof.
  intros H.
  destruct (pm_loop_shape lines [] _ st pm_inv_init pm_shape_init H) as [Hinv Hshape].
  assert (Ht : ExportBibleJson.trim_books (ExportBibleJson.pm_books st)
               = Ok (ExportBibleJson.pm_books st)).
  { apply trim_books_full.
    - intros b Hb. apply list_elem_of_lookup in Hb as [i Hi].
      destruct (inv_books _ _ Hinv i b Hi) as (bj & Hbj & _). eauto.
    - apply (shape_full _ _ Hshape). }
  split; [exact Ht|]. unfold ExportBibleJson.parse_master_numbered. rewrite H. exact Ht.
Qed.

Lemma parse_master_numbered_trim_is_identity_witness :
  exists st,
    for_each ExportBibleJson.pm_step
      ["BOOK 01 Genesis"; "01:001:001 In the beginning"; "God created"; "01:002:001 Thus"]
      ExportBibleJson.pm_init = Ok st /\
    ExportBibleJson.trim_books (ExportBibleJson.pm_books st) = Ok (ExportBibleJson.pm_books st) /\
    ExportBibleJson.parse_master_numbered
      ["BOOK 01 Genesis"; "01:001:001 In the beginning"; "God created"; "01:002:001 Thus"]
    = Ok (ExportBibleJson.pm_books st).
Proof.
  destruct (pm_loop_returns
              ["BOOK 01 Genesis"; "01:001:001 In the beginning"; "God created"; "01:002:001 Thus"])
    as [st E]; [vm_compute; reflexivity|].
  exists st. split; [exact E|].
  apply (parse_master_numbered_trim_is_identity _ st E).
Defined.
(** ** The two numbered parsers agree *)

Local Arguments String.append !s1 s2 : simpl nomatch.

Lemma render_book_snoc (chs : list ExportBibleJson.Chapter) (ch : ExportBibleJson.Chapter) :
  render_book (chs ++ [ch]) = render_book chs ++ render_chapter ch.
Proof.
  unfold render_book. rewrite fmap_app, concat_app. cbn [fmap list_fmap concat].
  rewrite app_nil_r. reflexivity.
Qed.

Lemma render_chapter_snoc (n : N) (vs : list ExportBibleJson.Verse) (v : ExportBibleJson.Verse) :
  render_chapter {| ExportBibleJson.c_number := n; ExportBibleJson.c_verses := vs ++ [v] |}
  = render_chapter {| ExportBibleJson.c_number := n; ExportBibleJson.c_verses := vs |}
    ++ [verse_line (ExportBibleJson.v_number v) (ExportBibleJson.v_text v)].
Proof.
  unfold render_chapter. cbn [ExportBibleJson.c_number ExportBibleJson.c_verses].
  rewrite fmap_app. reflexivity.
Qed.

Lemma verse_line_extend (v : N) (t x : string) :
  verse_line v (t +:+ " " +:+ x) = verse_line v t +:+ " " +:+ x.
Proof. unfold verse_line. rewrite !str_app_assoc. reflexivity. Qed.

Lemma strip_items_tidy (l : list string) :
  Forall (fun x => tidy x = true) l -> SplitBibleKjv.strip_items l = l.
Proof.
  unfold SplitBibleKjv.strip_items. induction 1 as [|x l Hx _ IH]; [reflexivity|].
  destruct (tidy_facts x Hx) as (Hne & Hs & _).
  cbn [fmap list_fmap List.filter]. rewrite Hs, Hne. f_equal. exact IH.
Qed.

Lemma render_book_tidy (chs : list ExportBibleJson.Chapter) :
  (forall ch v, ch ∈ chs -> v ∈ ExportBibleJson.c_verses ch ->
                tidy (ExportBibleJson.v_text v) = true) ->
  Forall (fun x => tidy x = true) (render_book chs).
Proof.
  intros H. unfold render_book. apply Forall_concat, Forall_fmap, Forall_forall.
  intros ch Hch. unfold render_chapter. cbn. constructor; [apply tidy_chapter_line|].
  apply Forall_fmap, Forall_forall. intros v Hv. cbn. apply tidy_verse_text. eauto.
Qed.

Section TwoParsers.

Import SplitBibleKjv.

Lemma nf_pm_sim_init : nf_pm_sim nf_init ExportBibleJson.pm_init.
Proof.
  split; try reflexivity.
  intros b. cbn [nf_init nf_books_content ExportBibleJson.pm_init ExportBibleJson.pm_books].
  assert (Hfst : ((fun b : string => (b, @nil string)) <$> BOOKS).*1 = BOOKS) by reflexivity.
  destruct (decide (b ∈ BOOKS)) as [Hin|Hnin].
  - apply list_elem_of_lookup in Hin as [i Hi].
    pose proof (pm_init_books i b Hi) as Hpm.
    cbn [ExportBibleJson.pm_init ExportBibleJson.pm_books] in Hpm. rewrite Hpm.
    cbn [fmap option_fmap option_map ExportBibleJson.chapters].
    apply elem_of_list_to_map_1.
    + rewrite Hfst. exact BOOKS_NoDup.
    + apply list_elem_of_fmap. exists b. split; [reflexivity|].
      eapply list_elem_of_lookup_2; eauto.
  - rewrite (not_elem_of_list_to_map_1 _ b).
    + rewrite (not_elem_of_list_to_map_1 _ b); [reflexivity|].
      intros Hin. apply Hnin. apply list_elem_of_fmap in Hin as ([b' bj] & -> & Hin).
      apply elem_of_lookup_imap in Hin as (i & b'' & [= -> ->] & Hi).
      eapply list_elem_of_lookup_2; eauto.
    + rewrite Hfst. exact Hnin.
Qed.

(** What a numbered verse line does to the state of the splitter, when
    its book number is in the canon. *)
Lemma nf_verse_spec (st : nf_state) (mv : list string) (cb : string) (content : list string) :
  in_canon (int (group mv 1)) = true ->
  py_index BOOKS (Z.of_N (int (group mv 1)) - 1) = Ok cb ->
  nf_books_content st !! cb = Some content ->
  let chapter := int (lstrip0_or0 (group mv 2)) in
  let item := verse_line (int (lstrip0_or0 (group mv 3))) (strip (group mv 4)) in
  exists last_chapter,
    (nf_current_book st = Some cb /\ nf_current_chapter st = Some chapter /\
     nf_verse st mv =
     Ok {| nf_books_content := <[cb := content ++ [item]]> (nf_books_content st);
           nf_current_book := Some cb;
           nf_current_chapter := Some chapter;
           nf_last_chapter := last_chapter;
           nf_last_verse_line_index := Some (cb, (length (content ++ [item]) - 1)%nat) |}) \/
    (~ (nf_current_book st = Some cb /\ nf_current_chapter st = Some chapter) /\
     nf_verse st mv =
     Ok {| nf_books_content :=
             <[cb := content ++ [chapter_line chapter; item]]> (nf_books_content st);
           nf_current_book := Some cb;
           nf_current_chapter := Some chapter;
           nf_last_chapter := last_chapter;
           nf_last_verse_line_index :=
             Some (cb, (length (content ++ [chapter_line chapter; item]) - 1)%nat) |}).
Proof.
  intros Hcanon Hcb Hcontent. cbv zeta. unfold nf_verse. rewrite Hcanon, Hcb. cbn [bind].
  assert (Hopen : forall st0 : nf_state,
            nf_books_content st0 = nf_books_content st ->
            nf_current_book st0 = Some cb ->
            nf_current_chapter st0 <> Some (int (lstrip0_or0 (group mv 2))) ->
            match nf_current_book st0 with
            | None => Ok st0
            | Some cb0 =>
                st1 <- (if bool_decide (nf_current_chapter st0
                                        = Some (int (lstrip0_or0 (group mv 2))))
                        then Ok st0
                        else
                          bc <- append_line (nf_books_content st0) cb0
                                  ("Chapter " +:+ str_of_N (int (lstrip0_or0 (group mv 2)))) ;;
                          Ok {| nf_books_content := bc;
                                nf_current_book := nf_current_book st0;
                                nf_current_chapter := Some (int (lstrip0_or0 (group mv 2)));
                                nf_last_chapter := Some (int (lstrip0_or0 (group mv 2)));
                                nf_last_verse_line_index := nf_last_verse_line_index st0 |}) ;;
                bc <- append_line (nf_books_content st1) cb0
                        (str_of_N (int (lstrip0_or0 (group mv 3))) +:+ " " +:+ strip (group mv 4)) ;;
                lst <- py_getitem bc cb0 ;;
                Ok {| nf_books_content := bc;
                      nf_current_book := nf_current_book st1;
                      nf_current_chapter := nf_current_chapter st1;
                      nf_last_chapter := nf_last_chapter st1;
                      nf_last_verse_line_index := Some (cb0, (length lst - 1)%nat) |}
            end =
            Ok {| nf_books_content :=
                    <[cb := content ++
                            [chapter_line (int (lstrip0_or0 (group mv 2)));
                             verse_line (int (lstrip0_or0 (group mv 3))) (strip (group mv 4))]]>
                      (nf_books_content st);
                  nf_current_book := Some cb;
                  nf_current_chapter := Some (int (lstrip0_or0 (group mv 2)));
                  nf_last_chapter := Some (int (lstrip0_or0 (group mv 2)));
                  nf_last_verse_line_index :=
                    Some (cb, (length (content ++
                            [chapter_line (int (lstrip0_or0 (group mv 2)));
                             verse_line (int (lstrip0_or0 (group mv 3))) (strip (group mv 4))])
                          - 1)%nat) |}).
  { intros st0 Hbc Hcur Hch. rewrite Hcur.
    rewrite bool_decide_eq_false_2 by exact Hch.
    unfold append_line, py_getitem. rewrite Hbc, Hcontent. cbn [bind nf_books_content].
    rewrite lookup_insert_eq. cbn [bind nf_books_content nf_current_book nf_current_chapter
      nf_last_chapter]. rewrite lookup_insert_eq. cbn [bind]. rewrite insert_insert_eq.
    rewrite <- app_assoc. reflexivity. }
  destruct (nf_current_book st) as [cur|] eqn:Ecur.
  - destruct (String.eqb cur cb) eqn:Eeq; cbn [negb bind].
    + apply String.eqb_eq in Eeq as ->.
      destruct (decide (nf_current_chapter st = Some (int (lstrip0_or0 (group mv 2)))))
        as [Hch|Hch].
      * exists (nf_last_chapter st). left. split; [reflexivity|]. split; [exact Hch|].
        rewrite Ecur. rewrite bool_decide_eq_true_2 by exact Hch. cbn [bind].
        unfold append_line, py_getitem. rewrite Hcontent. cbn [bind].
        rewrite lookup_insert_eq. cbn [bind]. rewrite Ecur, Hch. reflexivity.
      * exists (Some (int (lstrip0_or0 (group mv 2)))). right. split; [tauto|].
        apply (Hopen st eq_refl Ecur Hch).
    + apply String.eqb_neq in Eeq.
      exists (Some (int (lstrip0_or0 (group mv 2)))). right. split; [intros [H _]; congruence|].
      apply (Hopen (nf_reset st (Some cb)) eq_refl eq_refl). discriminate.
  - cbn [bind]. exists (Some (int (lstrip0_or0 (group mv 2)))). right.
    split; [intros [H _]; congruence|].
    apply (Hopen (nf_reset st (Some cb)) eq_refl eq_refl). discriminate.
Qed.

Lemma py_index_nat {A : Type} (l : list A) (i : nat) (x : A) :
  l !! i = Some x -> py_index l (Z.of_nat i) = Ok x.
Proof.
  intros H. pose proof (lookup_lt_Some _ _ _ H) as Hlt. unfold py_index.
  assert ((Z.of_nat i <? 0)%Z = false) as -> by (apply Z.ltb_ge; lia).
  assert (((0 <=? Z.of_nat i) && (Z.of_nat i <? Z.of_nat (length l)))%Z = true) as ->.
  { apply andb_true_iff. split; [apply Z.leb_le | apply Z.ltb_lt]; lia. }
  rewrite Nat2Z.id, H. reflexivity.
Qed.

(** A line that the exporter does not read as a verse is none for the
    splitter either, unless it is indented. *)
Lemma not_indented_same (ln : string) :
  indented_verse ln = false ->
  re_match ExportBibleJson.NUM_VERSE_RE (rstrip ln) = None ->
  re_match NUM_VERSE_RE (strip ln) = None.
Proof.
  unfold indented_verse, matches. intros Hind Hnone.
  destruct (re_match NUM_VERSE_RE (strip ln)) as [m|] eqn:E; [|reflexivity].
  cbn [andb] in Hind. apply negb_false_iff in Hind.
  unfold strip in E. rewrite (lstrip_by_clear is_space ln Hind) in E.
  change (rstrip_by is_space ln) with (rstrip ln) in E.
  change NUM_VERSE_RE with ExportBibleJson.NUM_VERSE_RE in E. congruence.
Qed.

Lemma nf_pm_sim_step (seen : list string) (nf : nf_state)
    (pm pm' : ExportBibleJson.pm_state) (ln : string) :
  pm_inv seen pm -> pm_shape seen pm -> nf_pm_sim nf pm ->
  indented_verse ln = false ->
  (forall bn c v, numbered_verse ln = Some (bn, c, v) -> ExportBibleJson.in_canon bn = true) ->
  ExportBibleJson.pm_step pm ln = Ok pm' ->
  exists nf', nf_step nf ln = Ok nf' /\ nf_pm_sim nf' pm'.
Proof.
  intros Hinv Hshape Hsim Hind Hcanon. unfold ExportBibleJson.pm_step, nf_step.
  rewrite strip_rstrip.
  destruct (negb (str_nonempty (strip ln))) eqn:Hblank.
  { intros [= <-]. exists nf. auto. }
  change BOOK_HEADING_RE with ExportBibleJson.BOOK_HEADING_RE.
  destruct (re_match ExportBibleJson.BOOK_HEADING_RE (strip ln)) as [bh|] eqn:Hbh.
  { change (heading_book bh) with (ExportBibleJson.heading_book bh).
    intros H. bind_inv H. injection H as <-. cbn [bind]. eexists. split; [reflexivity|].
    destruct Hsim as [S1 S2 S3 S4]. split; cbn [nf_reset nf_books_content nf_current_book
      nf_current_chapter nf_last_verse_line_index ExportBibleJson.pm_reset
      ExportBibleJson.pm_books ExportBibleJson.pm_current_book
      ExportBibleJson.pm_current_chapter_num ExportBibleJson.pm_last_verse]; auto. }
  destruct (re_match ExportBibleJson.NUM_VERSE_RE (rstrip ln)) as [mv|] eqn:Hmv.
  - intros H. rewrite (num_verse_flush ln mv Hmv).
    change NUM_VERSE_RE with ExportBibleJson.NUM_VERSE_RE. rewrite Hmv.
    assert (Hc : ExportBibleJson.in_canon (int (group mv 1)) = true).
    { eapply Hcanon. unfold numbered_verse. rewrite Hmv. reflexivity. }
    destruct (pm_verse_spec seen pm pm' mv Hinv Hshape H)
      as (cb & bj & base & vs & Hcb & Hbj & Hcase & ->).
    destruct Hsim as [S1 S2 S3 S4].
    assert (Hcontent : nf_books_content nf !! cb = Some (render_book (ExportBibleJson.chapters bj))).
    { rewrite S1, Hbj. reflexivity. }
    destruct (nf_verse_spec nf mv cb _ Hc Hcb Hcontent) as [lc Hnf]. cbv zeta in Hnf.
    rewrite S2, S3 in Hnf.
    destruct Hnf as [(Hb & Hch & ->)|(Hno & ->)]; (eexists; split; [reflexivity|]).
    + destruct Hcase as [(_ & _ & Hchs)|(Hno & _)]; [|tauto].
      split; cbn [nf_books_content nf_current_book nf_current_chapter
        nf_last_verse_line_index ExportBibleJson.pm_books ExportBibleJson.pm_current_book
        ExportBibleJson.pm_current_chapter_num ExportBibleJson.pm_last_verse]; auto.
      * intros b. destruct (decide (b = cb)) as [->|Hne].
        -- rewrite !lookup_insert_eq. cbn [fmap option_fmap option_map
             ExportBibleJson.with_chapters ExportBibleJson.chapters].
           rewrite Hchs, !render_book_snoc, render_chapter_snoc, <- app_assoc. reflexivity.
        -- rewrite !lookup_insert_ne by congruence. apply S1.
      * cbn [fmap option_fmap option_map]. rewrite lookup_insert_eq. reflexivity.
    + destruct Hcase as [(Hb & Hch & _)|(_ & Hchs & Hvs)]; [tauto|]. subst base vs.
      split; cbn [nf_books_content nf_current_book nf_current_chapter
        nf_last_verse_line_index ExportBibleJson.pm_books ExportBibleJson.pm_current_book
        ExportBibleJson.pm_current_chapter_num ExportBibleJson.pm_last_verse]; auto.
      * intros b. destruct (decide (b = cb)) as [->|Hne].
        -- rewrite !lookup_insert_eq. cbn [fmap option_fmap option_map
             ExportBibleJson.with_chapters ExportBibleJson.chapters].
           rewrite render_book_snoc. reflexivity.
        -- rewrite !lookup_insert_ne by congruence. apply S1.
      * cbn [fmap option_fmap option_map]. rewrite lookup_insert_eq. reflexivity.
  - intros [= <-]. rewrite (not_indented_same ln Hind Hmv).
    destruct Hsim as [S1 S2 S3 S4].
    unfold nf_continuation, ExportBibleJson.pm_continuation. rewrite S4, strip_rstrip.
    destruct (ExportBibleJson.pm_last_verse pm) as [[[b ci] vi]|] eqn:Hlast;
      cbn [fmap option_fmap option_map].
    2:{ exists nf. split; [reflexivity|]. split; auto. rewrite S4, Hlast. reflexivity. }
    destruct (shape_last _ _ Hshape b ci vi Hlast)
      as (bj & front & n & vs & v & Hbj & Hchs & -> & ->).
    assert (Hcontent : nf_books_content nf !! b
              = Some ((render_book front ++
                       render_chapter {| ExportBibleJson.c_number := n;
                                         ExportBibleJson.c_verses := vs |})
                      ++ [verse_line (ExportBibleJson.v_number v) (ExportBibleJson.v_text v)])).
    { rewrite S1, Hbj. cbn [fmap option_fmap option_map].
      rewrite Hchs, render_book_snoc, render_chapter_snoc, app_assoc. reflexivity. }
    rewrite Hcontent. cbn [default id]. unfold py_getitem. rewrite Hcontent. cbn [bind].
    set (X := render_book front ++ render_chapter {| ExportBibleJson.c_number := n;
                                                      ExportBibleJson.c_verses := vs |}) in *.
    assert (Hidx : (length (X ++ [verse_line (ExportBibleJson.v_number v)
                                    (ExportBibleJson.v_text v)]) - 1)%nat = length X).
    { rewrite length_app. cbn [length]. lia. }
    rewrite Hidx.
    rewrite (py_index_nat _ (length X)
               (verse_line (ExportBibleJson.v_number v) (ExportBibleJson.v_text v))).
    2:{ rewrite lookup_app_r by lia. rewrite Nat.sub_diag. reflexivity. }
    cbn [bind]. eexists. split; [reflexivity|].
    assert (Hins : <[length X := verse_line (ExportBibleJson.v_number v)
                                   (ExportBibleJson.v_text v) +:+ " " +:+ strip ln]>
                     (X ++ [verse_line (ExportBibleJson.v_number v) (ExportBibleJson.v_text v)])
                   = X ++ [verse_line (ExportBibleJson.v_number v)
                             (ExportBibleJson.v_text v +:+ " " +:+ strip ln)]).
    { rewrite insert_app_r_alt by lia. rewrite Nat.sub_diag. cbn [insert list_insert].
      rewrite verse_line_extend. reflexivity. }
    rewrite Hins.
    split; cbn [nf_books_content nf_current_book nf_current_chapter
      nf_last_verse_line_index ExportBibleJson.pm_books ExportBibleJson.pm_current_book
      ExportBibleJson.pm_current_chapter_num ExportBibleJson.pm_last_verse]; auto.
    + intros b'. destruct (decide (b' = b)) as [->|Hne].
      * rewrite lookup_insert_eq, lookup_alter_eq, Hbj.
        cbn [fmap option_fmap option_map ExportBibleJson.with_chapters ExportBibleJson.chapters].
        rewrite Hchs, extend_verse_at_last, render_book_snoc, render_chapter_snoc.
        cbn [ExportBibleJson.v_number ExportBibleJson.v_text]. subst X.
        rewrite app_assoc. reflexivity.
      * rewrite lookup_insert_ne, lookup_alter_ne by congruence. apply S1.
    + cbn [fmap option_fmap option_map]. rewrite lookup_insert_eq.
      cbn [default id]. rewrite !length_app. cbn [length]. do 2 f_equal. lia.
Qed.

Lemma in_canon_le (n : N) : ExportBibleJson.in_canon n = true -> n <= 66.
Proof.
  unfold ExportBibleJson.in_canon. intros H. apply andb_true_iff in H as [_ H].
  apply N.leb_le in H. exact H.
Qed.

Lemma nf_pm_sim_loop (lines : list string) :
  forall seen nf pm,
    pm_inv seen pm -> pm_shape seen pm -> nf_pm_sim nf pm ->
    plain_numbered lines = true ->
    exists nf' pm',
      for_each nf_step lines nf = Ok nf' /\
      for_each ExportBibleJson.pm_step lines pm = Ok pm' /\
      pm_inv (seen ++ lines) pm' /\ pm_shape (seen ++ lines) pm' /\ nf_pm_sim nf' pm'.
Proof.
  induction lines as [|ln lines IH]; intros seen nf pm Hinv Hshape Hsim Hplain.
  - exists nf, pm. rewrite app_nil_r. auto.
  - cbn [plain_numbered forallb] in Hplain. apply andb_true_iff in Hplain as [Hln Hplain].
    apply andb_true_iff in Hln as [Hind Hnum]. apply negb_true_iff in Hind.
    assert (Hcanon : forall bn c v, numbered_verse ln = Some (bn, c, v) ->
                                    ExportBibleJson.in_canon bn = true).
    { intros bn c v E. rewrite E in Hnum. exact Hnum. }
    destruct (pm_step_inv seen pm ln Hinv) as [Hkeep Hprog].
    destruct Hprog as [pm1 Hpm1].
    { intros n Hn. unfold verse_book_number in Hn.
      destruct (re_match ExportBibleJson.NUM_VERSE_RE (rstrip ln)) as [mv|] eqn:E;
        [|discriminate].
      injection Hn as <-. apply in_canon_le. eapply Hcanon. unfold numbered_verse.
      rewrite E. reflexivity. }
    destruct (nf_pm_sim_step seen nf pm pm1 ln Hinv Hshape Hsim Hind Hcanon Hpm1)
      as (nf1 & Hnf1 & Hsim1).
    pose proof (Hkeep pm1 Hpm1) as Hinv1.
    pose proof (pm_step_shape seen pm pm1 ln Hinv Hshape Hpm1) as Hshape1.
    destruct (IH _ nf1 pm1 Hinv1 Hshape1 Hsim1 Hplain) as (nf' & pm' & H1 & H2 & H3 & H4 & H5).
    exists nf', pm'. cbn [for_each]. rewrite Hnf1, Hpm1. cbn [bind].
    rewrite <- app_assoc in H3, H4. auto.
Qed.

Lemma numbered_parsers_sim (lines : list string) :
  plain_numbered lines = true ->
  exists bc books,
    parse_numbered_format lines = Ok bc /\
    ExportBibleJson.parse_master_numbered lines = Ok books /\
    (forall b, bc !! b = (fun bj => render_book (ExportBibleJson.chapters bj)) <$> books !! b) /\
    pm_inv lines {| ExportBibleJson.pm_books := books;
                    ExportBibleJson.pm_current_book := None;
                    ExportBibleJson.pm_current_chapter_num := None;
                    ExportBibleJson.pm_last_verse := None |} /\
    (forall b bj ch v, books !! b = Some bj -> ch ∈ ExportBibleJson.chapters bj ->
                       v ∈ ExportBibleJson.c_verses ch ->
                       tidy (ExportBibleJson.v_text v) = true).
Proof.
  intros Hplain.
  destruct (nf_pm_sim_loop lines [] nf_init ExportBibleJson.pm_init
              pm_inv_init pm_shape_init nf_pm_sim_init Hplain)
    as (nf' & pm' & Hnf & Hpm & Hinv & Hshape & Hsim).
  cbn [app] in Hinv, Hshape.
  exists (strip_items <$> nf_books_content nf'), (ExportBibleJson.pm_books pm').
  split; [|split; [|split; [|split]]].
  - unfold parse_numbered_format. rewrite Hnf. reflexivity.
  - unfold ExportBibleJson.parse_master_numbered. rewrite Hpm. cbn [bind].
    apply trim_books_full; [|apply (shape_full _ _ Hshape)].
    intros b Hb. apply list_elem_of_lookup in Hb as [i Hi].
    destruct (inv_books _ _ Hinv i b Hi) as (bj & Hbj & _). eauto.
  - intros b. rewrite lookup_fmap, (sim_books _ _ Hsim b).
    destruct (ExportBibleJson.pm_books pm' !! b) as [bj|] eqn:Hb; [|reflexivity].
    cbn [fmap option_fmap option_map]. f_equal. apply strip_items_tidy, render_book_tidy.
    intros ch v. apply (shape_tidy _ _ Hshape b bj ch v Hb).
  - destruct Hinv as [I1 I2 I3 I4 I5]. split; cbn; auto; discriminate.
  - apply (shape_tidy _ _ Hshape).
Qed.

End TwoParsers.

(** X14. The two numbered parsers agree.  On an input whose verse lines
    carry book numbers from 1 to 66 and are not indented, both return,
    and the lines [parse_numbered_format] of the splitter holds for a
    book are the chapters [parse_master_numbered] of the exporter holds
    for it, written as a marker [Chapter N] followed by one line
    [V text] per verse. *)
Theorem numbered_parsers_agree (lines : list string) :
  plain_numbered lines = true ->
  exists bc books,
    SplitBibleKjv.parse_numbered_format lines = Ok bc /\
    ExportBibleJson.parse_master_numbered lines = Ok books /\
    forall b, bc !! b = (fun bj => render_book (ExportBibleJson.chapters bj)) <$> books !! b.
Proof.
  intros H. destruct (numbered_parsers_sim lines H) as (bc & books & H1 & H2 & H3 & _).
  eauto.
Qed.

Lemma numbered_parsers_agree_witness :
  exists bc books,
    SplitBibleKjv.parse_numbered_format
      ["BOOK 01 Genesis"; "01:001:001 In the beginning"; "God created"; "";
       "01:002:001 Thus"; "BOOK 02 Exodus"; "02:001:001 Now these"] = Ok bc /\
    ExportBibleJson.parse_master_numbered
      ["BOOK 01 Genesis"; "01:001:001 In the beginning"; "God created"; "";
       "01:002:001 Thus"; "BOOK 02 Exodus"; "02:001:001 Now these"] = Ok books /\
    forall b, bc !! b = (fun bj => render_book (ExportBibleJson.chapters bj)) <$> books !! b.
Proof.
  apply numbered_parsers_agree. vm_compute. reflexivity.
Defined.
(** ** Lines of a text: what is written is read back *)

Local Arguments String.append !s1 s2 : simpl nomatch.

Lemma lit_rest_all (q : ascii -> bool) (ic : bool) (l : string) :
  forall s m rest,
    lit_rest ic l s = Some (m, rest) -> str_all q s = true ->
    str_all q m = true /\ str_all q rest = true.
Proof.
  induction l as [|a l IH]; intros s m rest H Hs.
  - destruct s; injection H as <- <-; auto.
  - destruct s as [|b s]; [discriminate|]. cbn [lit_rest] in H.
    destruct (char_eq ic a b); [|discriminate].
    destruct (lit_rest ic l s) as [[m' r']|] eqn:E; [|discriminate].
    injection H as <- <-. cbn [str_all] in Hs |- *. apply andb_true_iff in Hs as [Hb Hs].
    destruct (IH s m' r' E Hs) as [H1 H2]. rewrite Hb, H1. auto.
Qed.

(** What a match hands to its continuation is made of characters of the
    subject: the text matched, the rest and the captures satisfy every
    test that all characters of the subject satisfy. *)
Lemma run_sound {R : Type} (q : ascii -> bool) (r : regex) :
  forall (s : string) (k : string -> string -> list string -> option R) (x : R),
    str_all q s = true -> run r s k = Some x ->
    exists m rest caps,
      k m rest caps = Some x /\ str_all q m = true /\ str_all q rest = true /\
      forallb (str_all q) caps = true.
Proof.
  induction r as [|ic l|p lo hi|r1 IH1 r2 IH2|r1 IH1 r2 IH2|r IH|]; intros s k x Hs H;
    cbn [run] in H.
  - exists "", s, []. auto.
  - destruct (lit_rest ic l s) as [[m rest]|] eqn:E; [|discriminate].
    destruct (lit_rest_all q ic l s m rest E Hs) as [H1 H2]. exists m, rest, []. auto.
  - apply rep_sound in H as (m & rest & -> & _ & _ & H).
    rewrite str_all_app in Hs. apply andb_true_iff in Hs as [H1 H2].
    exists m, rest, []. auto.
  - apply (IH1 _ _ _ Hs) in H as (m1 & rest1 & c1 & H & Hm1 & Hr1 & Hc1).
    apply (IH2 _ _ _ Hr1) in H as (m2 & rest2 & c2 & H & Hm2 & Hr2 & Hc2).
    exists (m1 +:+ m2), rest2, (c1 ++ c2). split; [exact H|].
    rewrite str_all_app, Hm1, Hm2, forallb_app, Hc1, Hc2. auto.
  - destruct (run r1 s k) as [y|] eqn:E.
    + injection H as <-. eapply IH1; eauto.
    + eapply IH2; eauto.
  - apply (IH _ _ _ Hs) in H as (m & rest & c & H & Hm & Hr & Hc).
    exists m, rest, (m :: c). cbn [forallb]. rewrite Hm, Hc. auto.
  - destruct (at_eos s); [|discriminate]. exists "", s, []. auto.
Qed.

Lemma group_all (q : ascii -> bool) (r : regex) (s : string) (caps : list string) (i : nat) :
  str_all q s = true -> re_match r s = Some caps -> str_all q (group caps i) = true.
Proof.
  intros Hs H. unfold re_match in H.
  apply (run_sound q r s _ caps Hs) in H as (m & rest & caps' & [= ->] & _ & _ & Hc).
  unfold group. rewrite forallb_forall in Hc.
  destruct (nth_in_or_default (Nat.pred i) caps ""%string) as [Hin| ->]; [auto | reflexivity].
Qed.

Lemma splitlines_from_one_line (x : string) :
  forall cur s,
    one_line x = true ->
    splitlines_from false cur (x +:+ s) = splitlines_from false (cur +:+ x) s.
Proof.
  unfold one_line. induction x as [|c x IH]; intros cur s Hx.
  - rewrite str_app_nil_r. reflexivity.
  - cbn [str_all] in Hx. apply andb_true_iff in Hx as [Hc Hx]. apply negb_true_iff in Hc.
    cbn [String.append splitlines_from andb]. rewrite Hc, (IH _ _ Hx), str_app_assoc.
    reflexivity.
Qed.

Lemma splitlines_from_nl (cur s : string) :
  splitlines_from false cur (nl +:+ s) = cur :: splitlines_from false "" s.
Proof. reflexivity. Qed.

Lemma splitlines_join (l : list string) :
  Forall (fun x => one_line x = true) l -> l <> [] ->
  splitlines (join nl l +:+ nl) = l.
Proof.
  unfold splitlines. induction 1 as [|x l Hx Hl IH]; intros Hne; [congruence|].
  destruct l as [|y l].
  - cbn [join]. rewrite (splitlines_from_one_line x "" nl Hx). reflexivity.
  - change (join nl (x :: y :: l)) with (x +:+ nl +:+ join nl (y :: l)).
    rewrite !str_app_assoc, (splitlines_from_one_line x "" _ Hx), splitlines_from_nl.
    cbn [String.append]. f_equal. apply IH. discriminate.
Qed.

Lemma splitlines_from_lines (s : string) :
  forall after_cr cur,
    one_line cur = true ->
    Forall (fun x => one_line x = true) (splitlines_from after_cr cur s).
Proof.
  induction s as [|c s IH]; intros after_cr cur Hcur; cbn [splitlines_from].
  - destruct (str_nonempty cur); [constructor; [exact Hcur | constructor] | constructor].
  - destruct (after_cr && is_newline c); [apply IH, Hcur|].
    destruct (is_linebreak c) eqn:Hc.
    + constructor; [exact Hcur | apply IH; reflexivity].
    + apply IH. unfold one_line in *. rewrite str_all_app, Hcur. cbn [str_all].
      rewrite Hc. reflexivity.
Qed.

(** The lines of a text hold no line boundary. *)
Lemma splitlines_lines (s : string) : Forall (fun x => one_line x = true) (splitlines s).
Proof. apply splitlines_from_lines. reflexivity. Qed.

Lemma tidy_sep (x sep y : string) :
  tidy x = true -> tidy y = true -> tidy (x +:+ sep +:+ y) = true.
Proof.
  intros Hx Hy.
  destruct (tidy_facts x Hx) as (Hxne & _ & _ & Hxs).
  destruct (tidy_facts y Hy) as (Hyne & _ & Hyr & _).
  apply tidy_intro.
  - destruct x; [discriminate | reflexivity].
  - unfold strip. rewrite lstrip_by_clear by (destruct x; [discriminate | exact Hxs]).
    rewrite <- str_app_assoc. apply rstrip_by_app; assumption.
Qed.

Lemma tidy_join (l : list string) :
  Forall (fun x => tidy x = true) l -> l <> [] -> tidy (join nl l) = true.
Proof.
  induction 1 as [|x l Hx Hl IH]; intros Hne; [congruence|].
  destruct l as [|y l]; [exact Hx|].
  change (join nl (x :: y :: l)) with (x +:+ nl +:+ join nl (y :: l)).
  apply tidy_sep; [exact Hx | apply IH; discriminate].
Qed.

Lemma output_text_lines (cleaned : list string) :
  Forall (fun x => tidy x = true) cleaned ->
  Forall (fun x => one_line x = true) cleaned ->
  splitlines (SplitBibleKjv.output_text cleaned)
  = match cleaned with [] => [""] | _ :: _ => cleaned end.
Proof.
  intros Ht Ho. destruct cleaned as [|x l]; [reflexivity|].
  unfold SplitBibleKjv.output_text.
  destruct (tidy_facts _ (tidy_join (x :: l) Ht ltac:(discriminate))) as (_ & -> & _).
  apply splitlines_join; [exact Ho | discriminate].
Qed.

Lemma parse_book_file_output_text (stem : string) (cleaned : list string) :
  Forall (fun x => tidy x = true) cleaned ->
  Forall (fun x => one_line x = true) cleaned ->
  ExportBibleJson.parse_book_file stem (SplitBibleKjv.output_text cleaned)
  = ExportBibleJson.parse_book_txt stem cleaned.
Proof.
  intros Ht Ho. unfold ExportBibleJson.parse_book_file.
  rewrite (output_text_lines cleaned Ht Ho). destruct cleaned; reflexivity.
Qed.

(** X15. The book file is read back line by line.  For lines that are
    not empty, have no blank at either end and hold no line boundary,
    the text the splitter writes (the lines joined by line feeds,
    stripped, and a final line feed) splits into these very lines, so
    the exporter parses the file as it would parse the lines; for no
    line at all the file is one line feed, read as one empty line. *)
Theorem output_text_read_back (stem : string) (cleaned : list string) :
  forallb tidy cleaned = true -> forallb one_line cleaned = true ->
  splitlines (SplitBibleKjv.output_text cleaned)
  = match cleaned with [] => [""] | _ :: _ => cleaned end /\
  ExportBibleJson.parse_book_file stem (SplitBibleKjv.output_text cleaned)
  = ExportBibleJson.parse_book_txt stem cleaned.
Proof.
  intros Ht Ho.
  assert (Ht' : Forall (fun x => tidy x = true) cleaned).
  { apply Forall_forall. intros x Hx. rewrite forallb_forall in Ht.
    apply Ht, list_elem_of_In, Hx. }
  assert (Ho' : Forall (fun x => one_line x = true) cleaned).
  { apply Forall_forall. intros x Hx. rewrite forallb_forall in Ho.
    apply Ho, list_elem_of_In, Hx. }
  split; [apply output_text_lines | apply parse_book_file_output_text]; assumption.
Qed.

Lemma output_text_read_back_witness :
  splitlines (SplitBibleKjv.output_text ["Chapter 1"; "1 In the beginning"; "2 And the earth"])
  = ["Chapter 1"; "1 In the beginning"; "2 And the earth"] /\
  ExportBibleJson.parse_book_file "Genesis"
    (SplitBibleKjv.output_text ["Chapter 1"; "1 In the beginning"; "2 And the earth"])
  = ExportBibleJson.parse_book_txt "Genesis"
      ["Chapter 1"; "1 In the beginning"; "2 And the earth"].
Proof.
  apply (output_text_read_back "Genesis" ["Chapter 1"; "1 In the beginning"; "2 And the earth"]);
    vm_compute; reflexivity.
Defined.
(** ** Lines without line boundary stay so *)

Local Arguments String.append !s1 s2 : simpl nomatch.

Lemma digit_not_linebreak (c : ascii) : is_digit c = true -> negb (is_linebreak c) = true.
Proof.
  destruct c as [[] [] [] [] [] [] [] []]; vm_compute; intros H; congruence.
Qed.

Lemma one_line_app (a b : string) : one_line (a +:+ b) = one_line a && one_line b.
Proof. apply str_all_app. Qed.

Lemma one_line_strip (s : string) : one_line s = true -> one_line (strip s) = true.
Proof.
  intros H. unfold strip, one_line. apply str_all_rstrip, str_all_lstrip. exact H.
Qed.

Lemma one_line_number (n : N) : one_line (str_of_N n) = true.
Proof.
  unfold one_line. eapply str_all_impl; [|apply str_of_N_digits]. apply digit_not_linebreak.
Qed.

Lemma one_line_chapter_line (n : N) : one_line (chapter_line n) = true.
Proof. unfold chapter_line. rewrite one_line_app, one_line_number. reflexivity. Qed.

Lemma one_line_verse_line (v : N) (t : string) : one_line (verse_line v t) = one_line t.
Proof. unfold verse_line. rewrite !one_line_app, one_line_number. reflexivity. Qed.

Lemma one_line_extend (x raw : string) :
  one_line x = true -> one_line raw = true -> one_line (x +:+ " " +:+ raw) = true.
Proof. intros Hx Hr. rewrite !one_line_app, Hx, Hr. reflexivity. Qed.

Lemma one_line_group (r : regex) (s : string) (caps : list string) (i : nat) :
  one_line s = true -> re_match r s = Some caps -> one_line (strip (group caps i)) = true.
Proof. intros Hs H. apply one_line_strip. eapply group_all; eauto. Qed.

Lemma sublist_Forall {A : Type} (P : A -> Prop) (l k : list A) :
  l `sublist_of` k -> Forall P k -> Forall P l.
Proof.
  induction 1 as [|x l k _ IH|x l k _ IH]; intros H.
  - constructor.
  - inversion H; subst. constructor; auto.
  - inversion H; subst. auto.
Qed.

Lemma Forall_list_insert {A : Type} (P : A -> Prop) (l : list A) (i : nat) (x : A) :
  Forall P l -> P x -> Forall P (<[i := x]> l).
Proof.
  intros Hl Hx. revert i. induction Hl as [|y l Hy Hl IH]; intros i; [constructor|].
  destruct i; cbn [insert list_insert]; constructor; auto.
Qed.

Ltac bind_step H x E :=
  match type of H with
  | bind ?m _ = Ok _ => destruct m as [x|] eqn:E; cbn [bind] in H; [|discriminate H]
  end.

Section OneLine.

Import SplitBibleKjv.

Lemma cl_step_one_line (st : cl_state) (ln : string) :
  one_line (strip ln) = true ->
  Forall (fun x => one_line x = true) (normalized st) ->
  Forall (fun x => one_line x = true) (normalized (cl_step st ln)).
Proof.
  intros Hln Hst. unfold cl_step.
  assert (Hch : forall s n, Forall (fun x => one_line x = true) (normalized s) ->
                  Forall (fun x => one_line x = true) (normalized (start_chapter s n))).
  { intros s n Hs. cbn [start_chapter normalized]. apply Forall_app. split; [exact Hs|].
    constructor; [apply one_line_chapter_line | constructor]. }
  assert (Hvs : forall s v t, one_line t = true ->
                  Forall (fun x => one_line x = true) (normalized s) ->
                  Forall (fun x => one_line x = true) (normalized (append_verse s v t))).
  { intros s v t Ht Hs. cbn [append_verse normalized]. apply Forall_app. split; [exact Hs|].
    constructor; [|constructor]. fold (verse_line v t). rewrite one_line_verse_line. exact Ht. }
  destruct (negb (str_nonempty (strip ln))); [exact Hst|].
  destruct (re_match CHAPTER_HEADING_RE (strip ln)) as [m_head|]; [apply Hch, Hst|].
  destruct (re_match VERSE_COLON_RE (strip ln)) as [m_colon|] eqn:Hcolon.
  { apply Hvs; [eapply one_line_group; eauto|].
    destruct (bool_decide _); [exact Hst | apply Hch, Hst]. }
  destruct (re_match VERSE_SIMPLE_RE (strip ln)) as [m_simple|] eqn:Hsimple.
  { apply Hvs; [eapply one_line_group; eauto|].
    destruct (infer_chapter_cases st (int (group m_simple 1))) as [->|[k ->]];
      [exact Hst | apply Hch, Hst]. }
  destruct (_ && _).
  - cbn [normalized]. apply update_last_Forall; [|exact Hst].
    intros x Hx. apply one_line_extend; assumption.
  - cbn [normalized]. apply Forall_app. split; [|constructor; [exact Hln | constructor]].
    destruct (current_chapter st); [exact Hst | apply Hch, Hst].
Qed.

Lemma fold_cl_step_one_line (lines : list string) :
  forall st,
    Forall (fun x => one_line x = true) lines ->
    Forall (fun x => one_line x = true) (normalized st) ->
    Forall (fun x => one_line x = true) (normalized (fold_left cl_step lines st)).
Proof.
  induction lines as [|ln lines IH]; intros st Hl Hst; [exact Hst|].
  inversion Hl; subst. cbn [fold_left]. apply IH; [assumption|].
  apply cl_step_one_line; [apply one_line_strip; assumption | exact Hst].
Qed.

Lemma clean_book_lines_one_line (book : string) (lines : list string) :
  Forall (fun x => one_line x = true) lines ->
  Forall (fun x => one_line x = true) (clean_book_lines book lines).
Proof.
  intros Hl. rewrite clean_book_lines_content. apply fold_cl_step_one_line; [|constructor].
  apply Forall_forall. intros x Hx. apply list_elem_of_In, filter_In in Hx as [Hx _].
  rewrite Forall_forall in Hl. apply Hl, list_elem_of_In, Hx.
Qed.

(** *** The entries of the numbered splitter *)

Lemma append_line_Ok (bc bc' : gmap string (list string)) (book item : string) :
  append_line bc book item = Ok bc' ->
  exists l, bc !! book = Some l /\ bc' = <[book := l ++ [item]]> bc.
Proof.
  unfold append_line, py_getitem. destruct (bc !! book) as [l|]; [|discriminate].
  cbn [bind]. intros [= <-]. eauto.
Qed.

Lemma nf_entries_refl (P : string -> Prop) (bc : gmap string (list string)) :
  nf_entries P bc bc.
Proof. split; [tauto | auto]. Qed.

Lemma nf_entries_trans (P : string -> Prop) (bc1 bc2 bc3 : gmap string (list string)) :
  nf_entries P bc1 bc2 -> nf_entries P bc2 bc3 -> nf_entries P bc1 bc3.
Proof.
  intros [H1 H2] [H3 H4]. split.
  - intros b. rewrite H3. apply H1.
  - intros Hall. apply H4, H2, Hall.
Qed.

Lemma nf_entries_insert (P : string -> Prop) (bc : gmap string (list string))
    (b : string) (l l' : list string) :
  bc !! b = Some l -> (Forall P l -> Forall P l') ->
  nf_entries P bc (<[b := l']> bc).
Proof.
  intros Hb Hl. split.
  - intros b'. destruct (decide (b' = b)) as [->|Hne].
    + rewrite lookup_insert_eq, Hb. split; eauto.
    + rewrite lookup_insert_ne by congruence. tauto.
  - intros Hall b' l0. destruct (decide (b' = b)) as [->|Hne].
    + rewrite lookup_insert_eq. intros [= <-]. apply Hl. eapply Hall; eauto.
    + rewrite lookup_insert_ne by congruence. apply Hall.
Qed.

Lemma append_line_entries (P : string -> Prop) (bc bc' : gmap string (list string))
    (book item : string) :
  P item -> append_line bc book item = Ok bc' -> nf_entries P bc bc'.
Proof.
  intros Hitem H. apply append_line_Ok in H as (l & Hl & ->).
  eapply nf_entries_insert; [exact Hl|]. intros Hall. apply Forall_app. split; [exact Hall|].
  constructor; [exact Hitem | constructor].
Qed.

Lemma nf_verse_entries (st st' : nf_state) (mv : list string) :
  one_line (strip (group mv 4)) = true ->
  nf_verse st mv = Ok st' ->
  nf_entries (fun x => one_line x = true) (nf_books_content st) (nf_books_content st').
Proof.
  intros Htext H. unfold nf_verse in H. bind_step H mis E. bind_step H st0 E0.
  assert (Hbc0 : nf_books_content st0 = nf_books_content st).
  { destruct mis; [|congruence]. bind_step E0 b0 E1. injection E0 as <-. reflexivity. }
  rewrite <- Hbc0. clear E E0 Hbc0.
  destruct (nf_current_book st0) as [cb|]; [|injection H as <-; apply nf_entries_refl].
  bind_step H st1 E. bind_step H bc E0. bind_step H lst E1.
  injection H as <-. cbn [nf_books_content].
  apply (nf_entries_trans _ _ (nf_books_content st1)).
  - destruct (bool_decide _); [injection E as <-; apply nf_entries_refl|].
    bind_step E bc1 E2. injection E as <-. cbn [nf_books_content].
    eapply append_line_entries; [|eauto].
    apply (one_line_chapter_line (int (lstrip0_or0 (group mv 2)))).
  - eapply append_line_entries; [|eauto].
    fold (verse_line (int (lstrip0_or0 (group mv 3))) (strip (group mv 4))).
    rewrite one_line_verse_line. exact Htext.
Qed.

Lemma nf_continuation_entries (st st' : nf_state) (ln_strip : string) :
  one_line ln_strip = true ->
  nf_continuation st ln_strip = Ok st' ->
  nf_entries (fun x => one_line x = true) (nf_books_content st) (nf_books_content st').
Proof.
  intros Hln H. unfold nf_continuation in H.
  destruct (nf_last_verse_line_index st) as [[bname idx]|];
    [|injection H as <-; apply nf_entries_refl].
  bind_step H lst E. bind_step H item E0.
  injection H as <-. cbn [nf_books_content].
  unfold py_getitem in E. destruct (nf_books_content st !! bname) as [l|] eqn:Hb;
    [|discriminate]. injection E as ->.
  eapply nf_entries_insert; [exact Hb|]. intros Hall.
  apply Forall_list_insert; [exact Hall|]. apply one_line_extend; [|exact Hln].
  apply py_index_Ok in E0. rewrite Forall_forall in Hall. auto.
Qed.

Lemma nf_step_entries (st st' : nf_state) (ln : string) :
  one_line ln = true ->
  nf_step st ln = Ok st' ->
  nf_entries (fun x => one_line x = true) (nf_books_content st) (nf_books_content st').
Proof.
  intros Hln. pose proof (one_line_strip ln Hln) as Hs. unfold nf_step.
  destruct (negb (str_nonempty (strip ln))); [intros [= <-]; apply nf_entries_refl|].
  destruct (re_match BOOK_HEADING_RE (strip ln)) as [bh|].
  { intros H. bind_step H ob E. injection H as <-. apply nf_entries_refl. }
  destruct (re_match NUM_VERSE_RE (strip ln)) as [mv|] eqn:Hmv.
  - apply nf_verse_entries. eapply one_line_group; eauto.
  - apply nf_continuation_entries. exact Hs.
Qed.

Lemma nf_loop_entries (lines : list string) :
  forall st st',
    Forall (fun x => one_line x = true) lines ->
    for_each nf_step lines st = Ok st' ->
    nf_entries (fun x => one_line x = true) (nf_books_content st) (nf_books_content st').
Proof.
  induction lines as [|ln lines IH]; intros st st' Hl H.
  - injection H as <-. apply nf_entries_refl.
  - inversion Hl; subst. cbn [for_each] in H. bind_step H st1 E.
    eapply nf_entries_trans; [eapply nf_step_entries; eauto | eapply IH; eauto].
Qed.

Lemma nf_init_keys (b : string) :
  nf_books_content nf_init !! b = if decide (b ∈ BOOKS) then Some [] else None.
Proof.
  cbn [nf_init nf_books_content].
  assert (Hfst : ((fun b : string => (b, @nil string)) <$> BOOKS).*1 = BOOKS) by reflexivity.
  destruct (decide (b ∈ BOOKS)) as [Hin|Hnin].
  - apply elem_of_list_to_map_1; [rewrite Hfst; exact BOOKS_NoDup|].
    apply list_elem_of_fmap. eauto.
  - apply not_elem_of_list_to_map_1. rewrite Hfst. exact Hnin.
Qed.

Lemma strip_items_one_line (l : list string) :
  Forall (fun x => one_line x = true) l ->
  Forall (fun x => one_line x = true) (strip_items l).
Proof.
  intros H. unfold strip_items. apply Forall_forall. intros x Hx.
  apply list_elem_of_In, filter_In in Hx as [Hx _]. apply list_elem_of_In in Hx.
  apply list_elem_of_fmap in Hx as (y & -> & Hy). apply one_line_strip.
  rewrite Forall_forall in H. auto.
Qed.

(** The result of the numbered splitter has the 66 books of the canon as
    its keys, and its lines hold no line boundary if the input holds
    none. *)
Lemma parse_numbered_format_keys (lines : list string) (bc : gmap string (list string)) :
  Forall (fun x => one_line x = true) lines ->
  parse_numbered_format lines = Ok bc ->
  (forall b, is_Some (bc !! b) <-> b ∈ BOOKS) /\
  (forall b l, bc !! b = Some l -> Forall (fun x => one_line x = true) l).
Proof.
  unfold parse_numbered_format. intros Hl H. bind_step H st E. injection H as <-.
  destruct (nf_loop_entries lines nf_init st Hl E) as [Hkeys Hall].
  split.
  - intros b. rewrite lookup_fmap, fmap_is_Some, Hkeys, nf_init_keys.
    destruct (decide (b ∈ BOOKS)) as [Hin|Hnin].
    + split; eauto.
    + split; [intros [x Hx]; discriminate | intros Hin; contradiction].
  - intros b l. rewrite lookup_fmap.
    destruct (nf_books_content st !! b) as [l0|] eqn:Hb; [|discriminate].
    cbn [fmap option_fmap option_map]. intros [= <-]. apply strip_items_one_line.
    apply (Hall (fun b' l' Hb' => ltac:(rewrite nf_init_keys in Hb';
             destruct (decide (b' ∈ BOOKS)); [injection Hb' as <-; constructor | discriminate]))
             b l0 Hb).
Qed.

End OneLine.
(** ** The splitter's main: what it prints and writes *)

Section SplitMain.

Import SplitBibleKjv.

Lemma write_books_fold (out_dir : string) (bc : gmap string (list string)) (bs : list string) :
  forall o,
    fold_left (write_book out_dir bc) bs o
    = {| printed := printed o ++ (wrote_line out_dir bc <$> bs);
         written := written o ++ (book_file out_dir bc <$> bs) |}.
Proof.
  induction bs as [|b bs IH]; intros o.
  - cbn [fold_left fmap list_fmap]. rewrite !app_nil_r. destruct o. reflexivity.
  - cbn [fold_left fmap list_fmap]. rewrite IH. unfold write_book at 1 2.
    cbn [printed written]. rewrite <- !app_assoc. reflexivity.
Qed.

(** The keys of the split are books of the canon, in both modes; in the
    numbered mode all of them are keys. *)
Lemma split_books_keys (text : string) (bc : gmap string (list string)) :
  split_books (splitlines text) = Ok bc ->
  (forall b, is_Some (bc !! b) -> b ∈ BOOKS) /\
  (detect_numbered_format (splitlines text) = true -> forall b, b ∈ BOOKS -> is_Some (bc !! b)).
Proof.
  unfold split_books. destruct (detect_numbered_format (splitlines text)) eqn:Hd.
  - intros H. destruct (parse_numbered_format_keys _ bc (splitlines_lines text) H) as [Hk _].
    split; [apply Hk | intros _; apply Hk].
  - intros H. split; [|discriminate].
    destruct (sb_loop_inv (splitlines text) [] _ sb_inv_init) as (st & Hloop & Hinv).
    rewrite Hloop in H. injection H as <-. intros b [l Hl].
    apply (sb_inv_keys _ _ Hinv b l Hl).
Qed.

Lemma found_keys (bc : gmap string (list string)) (b : string) :
  b ∈ (map_to_list bc).*1 <-> is_Some (bc !! b).
Proof.
  rewrite list_elem_of_fmap. split.
  - intros ([b' l] & -> & H). apply elem_of_map_to_list in H. eauto.
  - intros [l Hl]. exists (b, l). split; [reflexivity|]. apply elem_of_map_to_list. exact Hl.
Qed.

Lemma filter_nil_forall {A : Type} (f : A -> bool) (l : list A) :
  (forall x, x ∈ l -> f x = false) -> List.filter f l = [].
Proof.
  induction l as [|x l IH]; intros H; [reflexivity|].
  cbn [List.filter]. rewrite (H x (list_elem_of_here _ _)). apply IH.
  intros y Hy. apply H. apply list_elem_of_further. exact Hy.
Qed.

Lemma filter_ext_elem {A : Type} (f g : A -> bool) (l : list A) :
  (forall x, x ∈ l -> f x = g x) -> List.filter f l = List.filter g l.
Proof.
  induction l as [|x l IH]; intros H; [reflexivity|].
  cbn [List.filter]. rewrite (H x (list_elem_of_here _ _)), IH; [reflexivity|].
  intros y Hy. apply H. apply list_elem_of_further. exact Hy.
Qed.

Lemma main_spec (text out_dir : string) (bc : gmap string (list string)) :
  split_books (splitlines text) = Ok bc ->
  main text out_dir =
  Ok {| printed := missing_notice bc ++ (wrote_line out_dir bc <$> BOOKS) ++ ["Done."];
        written := book_file out_dir bc <$> BOOKS |}.
Proof.
  intros H. destruct (split_books_keys text bc H) as [Hkeys _].
  unfold main. rewrite H. cbn [bind]. cbv zeta.
  assert (Hextra : List.filter (fun b => negb (bool_decide (b ∈ BOOKS))) (map_to_list bc).*1 = []).
  { apply filter_nil_forall. intros b Hb. apply found_keys, Hkeys in Hb.
    rewrite bool_decide_eq_true_2 by exact Hb. reflexivity. }
  assert (Hmissing : List.filter (fun b => negb (bool_decide (b ∈ (map_to_list bc).*1))) BOOKS
                     = missing_books bc).
  { unfold missing_books. apply filter_ext_elem. intros b _. f_equal.
    apply bool_decide_ext, found_keys. }
  rewrite Hextra, Hmissing, write_books_fold. unfold missing_notice.
  destruct (missing_books bc); cbn [printed written app]; rewrite <- ?app_assoc; reflexivity.
Qed.

End SplitMain.

(** X16. What the splitter's main reports.  Whenever the split returns,
    main writes one file for each of the 66 books of the canon, in canon
    order, also for a book without content, whose file holds one line
    feed; it prints at most the warning about missing books, one line
    per file and the line Done: the note about extra book-like sections
    is never printed, since every key of the split is a canonical name.
    In heading mode main always returns; in numbered mode no book is
    missing. *)
Theorem split_main_report (text out_dir : string) :
  (forall o,
     SplitBibleKjv.main text out_dir = Ok o ->
     exists bc,
       SplitBibleKjv.split_books (splitlines text) = Ok bc /\
       SplitBibleKjv.written o = book_file out_dir bc <$> SplitBibleKjv.BOOKS /\
       SplitBibleKjv.printed o =
         missing_notice bc ++ (wrote_line out_dir bc <$> SplitBibleKjv.BOOKS) ++ ["Done."] /\
       (SplitBibleKjv.detect_numbered_format (splitlines text) = true -> missing_notice bc = [])) /\
  (SplitBibleKjv.detect_numbered_format (splitlines text) = false ->
   exists o, SplitBibleKjv.main text out_dir = Ok o).
Proof.
  split.
  - intros o H.
    destruct (SplitBibleKjv.split_books (splitlines text)) as [bc|e] eqn:Hs.
    + rewrite (main_spec text out_dir bc Hs) in H. injection H as <-.
      exists bc. cbn [SplitBibleKjv.written SplitBibleKjv.printed].
      split; [reflexivity|]. split; [reflexivity|]. split; [reflexivity|].
      intros Hd. destruct (split_books_keys text bc Hs) as [_ Hall].
      unfold missing_notice.
      assert (Hm : missing_books bc = []).
      { apply filter_nil_forall. intros b Hb.
        rewrite bool_decide_eq_true_2 by (apply Hall; assumption). reflexivity. }
      rewrite Hm. reflexivity.
    + unfold SplitBibleKjv.main in H. rewrite Hs in H. discriminate H.
  - intros Hd.
    assert (Hs : exists bc, SplitBibleKjv.split_books (splitlines text) = Ok bc).
    { unfold SplitBibleKjv.split_books. rewrite Hd.
      destruct (sb_loop_inv (splitlines text) [] _ sb_inv_init) as (st & Hloop & _).
      rewrite Hloop. eauto. }
    destruct Hs as [bc Hs]. rewrite (main_spec text out_dir bc Hs). eauto.
Qed.
(** ** From the splitter's files to the exporter's books *)

Local Arguments String.append !s1 s2 : simpl nomatch.

Lemma str_app_inv_head (d s s' : string) : d +:+ s = d +:+ s' -> s = s'.
Proof.
  induction d as [|c d IH]; cbn [String.append]; [auto|]. intros [= H]. auto.
Qed.

Lemma str_app_inv_tail (t : string) :
  forall s s', s +:+ t = s' +:+ t -> s = s'.
Proof.
  induction s as [|c s IH]; intros s' H.
  - destruct s' as [|c' s']; [reflexivity|]. exfalso.
    apply (f_equal String.length) in H. rewrite !str_length_app in H. cbn in H. lia.
  - destruct s' as [|c' s'].
    + exfalso. apply (f_equal String.length) in H. rewrite !str_length_app in H.
      cbn in H. lia.
    + cbn [String.append] in H. injection H as -> H. f_equal. apply IH. exact H.
Qed.

Lemma clean_book_lines_tidy (book : string) (lines : list string) :
  Forall (fun x => tidy x = true) (SplitBibleKjv.clean_book_lines book lines).
Proof.
  rewrite clean_book_lines_content.
  destruct (fold_cl_step_shape (List.filter content_line lines) _
              cl_init_opens (Forall_nil_2 _)) as (_ & Ht & _).
  exact Ht.
Qed.

Section SplitThenLoad.

Import ExportBibleJson.

(** The path of the file of a book, for both scripts. *)
Lemma book_path_inj (d x y : string) :
  x ∈ BOOKS -> y ∈ BOOKS ->
  d +:+ "/" +:+ remove_spaces x +:+ ".txt" = d +:+ "/" +:+ remove_spaces y +:+ ".txt" ->
  x = y.
Proof.
  intros Hx Hy H. apply str_app_inv_head in H. cbn [String.append] in H.
  injection H as H. apply str_app_inv_tail in H.
  apply list_elem_of_lookup in Hx as [i Hi]. apply list_elem_of_lookup in Hy as [j Hj].
  pose proof (find_space_free i x Hi) as Fx. pose proof (find_space_free j y Hj) as Fy.
  rewrite H in Fx. congruence.
Qed.

Lemma book_files_lookup (d : string) (bc : gmap string (list string)) (b : string) :
  b ∈ BOOKS ->
  (list_to_map (book_file d bc <$> BOOKS) : gmap string string)
    !! (d +:+ "/" +:+ remove_spaces b +:+ ".txt")
  = Some (SplitBibleKjv.output_text
            (SplitBibleKjv.clean_book_lines b (default [] (bc !! b)))).
Proof.
  intros Hb. apply elem_of_list_to_map_1.
  - rewrite <- list_fmap_compose.
    apply (NoDup_fmap_2_strong _ BOOKS); [|exact BOOKS_NoDup].
    intros x y Hx Hy H. cbn in H. eapply book_path_inj; eauto.
  - apply list_elem_of_fmap. exists b. split; [reflexivity | exact Hb].
Qed.

Lemma load_loop (fs : gmap string string) (d : string) (w : world) (bs : list string) :
  forall books,
    (forall b, b ∈ bs -> is_Some (fs !! (d +:+ "/" +:+ remove_spaces b +:+ ".txt"))) ->
    exists books',
      fold_left (load_book fs d) bs (books, w) = (books', w) /\
      forall b, books' !! b =
                if decide (b ∈ bs)
                then parse_book_file (remove_spaces b)
                       <$> fs !! (d +:+ "/" +:+ remove_spaces b +:+ ".txt")
                else books !! b.
Proof.
  induction bs as [|x bs IH]; intros books Hfs.
  - exists books. split; [reflexivity|]. intros b.
    destruct (decide (b ∈ [])) as [Hin|_]; [inversion Hin | reflexivity].
  - destruct (Hfs x (list_elem_of_here _ _)) as [text Htext].
    destruct (IH (<[x := parse_book_file (remove_spaces x) text]> books)) as (books' & Hrun & Hlook).
    { intros b Hb. apply Hfs. apply list_elem_of_further. exact Hb. }
    exists books'. split.
    + cbn [fold_left]. unfold load_book at 2. rewrite Htext. exact Hrun.
    + intros b. rewrite Hlook.
      destruct (decide (b ∈ bs)) as [Hin|Hnin].
      * rewrite decide_True by (apply list_elem_of_further; exact Hin). reflexivity.
      * destruct (decide (b = x)) as [->|Hne].
        -- rewrite decide_True by apply list_elem_of_here.
           rewrite lookup_insert_eq, Htext. reflexivity.
        -- rewrite lookup_insert_ne by congruence.
           rewrite decide_False; [reflexivity|].
           intros Hin. apply elem_of_cons in Hin as [?|?]; [congruence | contradiction].
Qed.

Lemma parse_book_txt_record (i : nat) (b : string) (lines : list string) :
  BOOKS !! i = Some b ->
  parse_book_txt (remove_spaces b) lines
  = {| book := b; order := N.of_nat i + 1;
       chapters := chapters (parse_book_txt (remove_spaces b) lines) |}.
Proof.
  intros Hb. unfold parse_book_txt. cbn [chapters].
  rewrite (find_space_free i b Hb), (BOOK_INDEX_lookup i b Hb). reflexivity.
Qed.

(** The lines the split holds for a book hold no line boundary. *)
Lemma split_books_one_line (text : string) (bc : gmap string (list string))
    (b : string) (l : list string) :
  SplitBibleKjv.split_books (splitlines text) = Ok bc -> bc !! b = Some l ->
  Forall (fun x => one_line x = true) l.
Proof.
  unfold SplitBibleKjv.split_books.
  destruct (SplitBibleKjv.detect_numbered_format (splitlines text)).
  - intros H. destruct (parse_numbered_format_keys _ bc (splitlines_lines text) H) as [_ Hall].
    apply Hall.
  - destruct (sb_loop_inv (splitlines text) [] _ sb_inv_init) as (st & Hloop & Hinv).
    rewrite Hloop. intros [= <-] Hl.
    destruct (sb_inv_keys _ _ Hinv b l Hl) as [_ Hsub].
    eapply sublist_Forall; [exact Hsub|]. apply Forall_fmap.
    eapply Forall_impl; [apply splitlines_lines|]. intros x Hx. cbn.
    unfold rstrip_nl, one_line. apply str_all_rstrip. exact Hx.
Qed.

Lemma book_file_parsed (text : string) (bc : gmap string (list string)) (i : nat) (b : string) :
  SplitBibleKjv.split_books (splitlines text) = Ok bc ->
  BOOKS !! i = Some b ->
  parse_book_file (remove_spaces b)
    (SplitBibleKjv.output_text (SplitBibleKjv.clean_book_lines b (default [] (bc !! b))))
  = {| book := b; order := N.of_nat i + 1;
       chapters := chapters (parse_book_txt (remove_spaces b)
                               (SplitBibleKjv.clean_book_lines b (default [] (bc !! b)))) |}.
Proof.
  intros Hs Hb. rewrite parse_book_file_output_text.
  - apply parse_book_txt_record. exact Hb.
  - apply clean_book_lines_tidy.
  - apply clean_book_lines_one_line.
    destruct (bc !! b) as [l|] eqn:Hl; [|constructor].
    eapply split_books_one_line; eauto.
Qed.

Lemma split_main_returns (text dir : string) :
  SplitBibleKjv.detect_numbered_format (splitlines text) = false ->
  exists o, SplitBibleKjv.main text dir = Ok o.
Proof.
  intros Hd.
  assert (Hs : exists bc, SplitBibleKjv.split_books (splitlines text) = Ok bc).
  { unfold SplitBibleKjv.split_books. rewrite Hd.
    destruct (sb_loop_inv (splitlines text) [] _ sb_inv_init) as (st & Hloop & _).
    rewrite Hloop. eauto. }
  destruct Hs as [bc Hs]. rewrite (main_spec text dir bc Hs). eauto.
Qed.

End SplitThenLoad.

(** X17. The exporter reads what the splitter wrote.  After the
    splitter's main has written its files into a directory, the loop of
    the exporter over that directory finds all 66 files, prints no
    warning, and gives every book of the canon a JSON with its canonical
    name, its 1-based position in the canon and the chapters
    [parse_book_txt] reads in the normalized lines of the book. *)
Theorem split_then_load_books (text dir : string) (o : SplitBibleKjv.output)
    (w : ExportBibleJson.world) :
  SplitBibleKjv.main text dir = Ok o ->
  exists bc books,
    SplitBibleKjv.split_books (splitlines text) = Ok bc /\
    ExportBibleJson.load_books_dir (list_to_map (SplitBibleKjv.written o)) dir w = (books, w) /\
    forall i b,
      ExportBibleJson.BOOKS !! i = Some b ->
      books !! b =
      Some {| ExportBibleJson.book := b;
              ExportBibleJson.order := N.of_nat i + 1;
              ExportBibleJson.chapters :=
                ExportBibleJson.chapters
                  (ExportBibleJson.parse_book_txt (ExportBibleJson.remove_spaces b)
                     (SplitBibleKjv.clean_book_lines b (default [] (bc !! b)))) |}.
Proof.
  intros H.
  destruct (SplitBibleKjv.split_books (splitlines text)) as [bc|e] eqn:Hs;
    [|unfold SplitBibleKjv.main in H; rewrite Hs in H; discriminate H].
  rewrite (main_spec text dir bc Hs) in H. injection H as <-.
  cbn [SplitBibleKjv.written].
  destruct (load_loop (list_to_map (book_file dir bc <$> ExportBibleJson.BOOKS)) dir w
              ExportBibleJson.BOOKS ∅) as (books & Hrun & Hlook).
  { intros b Hb. rewrite (book_files_lookup dir bc b Hb). eauto. }
  exists bc, books. split; [reflexivity|]. split; [exact Hrun|].
  intros i b Hb. pose proof (list_elem_of_lookup_2 _ _ _ Hb) as Hin.
  rewrite Hlook, decide_True by exact Hin.
  rewrite (book_files_lookup dir bc b Hin). cbn [fmap option_fmap option_map].
  f_equal. apply (book_file_parsed text bc i b Hs Hb).
Qed.

Lemma split_then_load_books_witness :
  exists o,
    SplitBibleKjv.main ("GENESIS" +:+ nl +:+ "1:1 In the beginning" +:+ nl) "books" = Ok o /\
    exists bc books,
      SplitBibleKjv.split_books (splitlines ("GENESIS" +:+ nl +:+ "1:1 In the beginning" +:+ nl))
      = Ok bc /\
      ExportBibleJson.load_books_dir (list_to_map (SplitBibleKjv.written o)) "books"
        ExportBibleJson.empty_world = (books, ExportBibleJson.empty_world) /\
      forall i b,
        ExportBibleJson.BOOKS !! i = Some b ->
        books !! b =
        Some {| ExportBibleJson.book := b;
                ExportBibleJson.order := N.of_nat i + 1;
                ExportBibleJson.chapters :=
                  ExportBibleJson.chapters
                    (ExportBibleJson.parse_book_txt (ExportBibleJson.remove_spaces b)
                       (SplitBibleKjv.clean_book_lines b (default [] (bc !! b)))) |}.
Proof.
  destruct (split_main_returns ("GENESIS" +:+ nl +:+ "1:1 In the beginning" +:+ nl) "books")
    as [o Ho]; [vm_compute; reflexivity|].
  exists o. split; [exact Ho|].
  apply (split_then_load_books _ _ o ExportBibleJson.empty_world Ho).
Defined.
(** ** A numbered master file: two routes to the same books *)

Local Arguments String.append !s1 s2 : simpl nomatch.

Lemma linebreak_newline (c : ascii) : negb (is_linebreak c) = true -> is_dot c = true.
Proof.
  destruct c as [[] [] [] [] [] [] [] []]; vm_compute; intros H; congruence.
Qed.

Lemma tidy_one_line_clean (t : string) :
  tidy t = true -> one_line t = true -> clean_text t = true.
Proof.
  intros Ht Ho. destruct (tidy_facts t Ht) as (Hne & _ & Hr & Hs).
  unfold clean_text. rewrite Hne, Hs, Hr, String.eqb_refl.
  unfold one_line in Ho. rewrite (str_all_impl _ is_dot t linebreak_newline Ho). reflexivity.
Qed.

Section TwoRoutes.

Import SplitBibleKjv.

Lemma render_book_out (chs : list ExportBibleJson.Chapter) :
  clean_chapters chs = true -> Forall out_line (render_book chs).
Proof.
  unfold clean_chapters, render_book. intros H. rewrite forallb_forall in H.
  apply Forall_concat, Forall_fmap, Forall_forall. intros ch Hch. cbn.
  apply list_elem_of_In, H in Hch. rewrite forallb_forall in Hch.
  unfold render_chapter. constructor; [constructor|].
  apply Forall_fmap, Forall_forall. intros v Hv. cbn. constructor.
  apply Hch, list_elem_of_In, Hv.
Qed.

Lemma cl_fold_verses (vs : list ExportBibleJson.Verse) :
  forall st c,
    current_chapter st = Some c ->
    steady_from (last_verse_in_chapter st) (ExportBibleJson.v_number <$> vs) = true ->
    forallb (fun v => clean_text (ExportBibleJson.v_text v)) vs = true ->
    let st' := fold_left cl_step
                 ((fun v => verse_line (ExportBibleJson.v_number v) (ExportBibleJson.v_text v))
                    <$> vs) st in
    normalized st' =
      normalized st ++
      ((fun v => verse_line (ExportBibleJson.v_number v) (ExportBibleJson.v_text v)) <$> vs).
Proof.
  induction vs as [|v vs IH]; intros st c Hc Hsteady Hclean; cbv zeta.
  - cbn [fmap list_fmap fold_left]. rewrite app_nil_r. reflexivity.
  - cbn [fmap list_fmap fold_left steady_from forallb] in *.
    apply andb_true_iff in Hsteady as [Hv Hsteady].
    apply andb_true_iff in Hclean as [Ht Hclean].
    rewrite (cl_step_verse_line st _ _ Ht).
    rewrite (infer_chapter_no_reset st c _ Hc Hv).
    specialize (IH (append_verse st (ExportBibleJson.v_number v) (ExportBibleJson.v_text v)) c
                   Hc Hsteady Hclean).
    cbv zeta in IH. rewrite IH. cbn [append_verse normalized]. rewrite <- app_assoc.
    reflexivity.
Qed.

Lemma cl_fold_render (chs : list ExportBibleJson.Chapter) :
  forall st,
    steady chs = true -> clean_chapters chs = true ->
    normalized (fold_left cl_step (render_book chs) st) = normalized st ++ render_book chs.
Proof.
  induction chs as [|ch chs IH]; intros st Hsteady Hclean.
  - cbn [render_book fmap list_fmap concat fold_left]. rewrite app_nil_r. reflexivity.
  - cbn [steady clean_chapters forallb] in Hsteady, Hclean.
    apply andb_true_iff in Hsteady as [Hs Hsteady].
    apply andb_true_iff in Hclean as [Hc Hclean].
    unfold render_book. cbn [fmap list_fmap concat].
    change (concat (render_chapter <$> chs)) with (render_book chs).
    rewrite fold_left_app, (IH _ Hsteady Hclean), app_assoc. f_equal.
    change (fold_left cl_step (render_chapter ch) st)
      with (fold_left cl_step
              ((fun v => verse_line (ExportBibleJson.v_number v) (ExportBibleJson.v_text v))
                 <$> ExportBibleJson.c_verses ch)
              (cl_step st (chapter_line (ExportBibleJson.c_number ch)))).
    rewrite cl_step_chapter_line.
    pose proof (cl_fold_verses (ExportBibleJson.c_verses ch)
                  (start_chapter st (ExportBibleJson.c_number ch))
                  (ExportBibleJson.c_number ch) eq_refl Hs Hc) as H.
    cbv zeta in H. rewrite H. cbn [start_chapter normalized]. rewrite <- app_assoc.
    reflexivity.
Qed.

(** The normalizer leaves the lines of steady chapters as they are. *)
Lemma clean_book_lines_render (book : string) (chs : list ExportBibleJson.Chapter) :
  steady chs = true -> clean_chapters chs = true ->
  clean_book_lines book (render_book chs) = render_book chs.
Proof.
  intros Hsteady Hclean. rewrite clean_book_lines_content.
  assert (Hf : List.filter content_line (render_book chs) = render_book chs).
  { pose proof (render_book_out chs Hclean) as Hout.
    induction Hout as [|x l Hx _ IH]; [reflexivity|].
    cbn [List.filter]. destruct (out_line_facts x Hx) as (Hh & _ & Hb).
    unfold content_line. rewrite Hh, Hb. cbn [negb andb]. f_equal. exact IH. }
  rewrite Hf. apply (cl_fold_render chs cl_init Hsteady Hclean).
Qed.

Lemma render_book_texts (chs : list ExportBibleJson.Chapter) :
  Forall (fun x => one_line x = true) (render_book chs) ->
  forall ch v, ch ∈ chs -> v ∈ ExportBibleJson.c_verses ch ->
               one_line (ExportBibleJson.v_text v) = true.
Proof.
  intros Hall ch v Hch Hv. rewrite Forall_forall in Hall.
  rewrite <- (one_line_verse_line (ExportBibleJson.v_number v)). apply Hall.
  unfold render_book. apply list_elem_of_In, in_concat. exists (render_chapter ch). split.
  - apply list_elem_of_In, list_elem_of_fmap. eauto.
  - apply list_elem_of_In. unfold render_chapter. apply list_elem_of_further.
    apply list_elem_of_fmap. eauto.
Qed.

End TwoRoutes.

Section Routes.

Import ExportBibleJson.

Lemma load_written_books (text dir : string) (bc : gmap string (list string)) (w : world) :
  SplitBibleKjv.split_books (splitlines text) = Ok bc ->
  exists books,
    load_books_dir (list_to_map (book_file dir bc <$> BOOKS)) dir w = (books, w) /\
    forall i b,
      BOOKS !! i = Some b ->
      books !! b =
      Some {| book := b; order := N.of_nat i + 1;
              chapters := chapters (parse_book_txt (remove_spaces b)
                            (SplitBibleKjv.clean_book_lines b (default [] (bc !! b)))) |}.
Proof.
  intros Hs.
  destruct (load_loop (list_to_map (book_file dir bc <$> BOOKS)) dir w BOOKS ∅)
    as (books & Hrun & Hlook).
  { intros b Hb. rewrite (book_files_lookup dir bc b Hb). eauto. }
  exists books. split; [exact Hrun|].
  intros i b Hb. pose proof (list_elem_of_lookup_2 _ _ _ Hb) as Hin.
  rewrite Hlook, decide_True by exact Hin.
  rewrite (book_files_lookup dir bc b Hin). cbn [fmap option_fmap option_map].
  f_equal. apply (book_file_parsed text bc i b Hs Hb).
Qed.

Lemma parse_book_txt_render_chapters (stem : string) (chs : list Chapter) :
  clean_chapters chs = true -> chapters (parse_book_txt stem (render_book chs)) = chs.
Proof.
  intros Hclean. unfold parse_book_txt. cbn [chapters].
  destruct (pb_fold_render chs pb_init eq_refl Hclean) as [H _]. exact H.
Qed.

End Routes.

(** X18. Two routes, one result.  For a master file in the numbered
    format whose verse lines are not indented and carry book numbers from
    1 to 66, splitting it into book files and loading these files gives,
    for every book whose chapters never restart their verse numbering at
    1, the very JSON the exporter builds from the master file directly:
    same name, same order, same chapters, verses and texts. *)
Theorem numbered_routes_agree (text dir : string) (w : ExportBibleJson.world) :
  SplitBibleKjv.detect_numbered_format (splitlines text) = true ->
  plain_numbered (splitlines text) = true ->
  exists o loaded direct,
    SplitBibleKjv.main text dir = Ok o /\
    ExportBibleJson.load_books_dir (list_to_map (SplitBibleKjv.written o)) dir w = (loaded, w) /\
    ExportBibleJson.parse_master_numbered (splitlines text) = Ok direct /\
    forall b bj,
      direct !! b = Some bj -> steady (ExportBibleJson.chapters bj) = true ->
      loaded !! b = Some bj.
Proof.
  intros Hd Hplain.
  destruct (numbered_parsers_sim (splitlines text) Hplain)
    as (bc & direct & Hnf & Hpm & Hagree & Hinv & Htidy).
  assert (Hs : SplitBibleKjv.split_books (splitlines text) = Ok bc).
  { unfold SplitBibleKjv.split_books. rewrite Hd. exact Hnf. }
  destruct (load_written_books text dir bc w Hs) as (loaded & Hload & Hlook).
  eexists. exists loaded, direct.
  split; [apply (main_spec text dir bc Hs)|]. cbn [SplitBibleKjv.written].
  split; [exact Hload|]. split; [exact Hpm|].
  intros b bj Hb Hsteady.
  assert (Hin : b ∈ ExportBibleJson.BOOKS).
  { apply (inv_keys _ _ Hinv). cbn [ExportBibleJson.pm_books]. eauto. }
  apply list_elem_of_lookup in Hin as [i Hi].
  destruct (inv_books _ _ Hinv i b Hi) as (bj' & Hbj' & Hname & Horder).
  cbn [ExportBibleJson.pm_books] in Hbj'. assert (bj' = bj) as -> by congruence.
  assert (Hbc : bc !! b = Some (render_book (ExportBibleJson.chapters bj))).
  { rewrite Hagree, Hb. reflexivity. }
  assert (Hclean : clean_chapters (ExportBibleJson.chapters bj) = true).
  { destruct (parse_numbered_format_keys _ bc (splitlines_lines text) Hnf) as [_ Hone].
    pose proof (render_book_texts _ (Hone b _ Hbc)) as Htexts.
    unfold clean_chapters. apply forallb_forall. intros ch Hch. apply list_elem_of_In in Hch.
    apply forallb_forall. intros v Hv. apply list_elem_of_In in Hv.
    apply tidy_one_line_clean; [eapply Htidy; eauto | eapply Htexts; eauto]. }
  rewrite (Hlook i b Hi), Hbc. cbn [default id].
  rewrite (clean_book_lines_render b _ Hsteady Hclean).
  rewrite (parse_book_txt_render_chapters _ _ Hclean).
  f_equal. destruct bj. cbn in Hname, Horder |- *. subst. reflexivity.
Qed.

Lemma numbered_routes_agree_witness :
  exists o loaded direct,
    SplitBibleKjv.main (join nl (numbered_blob 201 31)) "books" = Ok o /\
    ExportBibleJson.load_books_dir (list_to_map (SplitBibleKjv.written o)) "books"
      ExportBibleJson.empty_world = (loaded, ExportBibleJson.empty_world) /\
    ExportBibleJson.parse_master_numbered (splitlines (join nl (numbered_blob 201 31)))
    = Ok direct /\
    forall b bj,
      direct !! b = Some bj -> steady (ExportBibleJson.chapters bj) = true ->
      loaded !! b = Some bj.
Proof.
  apply (numbered_routes_agree (join nl (numbered_blob 201 31)) "books"
           ExportBibleJson.empty_world); vm_compute; reflexivity.
Defined.
(** ** The numbered-format parser: absent books *)

Lemma py_index_nonneg {A : Type} (l : list A) (i : Z) (x : A) :
  (0 <= i)%Z -> py_index l i = Ok x -> l !! Z.to_nat i = Some x.
Proof.
  intros Hi. unfold py_index.
  assert ((i <? 0)%Z = false) as -> by (apply Z.ltb_ge; exact Hi).
  destruct (_ && _)%bool; [|discriminate].
  destruct (l !! Z.to_nat i); [|discriminate]. intros [= <-]. reflexivity.
Qed.

(** The book a verse line is placed in carries the number of the line,
    unless the number is 00, which [BOOKS[-1]] resolves to the last book. *)
Lemma placed_book_number (n : N) (b : string) :
  py_index ExportBibleJson.BOOKS (Z.of_N n - 1) = Ok b ->
  ExportBibleJson.BOOK_INDEX !! b = Some n \/ (n = 0 /\ b = "Revelation").
Proof.
  intros H. destruct (N.eq_dec n 0) as [->|Hn].
  - right. split; [reflexivity|]. vm_compute in H. injection H as <-. reflexivity.
  - left. apply py_index_nonneg in H; [|lia].
    rewrite (BOOK_INDEX_lookup _ _ H). f_equal. lia.
Qed.

(** C6. The mapping [parse_master_numbered] returns has an entry for each
    of the 66 books of the canon, whose order is the 1-based position of
    the book in the canon, and every chapter of the result has at least one
    verse; the parser returns a mapping whenever no verse line carries a
    book number above 66. A book absent from the input, that is, whose
    number no verse line carries, has no chapters, with one exception: a
    verse line numbered 00 is placed in Revelation, so that on the input
    [00:001:001 x] Revelation is absent and yet has a chapter. *)
Theorem parse_master_numbered_books :
  length ExportBibleJson.BOOKS = 66%nat /\
  (forall lines,
     book_numbers_in_canon lines = true ->
     exists books, ExportBibleJson.parse_master_numbered lines = Ok books) /\
  (forall lines books,
     ExportBibleJson.parse_master_numbered lines = Ok books ->
     (forall i b,
        ExportBibleJson.BOOKS !! i = Some b ->
        exists bj,
          books !! b = Some bj /\
          ExportBibleJson.book bj = b /\
          ExportBibleJson.order bj = N.of_nat i + 1 /\
          (absent_from b lines = true ->
           b <> "Revelation" \/ book_numbers_positive lines = true ->
           ExportBibleJson.chapters bj = [])) /\
     (forall b bj ch,
        books !! b = Some bj ->
        In ch (ExportBibleJson.chapters bj) ->
        ExportBibleJson.c_verses ch <> [])) /\
  (absent_from "Revelation" ["00:001:001 x"] = true /\
   exists books bj,
     ExportBibleJson.parse_master_numbered ["00:001:001 x"] = Ok books /\
     books !! "Revelation" = Some bj /\
     ExportBibleJson.chapters bj =
       [{| ExportBibleJson.c_number := 1;
           ExportBibleJson.c_verses :=
             [{| ExportBibleJson.v_number := 1; ExportBibleJson.v_text := "x" |}] |}]).
Proof.
  split; [reflexivity|].
  assert (Htrim : forall lines st, pm_inv lines st ->
            exists books', ExportBibleJson.trim_books (ExportBibleJson.pm_books st) = Ok books' /\
              forall b, books' !! b =
                if decide (b ∈ ExportBibleJson.BOOKS)
                then (fun bj => ExportBibleJson.with_chapters bj
                        (ExportBibleJson.nonempty_chapters (ExportBibleJson.chapters bj)))
                     <$> ExportBibleJson.pm_books st !! b
                else ExportBibleJson.pm_books st !! b).
  { intros lines st Hinv. apply trim_loop. intros b Hb.
    apply list_elem_of_lookup in Hb as [i Hi].
    destruct (inv_books _ _ Hinv i b Hi) as (bj & Hbj & _). eauto. }
  split; [|split].
  - intros lines Hcanon.
    destruct (pm_loop_inv lines [] ExportBibleJson.pm_init pm_inv_init) as [Hkeep Hprog].
    cbn [app] in Hkeep. unfold ExportBibleJson.parse_master_numbered.
    destruct Hprog as [st Hst].
    { intros ln n Hln Hn. unfold book_numbers_in_canon in Hcanon.
      rewrite forallb_forall in Hcanon. apply list_elem_of_In in Hln.
      specialize (Hcanon ln Hln). rewrite Hn in Hcanon. apply N.leb_le. exact Hcanon. }
    rewrite Hst. cbn [bind].
    destruct (Htrim lines st (Hkeep st Hst)) as (books' & Hb' & _). eauto.
  - intros lines books H.
    destruct (pm_loop_inv lines [] ExportBibleJson.pm_init pm_inv_init) as [Hkeep _].
    cbn [app] in Hkeep. unfold ExportBibleJson.parse_master_numbered in H.
    destruct (for_each ExportBibleJson.pm_step lines ExportBibleJson.pm_init) as [st|] eqn:Hst;
      cbn [bind] in H; [|discriminate].
    pose proof (Hkeep st eq_refl) as Hinv.
    destruct (Htrim lines st Hinv) as (books' & Hb' & Hlook).
    rewrite Hb' in H. injection H as <-. split.
    + intros i b Hi. destruct (inv_books _ _ Hinv i b Hi) as (bj & Hbj & Hn & Ho).
      rewrite Hlook. rewrite decide_True by (eapply list_elem_of_lookup_2; eauto).
      rewrite Hbj. eexists. split; [reflexivity|].
      cbn [ExportBibleJson.with_chapters ExportBibleJson.book ExportBibleJson.order
           ExportBibleJson.chapters].
      repeat split; auto.
      intros Habs Hzero.
      destruct (ExportBibleJson.chapters bj) as [|c l] eqn:Hch; [reflexivity|].
      exfalso. destruct (inv_placed _ _ Hinv b bj Hbj) as (ln & n & Hln & Hnum & Hidx).
      { rewrite Hch. discriminate. }
      apply list_elem_of_In in Hln.
      unfold absent_from in Habs. rewrite forallb_forall in Habs.
      specialize (Habs ln Hln). rewrite Hnum in Habs.
      destruct (placed_book_number n b Hidx) as [Hb|[-> ->]].
      * rewrite bool_decide_eq_true_2 in Habs by exact Hb. discriminate.
      * destruct Hzero as [Hzero|Hzero]; [congruence|].
        unfold book_numbers_positive in Hzero. rewrite forallb_forall in Hzero.
        specialize (Hzero ln Hln). rewrite Hnum in Hzero. discriminate.
    + intros b bj ch Hb Hch. rewrite Hlook in Hb.
      destruct (decide (b ∈ ExportBibleJson.BOOKS)) as [Hin|Hnin].
      * destruct (ExportBibleJson.pm_books st !! b) as [bj0|]; [|discriminate].
        injection Hb as <-. cbn [ExportBibleJson.with_chapters ExportBibleJson.chapters] in Hch.
        eapply nonempty_chapters_verses; eauto.
      * exfalso. apply Hnin. apply (inv_keys _ _ Hinv). eauto.
  - split; [vm_compute; reflexivity|].
    destruct (parse_master_numbered_returns ["00:001:001 x"]) as (books & E & _);
      [vm_compute; reflexivity|].
    exists books.
    assert (Hrev : (bs <- ExportBibleJson.parse_master_numbered ["00:001:001 x"] ;;
                    Ok (bs !! "Revelation"))
                   = Ok (Some {| ExportBibleJson.book := "Revelation";
                                 ExportBibleJson.order := 66;
                                 ExportBibleJson.chapters :=
                                   [{| ExportBibleJson.c_number := 1;
                                       ExportBibleJson.c_verses :=
                                         [{| ExportBibleJson.v_number := 1;
                                             ExportBibleJson.v_text := "x" |}] |}] |}))
      by (vm_compute; reflexivity).
    rewrite E in Hrev. cbn [bind] in Hrev. injection Hrev as Hrev.
    eexists. split; [exact E|]. split; [exact Hrev | reflexivity].
Qed.

Lemma parse_master_numbered_books_witness :
  exists books,
    ExportBibleJson.parse_master_numbered
      ["BOOK 01 Genesis"; "01:001:001 In the beginning..."; "01:001:002 And the earth..."]
    = Ok books.
Proof.
  apply (proj1 (proj2 parse_master_numbered_books)).
  vm_compute. reflexivity.
Defined.
(** ** The fixed points of the normalizer *)

Local Arguments String.append !s1 s2 : simpl nomatch.

Section FixedPoints.

Import SplitBibleKjv.

Lemma tidy_content (x : string) :
  tidy x = true -> truthy (is_heading x) = false -> content_line x = true.
Proof.
  intros Ht Hh. destruct (tidy_facts x Ht) as (Hne & Hs & _).
  unfold content_line, blank. rewrite Hh, Hs, Hne. reflexivity.
Qed.

(** The lines of a stable book all reach the main loop. *)
Lemma stable_from_content (l : list string) :
  forall before, stable_from before l = true -> List.filter content_line l = l.
Proof.
  induction l as [|x l IH]; intros before H; [reflexivity|].
  cbn [stable_from] in H.
  apply andb_true_iff in H as [H Hrest]. apply andb_true_iff in H as [Ht Hh].
  apply negb_true_iff in Hh.
  cbn [List.filter]. rewrite (tidy_content x Ht Hh). f_equal.
  destruct (re_match CHAPTER_HEADING_RE x).
  { apply andb_true_iff in Hrest as [_ Hrest]. eapply IH; eauto. }
  destruct (re_match VERSE_COLON_RE x); [discriminate|].
  destruct (re_match VERSE_SIMPLE_RE x), before as [[prev lv]|]; try discriminate.
  - apply andb_true_iff in Hrest as [_ Hrest]. eapply IH; eauto.
  - apply andb_true_iff in Hrest as [_ Hrest]. eapply IH; eauto.
Qed.

(** Read back in a state that agrees with what was read so far, a line
    that passes the test of [stable_from] is appended as it is, and the
    state agrees with what the test passes on. *)
Lemma stable_fold (l : list string) :
  forall before st,
    read_back before st -> stable_from before l = true ->
    normalized (fold_left cl_step l st) = normalized st ++ l.
Proof.
  induction l as [|x l IH]; intros before st Hrb H.
  { cbn [fold_left]. rewrite app_nil_r. reflexivity. }
  cbn [stable_from] in H.
  apply andb_true_iff in H as [H Hrest]. apply andb_true_iff in H as [Ht _].
  destruct (tidy_facts x Ht) as (Hne & Hs & _).
  cbn [fold_left].
  assert (Hgoal : forall before',
            read_back before' (cl_step st x) ->
            normalized (cl_step st x) = normalized st ++ [x] ->
            stable_from before' l = true ->
            normalized (fold_left cl_step l (cl_step st x)) = normalized st ++ x :: l).
  { intros before' Hrb' Hn Hl. rewrite (IH before' _ Hrb' Hl), Hn, <- app_assoc. reflexivity. }
  unfold cl_step in Hgoal |- *. rewrite Hs, Hne in Hgoal |- *. cbn [negb] in Hgoal |- *.
  destruct (re_match CHAPTER_HEADING_RE x) as [m|].
  { apply andb_true_iff in Hrest as [Hx Hrest]. apply String.eqb_eq in Hx.
    apply (Hgoal (Some (x, None))); [| |exact Hrest].
    - cbn [read_back start_chapter normalized current_chapter last_verse_in_chapter].
      fold (chapter_line (int (group m 1))). rewrite Hx, last_snoc. eauto.
    - cbn [start_chapter normalized]. fold (chapter_line (int (group m 1))).
      rewrite Hx. reflexivity. }
  destruct (re_match VERSE_COLON_RE x); [discriminate|].
  destruct (re_match VERSE_SIMPLE_RE x) as [m|], before as [[prev lv]|]; try discriminate.
  - apply andb_true_iff in Hrest as [Hx Hrest]. apply andb_true_iff in Hx as [Hx Hno].
    apply String.eqb_eq in Hx. destruct Hrb as (Hlast & [c Hc] & Hlv).
    assert (Hinf : infer_chapter st (int (group m 1)) = st).
    { apply (infer_chapter_no_reset st c); [exact Hc|].
      unfold no_reset. rewrite Hlv. exact Hno. }
    rewrite Hinf in Hgoal |- *.
    apply (Hgoal (Some (x, Some (int (group m 1))))); [| |exact Hrest].
    + cbn [read_back append_verse normalized current_chapter last_verse_in_chapter].
      fold (verse_line (int (group m 1)) (strip (group m 2))).
      rewrite Hx, last_snoc, Hc. eauto.
    + cbn [append_verse normalized].
      fold (verse_line (int (group m 1)) (strip (group m 2))). rewrite Hx. reflexivity.
  - apply andb_true_iff in Hrest as [Hprev Hrest]. destruct Hrb as (Hlast & [c Hc] & Hlv).
    assert (Hcl : last_is_chapter_line (normalized st) = true).
    { unfold last_is_chapter_line. rewrite Hlast. exact Hprev. }
    rewrite Hcl, andb_false_r, Hc in Hgoal |- *.
    apply (Hgoal (Some (x, lv))); [| |exact Hrest].
    + cbn [read_back normalized current_chapter last_verse_in_chapter].
      rewrite last_snoc, Hc. eauto.
    + reflexivity.
Qed.

(** A stable book is a fixed point of the normalizer. *)
Lemma clean_book_lines_stable (book : string) (out : list string) :
  stable_lines out = true -> clean_book_lines book out = out.
Proof.
  intros H. rewrite clean_book_lines_content.
  rewrite (stable_from_content out None H).
  rewrite (stable_fold out None cl_init); [reflexivity | split; reflexivity | exact H].
Qed.

End FixedPoints.

(** *** Running the script again *)

Lemma write_files_union (files : list (string * string)) :
  forall fs : gmap string string,
    write_files fs files = list_to_map (reverse files) ∪ fs.
Proof.
  induction files as [|f files IH]; intros fs.
  - cbn. rewrite (left_id_L ∅ (∪)). reflexivity.
  - unfold write_files in *. cbn [fold_left]. rewrite IH.
    rewrite reverse_cons, list_to_map_app. cbn [list_to_map foldr uncurry].
    rewrite <- (assoc_L (∪)). f_equal.
    rewrite <- insert_union_l, (left_id_L ∅ (∪)). destruct f. reflexivity.
Qed.

Lemma write_files_twice (fs : gmap string string) (files : list (string * string)) :
  write_files (write_files fs files) files = write_files fs files.
Proof.
  rewrite !write_files_union. rewrite (assoc_L (∪)), (idemp_L (∪)). reflexivity.
Qed.

(** ** Only stable books are fixed points of the normalizer *)

Section OnlyStable.

Import SplitBibleKjv.

(** What one turn of the main loop does to the output: nothing, one line
    more, a chapter marker and a line more, or the line joined to the last
    one, which does not start with [Chapter ]. *)
Lemma cl_step_effect (st : cl_state) (x : string) :
  cl_step st x = st \/
  (exists w, normalized (cl_step st x) = normalized st ++ [w]) \/
  (exists c w, normalized (cl_step st x) = normalized st ++ [chapter_line c; w] /\
               ~ (current_chapter st = Some c /\ last_verse_in_chapter st = None)) \/
  (exists p y, normalized st = p ++ [y] /\ startswith "Chapter " y = false /\
               normalized (cl_step st x) = p ++ [y +:+ " " +:+ strip x]).
Proof.
  unfold cl_step.
  destruct (negb (str_nonempty (strip x))); [auto|].
  destruct (re_match CHAPTER_HEADING_RE (strip x)) as [m|]; [right; left; eexists; reflexivity|].
  destruct (re_match VERSE_COLON_RE (strip x)) as [m|].
  { destruct (bool_decide (current_chapter st = Some (int (group m 1)))) eqn:Hcur.
    - right; left. eexists. reflexivity.
    - apply bool_decide_eq_false in Hcur. right; right; left. do 2 eexists. split.
      + cbn [append_verse start_chapter normalized]. rewrite <- app_assoc. reflexivity.
      + intros [H _]. contradiction. }
  destruct (re_match VERSE_SIMPLE_RE (strip x)) as [m|].
  { unfold infer_chapter. destruct (current_chapter st) as [cur|] eqn:Hc.
    - destruct (last_verse_in_chapter st) as [lv|] eqn:Hlv; [|right; left; eexists; reflexivity].
      destruct (_ && _).
      + right; right; left. do 2 eexists. split.
        * cbn [append_verse start_chapter normalized]. rewrite <- app_assoc. reflexivity.
        * intros [_ H]. discriminate.
      + right; left. eexists. reflexivity.
    - right; right; left. do 2 eexists. split.
      + cbn [append_verse start_chapter normalized]. rewrite <- app_assoc. reflexivity.
      + intros [H _]. discriminate. }
  destruct (match normalized st with [] => false | _ :: _ => true end
            && negb (last_is_chapter_line (normalized st))) eqn:Hcont.
  - apply andb_true_iff in Hcont as [Hne Hlast]. apply negb_true_iff in Hlast.
    right; right; right.
    destruct (snoc_view (normalized st)) as [Hnil|(p & y & Hn)].
    { rewrite Hnil in Hne. discriminate. }
    exists p, y. rewrite Hn in Hlast |- *. unfold last_is_chapter_line in Hlast.
    rewrite last_snoc in Hlast. cbn [normalized]. rewrite update_last_snoc. auto.
  - destruct (current_chapter st) as [cur|] eqn:Hc.
    + right; left. eexists. reflexivity.
    + right; right; left. exists 1, (strip x). split.
      * cbn [start_chapter normalized]. rewrite <- app_assoc. reflexivity.
      * intros [H _]. discriminate.
Qed.

(** Whatever is read next, the lines before the last one stay, and the
    last one is at most continued; it stays as it is when it starts with
    [Chapter ]. *)
Lemma fold_cl_step_freeze (l : list string) :
  forall st p y,
    normalized st = p ++ [y] ->
    exists e more,
      normalized (fold_left cl_step l st) = p ++ [y +:+ e] ++ more /\
      (startswith "Chapter " y = true -> e = "").
Proof.
  induction l as [|x l IH]; intros st p y Hn.
  { exists "", []. cbn [fold_left]. rewrite Hn, str_app_nil_r. auto. }
  cbn [fold_left].
  destruct (cl_step_effect st x) as [E|[(w & E)|[(c & w & E & _)|(p' & y' & Hn' & Hy' & E)]]].
  - rewrite E. apply IH. exact Hn.
  - rewrite Hn in E.
    destruct (IH (cl_step st x) (p ++ [y]) w E) as (e & more & -> & _).
    exists "", ([w +:+ e] ++ more). rewrite str_app_nil_r, <- !app_assoc. auto.
  - rewrite Hn in E.
    destruct (IH (cl_step st x) (p ++ [y; chapter_line c]) w) as (e & more & -> & _).
    { rewrite E, <- !app_assoc. reflexivity. }
    exists "", ([chapter_line c; w +:+ e] ++ more). rewrite str_app_nil_r, <- !app_assoc. auto.
  - rewrite Hn in Hn'. apply app_inj_tail in Hn' as [<- <-].
    destruct (IH (cl_step st x) p (y +:+ " " +:+ strip x) E) as (e & more & -> & _).
    exists (" " +:+ strip x +:+ e), more. rewrite !str_app_assoc. split; [reflexivity|].
    intros H. congruence.
Qed.

(** The line after the lines [a] of the output, once a line follows [a]. *)
Lemma fold_cl_step_next (l : list string) (st : cl_state) (a : list string) (y x : string)
    (rest : list string) :
  normalized st = a ++ [y] ->
  normalized (fold_left cl_step l st) = a ++ x :: rest ->
  exists e, x = y +:+ e /\ (startswith "Chapter " y = true -> e = "").
Proof.
  intros Hn HR. destruct (fold_cl_step_freeze l st a y Hn) as (e & more & E & He).
  rewrite E in HR. apply app_inv_head in HR. injection HR as Hx _.
  exists e. auto.
Qed.

Lemma fold_cl_step_next2 (l : list string) (st : cl_state) (a : list string) (c w x : string)
    (rest : list string) :
  normalized st = a ++ [c; w] ->
  normalized (fold_left cl_step l st) = a ++ x :: rest ->
  x = c.
Proof.
  intros Hn HR. destruct (fold_cl_step_freeze l st (a ++ [c]) w) as (e & more & E & He).
  { rewrite Hn, <- app_assoc. reflexivity. }
  rewrite E, <- !app_assoc in HR. apply app_inv_head in HR. injection HR as Hx _. auto.
Qed.

Lemma chapter_line_content (k : N) : content_line (chapter_line k) = true.
Proof.
  apply tidy_content; [apply tidy_chapter_line|].
  rewrite chapter_line_is_heading. reflexivity.
Qed.

(** The output never makes up for a line it is behind: if the lines [z]
    are still to be written when the lines [l] are still to be read, the
    output cannot end as [z] followed by [l]. *)
Lemma fold_cl_step_behind (l : list string) :
  forall st pre z,
    z <> [] ->
    length (normalized st) = length pre ->
    (forall k, last z = Some (chapter_line k) ->
               current_chapter st = Some k /\ last_verse_in_chapter st = None) ->
    normalized (fold_left cl_step (List.filter content_line l) st) <> pre ++ z ++ l.
Proof.
  induction l as [|y l IH]; intros st pre z Hz Hlen Hlink HR.
  { cbn [List.filter fold_left] in HR. apply (f_equal length) in HR.
    rewrite !length_app, Hlen in HR. destruct z; [congruence | cbn in HR; lia]. }
  assert (Hre : pre ++ z ++ y :: l = pre ++ (z ++ [y]) ++ l).
  { rewrite <- (app_assoc z). reflexivity. }
  assert (Hsnoc : z ++ [y] <> []) by (destruct z; discriminate).
  cbn [List.filter] in HR. destruct (content_line y) eqn:Hy.
  - cbn [fold_left] in HR.
    assert (Hlink' : forall z', forall k, last (z' ++ [y]) = Some (chapter_line k) ->
              current_chapter (cl_step st y) = Some k /\
              last_verse_in_chapter (cl_step st y) = None).
    { intros z' k Hk. rewrite last_snoc in Hk. injection Hk as ->.
      rewrite cl_step_chapter_line. auto. }
    destruct (cl_step_effect st y) as [E|[(w & E)|[(c & w & E & Hnot)|(p' & y' & Hn' & Hy' & E)]]].
    + apply (IH (cl_step st y) pre (z ++ [y])).
      * exact Hsnoc.
      * rewrite E. exact Hlen.
      * apply Hlink'.
      * rewrite HR. exact Hre.
    + destruct z as [|z0 z]; [congruence|].
      apply (IH (cl_step st y) (pre ++ [z0]) (z ++ [y])).
      * destruct z; discriminate.
      * rewrite E, !length_app, Hlen. reflexivity.
      * apply Hlink'.
      * rewrite HR, <- !app_assoc. reflexivity.
    + destruct z as [|z0 [|z1 z]]; [congruence| |].
      * exfalso. apply Hnot. apply Hlink.
        assert (Hpre : exists a, normalized st = a /\ length a = length pre) by eauto.
        destruct Hpre as (a & Ha & Hla). rewrite Ha in E.
        assert (Hsplit : pre ++ [z0] ++ y :: l = pre ++ z0 :: y :: l) by reflexivity.
        rewrite Hsplit in HR.
        destruct (fold_cl_step_freeze (List.filter content_line l) (cl_step st y)
                    (a ++ [chapter_line c]) w) as (e & more & ER & _).
        { rewrite E, <- app_assoc. reflexivity. }
        rewrite ER, <- !app_assoc in HR.
        apply app_inj_1 in HR as [_ HR]; [|exact Hla].
        injection HR as <- _. reflexivity.
      * apply (IH (cl_step st y) (pre ++ [z0; z1]) (z ++ [y])).
        -- destruct z; discriminate.
        -- rewrite E, !length_app, Hlen. reflexivity.
        -- apply Hlink'.
        -- rewrite HR, <- !app_assoc. reflexivity.
    + apply (IH (cl_step st y) pre (z ++ [y])).
      * exact Hsnoc.
      * rewrite E, <- Hlen, Hn', !length_app. reflexivity.
      * apply Hlink'.
      * rewrite HR. exact Hre.
  - apply (IH st pre (z ++ [y])).
    + exact Hsnoc.
    + exact Hlen.
    + intros k Hk. rewrite last_snoc in Hk. injection Hk as ->.
      rewrite chapter_line_content in Hy. discriminate.
    + rewrite HR. exact Hre.
Qed.

Lemma rstrip_by_tail (p : ascii -> bool) (a b : string) :
  str_nonempty b = true -> rstrip_by p (a +:+ b) = a +:+ b -> rstrip_by p b = b.
Proof.
  intros Hb. induction a as [|c a IH]; [auto|]. intros H. apply IH.
  change (String c a +:+ b) with (String c (a +:+ b)) in H. cbn [rstrip_by] in H.
  destruct (rstrip_by p (a +:+ b)) as [|c' r].
  - exfalso. destruct (p c); [discriminate|]. injection H as H.
    destruct a; cbn [String.append] in H; [subst b; discriminate | discriminate].
  - injection H as H. exact H.
Qed.

(** A line that reads as a verse entry and starts with the entry written
    for it is that entry. *)
Lemma simple_entry_exact (x : string) (m : list string) (e : string) :
  tidy x = true -> re_match VERSE_SIMPLE_RE x = Some m ->
  x = verse_line (int (group m 1)) (strip (group m 2)) +:+ e -> e = "".
Proof.
  intros Hx Hm E. destruct (tidy_facts x Hx) as (Hne & Hs & Hr & _).
  pose proof Hm as Hshape.
  apply verse_simple_shape in Hshape as (d & c & w & t & e0 & Ex & Hd & Hdl & Hc & Hw & Ht & He & ->).
  cbn [group nth Nat.pred] in E.
  destruct (stripped_text_clean x d c w t e0) as [-> Hclean]; auto.
  { rewrite Hs. exact Ex. }
  rewrite str_app_nil_r in Ex.
  destruct (clean_text_facts _ Hclean) as (Htne & Hts & _).
  unfold verse_line in E. rewrite Ex in E.
  rewrite !str_app_assoc in E. cbn [String.append] in E.
  apply digit_run_unique in E as (_ & -> & E);
    [|exact Hd | apply str_of_N_digits | apply space_not_digit; exact Hc | reflexivity].
  assert (Hst : exists c1 s1, strip t = String c1 s1 /\ is_space c1 = false).
  { destruct (strip t) as [|c1 s1]; [discriminate Htne|].
    cbn [starts_clear] in Hts. apply negb_true_iff in Hts. eauto. }
  destruct Hst as (c1 & s1 & Est & Hc1).
  destruct w as [|c' w].
  - cbn [String.append] in E, Ex.
    assert (Ht' : strip t = t).
    { unfold strip. rewrite lstrip_by_clear.
      - apply (rstrip_by_tail is_space (d +:+ " ")).
        + rewrite E, Est. reflexivity.
        + rewrite str_app_assoc. cbn [String.append]. rewrite <- Ex. exact Hr.
      - rewrite E, Est. cbn [String.append starts_clear]. rewrite Hc1. reflexivity. }
    rewrite Ht' in E. rewrite <- (str_app_nil_r t) in E at 1.
    apply str_app_inv_head in E. auto.
  - exfalso. rewrite Est in E. cbn [String.append] in E. injection E as -> _.
    cbn [str_all] in Hw. apply andb_true_iff in Hw as [Hw _]. congruence.
Qed.

(** A line that reads as a colon verse does not start with a verse entry. *)
Lemma colon_not_entry (x : string) (m : list string) (v : N) (t e : string) :
  re_match VERSE_COLON_RE x = Some m -> x <> verse_line v t +:+ e.
Proof.
  intros Hm E. apply verse_colon_shape in Hm as (d & r & Ex & Hd).
  unfold verse_line in E. rewrite Ex in E.
  rewrite !str_app_assoc in E. cbn [String.append] in E.
  apply digit_run_unique in E as (_ & Hc & _);
    [discriminate | exact Hd | apply str_of_N_digits | reflexivity | reflexivity].
Qed.

Lemma start_chapter_not_self (st : cl_state) (k : N) : start_chapter st k <> st.
Proof.
  intros H. apply (f_equal normalized) in H. cbn [start_chapter normalized] in H.
  apply (f_equal length) in H. rewrite length_app in H. cbn in H. lia.
Qed.

(** A book that the normalizer writes again as it is, is stable. *)
Lemma stable_only (l : list string) :
  forall before st,
    read_back before st ->
    Forall (fun x => tidy x = true) l ->
    normalized (fold_left cl_step (List.filter content_line l) st) = normalized st ++ l ->
    stable_from before l = true.
Proof.
  induction l as [|x l IH]; intros before st Hrb Htidy HR; [reflexivity|].
  apply Forall_cons in Htidy as [Hx Htidy].
  destruct (tidy_facts x Hx) as (Hne & Hs & _).
  cbn [List.filter] in HR. destruct (content_line x) eqn:Hcontent.
  2:{ exfalso. apply (fold_cl_step_behind l st (normalized st) [x]).
      - discriminate.
      - reflexivity.
      - intros k [= ->]. rewrite chapter_line_content in Hcontent. discriminate.
      - exact HR. }
  assert (Hh : truthy (is_heading x) = false).
  { unfold content_line in Hcontent. apply andb_true_iff in Hcontent as [H _].
    apply negb_true_iff in H. exact H. }
  cbn [fold_left] in HR. cbn [stable_from]. rewrite Hx, Hh. cbn [negb andb].
  assert (Hgo : forall before',
            normalized (cl_step st x) = normalized st ++ [x] ->
            read_back before' (cl_step st x) ->
            stable_from before' l = true).
  { intros before' Hn Hrb'. apply (IH before' (cl_step st x) Hrb' Htidy).
    rewrite HR, Hn, <- app_assoc. reflexivity. }
  remember (cl_step st x) as st1 eqn:Hst1.
  unfold cl_step in Hst1. rewrite Hs, Hne in Hst1. cbn [negb] in Hst1.
  destruct (re_match CHAPTER_HEADING_RE x) as [m|] eqn:Hch.
  { subst st1. destruct (fold_cl_step_next _ (start_chapter st (int (group m 1))) (normalized st)
                (chapter_line (int (group m 1))) x l eq_refl HR) as (e & Ex & He).
    rewrite (He eq_refl), str_app_nil_r in Ex.
    rewrite <- Ex, String.eqb_refl. cbn [andb].
    apply Hgo.
    - cbn [start_chapter normalized]. fold (chapter_line (int (group m 1))).
      rewrite <- Ex. reflexivity.
    - cbn [read_back start_chapter normalized current_chapter last_verse_in_chapter].
      fold (chapter_line (int (group m 1))). rewrite <- Ex, last_snoc. eauto. }
  destruct (re_match VERSE_COLON_RE x) as [m|] eqn:Hcolon.
  { exfalso. destruct (bool_decide (current_chapter st = Some (int (group m 1))));
      subst st1.
    - destruct (fold_cl_step_next _ (append_verse st (int (group m 2)) (strip (group m 3)))
                  (normalized st) _ x l eq_refl HR) as (e & Ex & _).
      exact (colon_not_entry x m _ _ e Hcolon Ex).
    - cbn [append_verse start_chapter normalized] in HR.
      assert (Hc : x = chapter_line (int (group m 1))).
      { refine (fold_cl_step_next2 _ _ (normalized st) _ _ x l _ HR).
        cbn [append_verse start_chapter normalized]. rewrite <- app_assoc. reflexivity. }
      rewrite Hc, chapter_line_match in Hch. discriminate. }
  destruct (re_match VERSE_SIMPLE_RE x) as [m|] eqn:Hsimple.
  { destruct (infer_chapter_cases st (int (group m 1))) as [E|[k E]].
    2:{ exfalso. rewrite E in Hst1. subst st1.
        assert (Hc : x = chapter_line k).
        { refine (fold_cl_step_next2 _ _ (normalized st) _ _ x l _ HR).
          cbn [append_verse start_chapter normalized]. rewrite <- app_assoc. reflexivity. }
        rewrite Hc, chapter_line_match in Hch. discriminate. }
    rewrite E in Hst1. subst st1.
    destruct (fold_cl_step_next _ (append_verse st (int (group m 1)) (strip (group m 2)))
                (normalized st) _ x l eq_refl HR) as (e & Ex & _).
    fold (verse_line (int (group m 1)) (strip (group m 2))) in Ex.
    pose proof (simple_entry_exact x m e Hx Hsimple Ex) as ->.
    rewrite str_app_nil_r in Ex.
    unfold infer_chapter in E.
    destruct (current_chapter st) as [c|] eqn:Hc;
      [|exfalso; exact (start_chapter_not_self _ _ E)].
    destruct before as [[prev lv]|]; [|destruct Hrb as [_ Hrb]; congruence].
    destruct Hrb as (Hlast & _ & Hlv).
    rewrite <- Ex, String.eqb_refl. cbn [andb].
    assert (Hno : negb ((int (group m 1) =? 1) &&
                        match lv with Some l0 => 1 <? l0 | None => false end) = true).
    { rewrite Hlv in E. destruct lv as [l0|]; [|rewrite andb_false_r; reflexivity].
      destruct ((int (group m 1) =? 1) && negb (l0 =? 0) && (1 <? l0)) eqn:Hcond;
        [exfalso; exact (start_chapter_not_self _ _ E)|].
      destruct (int (group m 1) =? 1); [|reflexivity].
      destruct (1 <? l0) eqn:Hl0; [|reflexivity].
      apply N.ltb_lt in Hl0. assert ((l0 =? 0) = false) as Hz by (apply N.eqb_neq; lia).
      rewrite Hz in Hcond. discriminate. }
    rewrite Hno. cbn [andb].
    apply Hgo.
    - cbn [append_verse normalized].
      fold (verse_line (int (group m 1)) (strip (group m 2))). rewrite <- Ex. reflexivity.
    - cbn [read_back append_verse normalized current_chapter last_verse_in_chapter].
      fold (verse_line (int (group m 1)) (strip (group m 2))).
      rewrite <- Ex, last_snoc, Hc. eauto. }
  destruct (match normalized st with [] => false | _ :: _ => true end
            && negb (last_is_chapter_line (normalized st))) eqn:Hcont.
  { exfalso. apply andb_true_iff in Hcont as [Hnonempty _].
    destruct (snoc_view (normalized st)) as [Hnil|(p & y & Hn)].
    { rewrite Hnil in Hnonempty. discriminate. }
    destruct (fold_cl_step_freeze (List.filter content_line l) st1
                p (y +:+ " " +:+ x)) as (e & more & ER & _).
    { subst st1. cbn [normalized]. rewrite Hn, update_last_snoc. reflexivity. }
    rewrite ER, Hn, <- app_assoc in HR. apply app_inv_head in HR.
    injection HR as HR _. apply (f_equal String.length) in HR.
    rewrite !str_length_app in HR. cbn in HR. lia. }
  destruct (current_chapter st) as [c|] eqn:Hc; subst st1.
  2:{ exfalso.
      assert (Hx1 : x = chapter_line 1).
      { refine (fold_cl_step_next2 _ _ (normalized st) _ _ x l _ HR).
        cbn [append_verse start_chapter normalized]. rewrite <- app_assoc. reflexivity. }
      rewrite Hx1, chapter_line_match in Hch. discriminate. }
  destruct before as [[prev lv]|]; [|destruct Hrb as [_ Hrb]; congruence].
  destruct Hrb as (Hlast & _ & Hlv).
  assert (Hprev : startswith "Chapter " prev = true).
  { unfold last_is_chapter_line in Hcont. rewrite Hlast in Hcont.
    destruct (normalized st); [discriminate Hlast|].
    cbn [andb] in Hcont. apply negb_false_iff in Hcont. exact Hcont. }
  rewrite Hprev. cbn [andb].
  apply Hgo; [reflexivity|].
  cbn [read_back normalized current_chapter last_verse_in_chapter].
  rewrite last_snoc, Hc. eauto.
Qed.

Lemma clean_book_lines_only_stable (book : string) (out : list string) :
  clean_book_lines book out = out -> stable_lines out = true.
Proof.
  intros H. rewrite clean_book_lines_content in H.
  apply (stable_only out None cl_init).
  - split; reflexivity.
  - rewrite <- H at 1.
    apply (fold_cl_step_shape (List.filter content_line out) cl_init);
      [apply cl_init_opens | constructor].
  - exact H.
Qed.

End OnlyStable.

(** C8, as the code has it. Applying [clean_book_lines] to a book returns
    the book unchanged exactly when its lines are stable: each is a chapter
    marker or a verse entry as the normalizer writes them, no entry
    numbered 1 coming right after an entry above 1, or a kept preface line
    that is no heading and matches no pattern. This holds for any list of
    lines, so for the normalized output of any book and for every book the
    heading pipeline returns. Running the script a second time on the same
    input leaves every file as the first run wrote it. *)
Theorem heading_pipeline_idempotent_iff_stable :
  (forall book out,
     SplitBibleKjv.clean_book_lines book out = out <-> stable_lines out = true) /\
  (forall input result book out,
     SplitBibleKjv.split_and_clean input = Ok result ->
     In (book, out) result ->
     (SplitBibleKjv.clean_book_lines book out = out <-> stable_lines out = true)) /\
  (forall fs text out_dir,
     (fs1 <- run_main fs text out_dir ;; run_main fs1 text out_dir)
     = run_main fs text out_dir).
Proof.
  assert (Hiff : forall book out,
            SplitBibleKjv.clean_book_lines book out = out <-> stable_lines out = true).
  { intros book out. split.
    - apply clean_book_lines_only_stable.
    - apply clean_book_lines_stable. }
  split; [exact Hiff|]. split.
  - intros input result book out _ _. apply Hiff.
  - intros fs text out_dir. unfold run_main.
    destruct (SplitBibleKjv.main text out_dir) as [o|e]; [|reflexivity].
    cbn [bind]. rewrite write_files_twice. reflexivity.
Qed.

Lemma heading_pipeline_idempotent_iff_stable_witness :
  SplitBibleKjv.clean_book_lines "Genesis"
    (SplitBibleKjv.clean_book_lines "Genesis"
       ["Preface"; "CHAPTER 1"; "A title"; "1 In the beginning"; "God created";
        "2 And the earth"; "1 Thus the heavens"; "3:1 Now the serpent"])
  = SplitBibleKjv.clean_book_lines "Genesis"
      ["Preface"; "CHAPTER 1"; "A title"; "1 In the beginning"; "God created";
       "2 And the earth"; "1 Thus the heavens"; "3:1 Now the serpent"].
Proof.
  apply (proj1 heading_pipeline_idempotent_iff_stable).
  vm_compute. reflexivity.
Defined.

(** C8 as stated fails: a line kept as preface that reads back as a colon
    verse, a colon verse that restarts at 1 in its chapter, a preface that
    reads back as a heading, as a chapter heading or as a verse entry in
    another spelling are read differently the second time; none of these
    outputs is stable. *)
Lemma clean_book_lines_not_idempotent :
  (bc <- SplitBibleKjv.split_books ["GENESIS"; "2:3"; "x"] ;;
   let out := SplitBibleKjv.clean_book_lines "Genesis" (default [] (bc !! "Genesis")) in
   Ok (out, SplitBibleKjv.clean_book_lines "Genesis" out))
  = Ok (["Chapter 1"; "2:3 x"], ["Chapter 1"; "Chapter 2"; "3 x"]) /\
  (bc <- SplitBibleKjv.split_books ["GENESIS"; "1:5 A"; "1:1 B"] ;;
   let out := SplitBibleKjv.clean_book_lines "Genesis" (default [] (bc !! "Genesis")) in
   Ok (out, SplitBibleKjv.clean_book_lines "Genesis" out))
  = Ok (["Chapter 1"; "5 A"; "1 B"], ["Chapter 1"; "5 A"; "Chapter 2"; "1 B"]) /\
  (bc <- SplitBibleKjv.split_books ["GENESIS"; "FIRST BOOK OF"; "SAMUEL"] ;;
   let out := SplitBibleKjv.clean_book_lines "Genesis" (default [] (bc !! "Genesis")) in
   Ok (out, SplitBibleKjv.clean_book_lines "Genesis" out))
  = Ok (["Chapter 1"; "FIRST BOOK OF SAMUEL"], ["Chapter 1"]) /\
  (bc <- SplitBibleKjv.split_books ["GENESIS"; "CHAPTER"; "5"] ;;
   let out := SplitBibleKjv.clean_book_lines "Genesis" (default [] (bc !! "Genesis")) in
   Ok (out, SplitBibleKjv.clean_book_lines "Genesis" out))
  = Ok (["Chapter 1"; "CHAPTER 5"], ["Chapter 1"; "Chapter 5"]) /\
  (bc <- SplitBibleKjv.split_books ["GENESIS"; "07"; "x"] ;;
   let out := SplitBibleKjv.clean_book_lines "Genesis" (default [] (bc !! "Genesis")) in
   Ok (out, SplitBibleKjv.clean_book_lines "Genesis" out))
  = Ok (["Chapter 1"; "07 x"], ["Chapter 1"; "7 x"]) /\
  stable_lines <$> [["Chapter 1"; "2:3 x"]; ["Chapter 1"; "5 A"; "1 B"];
                    ["Chapter 1"; "FIRST BOOK OF SAMUEL"]; ["Chapter 1"; "CHAPTER 5"];
                    ["Chapter 1"; "07 x"]]
  = [false; false; false; false; false].
Proof. vm_compute. repeat split. Qed.
